(** * XDbit chatbot: matching engine, rate-limited fetch pipeline and
      request handler

    A shallow embedding of [app.py]: the Python string primitives it calls,
    the [ratelimit.limits] decorator, [rate_limited_get_url_content],
    [preprocess], the TF-IDF vectorizer and cosine similarity it relies on,
    [custom_semantic_match], [generate_response], the conversation log and
    the view [chat], followed by the properties of the natural-language
    specification that were checked against them.

    Conventions.  Text is [str], a sequence of Unicode code points, as a
    Python [str] is.  Whitespace and line boundaries are the Unicode ones
    Python uses; case mapping and the classification of letters come from
    the Unicode character database, which is a parameter ([Unicode]) known
    on ASCII.  Clock readings are rationals [Q].  The similarities
    scikit-learn computes are float64 numbers; they are a parameter too
    ([Float64]), each read as the real number it denotes, next to the
    TF-IDF arithmetic in exact real numbers they approximate.  Effects (the
    clock, the global rate-limiter cells, the network, raised exceptions)
    are threaded through the monad [M]. *)

From Stdlib Require Import List Bool Arith NArith ZArith Lia Sorted.
From Stdlib Require Strings.Byte.
From Stdlib Require Import QArith Lqa.
From Stdlib Require Import Reals Lra.
Import ListNotations.

Close Scope R_scope.
Close Scope Q_scope.

(* ================================================================= *)
(** ** Python strings *)

(** A character is a Unicode code point. *)
Definition char : Set := N.
Bind Scope N_scope with char.

Inductive str : Set :=
| EmptyString
| String (c : char) (s : str).

(** String literals: the source's literals are ASCII, one code point per
    byte. *)
Fixpoint str_of_bytes (l : list Byte.byte) : str :=
  match l with
  | [] => EmptyString
  | b :: l' => String (Byte.to_N b) (str_of_bytes l')
  end.

Fixpoint bytes_of_str (s : str) : option (list Byte.byte) :=
  match s with
  | EmptyString => Some []
  | String c s' =>
      match (if (c <? 128)%N then Byte.of_N c else None), bytes_of_str s' with
      | Some b, Some l => Some (b :: l)
      | _, _ => None
      end
  end.

Declare Scope str_scope.
Delimit Scope str_scope with str.
Bind Scope str_scope with str.
String Notation str str_of_bytes bytes_of_str : str_scope.
Open Scope str_scope.
Open Scope list_scope.
Open Scope nat_scope.

Module Py.

(** [a + b] *)
Fixpoint append (a b : str) : str :=
  match a with
  | EmptyString => b
  | String c a' => String c (append a' b)
  end.

(** [len(s)]: the number of code points. *)
Fixpoint len (s : str) : nat :=
  match s with
  | EmptyString => 0
  | String _ s' => S (len s')
  end.

(** [a == b] *)
Fixpoint eqb (a b : str) : bool :=
  match a, b with
  | EmptyString, EmptyString => true
  | String c a', String d b' => (c =? d)%N && eqb a' b'
  | _, _ => false
  end.

Definition between (lo hi n : nat) : bool := (lo <=? n) && (n <=? hi).

Definition in_range (lo hi c : char) : bool := ((lo <=? c) && (c <=? hi))%N.

(** [c.isspace()], which is also what [str.strip] removes: the
    characters the Unicode database classes as whitespace. *)
Definition isspace (c : char) : bool :=
  in_range 9 13 c || in_range 28 32 c
  || (c =? 133)%N || (c =? 160)%N || (c =? 5760)%N
  || in_range 8192 8202 c
  || (c =? 8232)%N || (c =? 8233)%N || (c =? 8239)%N || (c =? 8287)%N
  || (c =? 12288)%N.

(** [s.startswith(p)] *)
Fixpoint prefix (p s : str) : bool :=
  match p, s with
  | EmptyString, _ => true
  | String c p', String d s' => (c =? d)%N && prefix p' s'
  | String _ _, EmptyString => false
  end.

Definition startswith (s p : str) : bool := prefix p s.

(** [s[n:]] *)
Fixpoint slice_from (n : nat) (s : str) : str :=
  match n, s with
  | O, _ => s
  | S _, EmptyString => EmptyString
  | S n', String _ s' => slice_from n' s'
  end.

(** [s[:n]] *)
Fixpoint slice_to (n : nat) (s : str) : str :=
  match n, s with
  | O, _ => EmptyString
  | S _, EmptyString => EmptyString
  | S n', String c s' => String c (slice_to n' s')
  end.

Fixpoint lstrip (s : str) : str :=
  match s with
  | EmptyString => EmptyString
  | String c s' => if isspace c then lstrip s' else s
  end.

Fixpoint rstrip (s : str) : str :=
  match s with
  | EmptyString => EmptyString
  | String c s' =>
      match rstrip s' with
      | EmptyString => if isspace c then EmptyString else String c EmptyString
      | r => String c r
      end
  end.

(** [s.strip()] *)
Definition strip (s : str) : str := rstrip (lstrip s).

(** Truth value of a string: [if s:] *)
Definition truthy (s : str) : bool :=
  match s with EmptyString => false | String _ _ => true end.

(** [p in s] *)
Fixpoint contains (p s : str) : bool :=
  prefix p s ||
  match s with
  | EmptyString => false
  | String _ s' => contains p s'
  end.

Definition snoc (s : str) (c : char) : str := append s (String c EmptyString).

(** Line boundaries recognised by [str.splitlines]: LF, VT, FF, CR, FS,
    GS, RS, NEL (U+0085), LINE SEPARATOR (U+2028) and PARAGRAPH SEPARATOR
    (U+2029); the pair CR LF is one boundary. *)
Definition is_linebreak (c : char) : bool :=
  in_range 10 13 c || in_range 28 30 c
  || (c =? 133)%N || (c =? 8232)%N || (c =? 8233)%N.

Definition is_cr (c : char) : bool := (c =? 13)%N.
Definition is_lf (c : char) : bool := (c =? 10)%N.

Fixpoint lines_from (prev_cr : bool) (cur s : str) : list str :=
  match s with
  | EmptyString => match cur with EmptyString => [] | _ => [cur] end
  | String c s' =>
      if prev_cr && is_lf c then lines_from false cur s'
      else if is_linebreak c then cur :: lines_from (is_cr c) EmptyString s'
      else lines_from false (snoc cur c) s'
  end.

(** [s.splitlines()] *)
Definition splitlines (s : str) : list str := lines_from false EmptyString s.

(** [s.split("  ")]: cut at each occurrence of two blanks (U+0020), left
    to right. *)
Fixpoint split_from (cur s : str) : list str :=
  match s with
  | EmptyString => [cur]
  | String c s' =>
      match s' with
      | String c' s'' =>
          if (c =? 32)%N && (c' =? 32)%N then cur :: split_from EmptyString s''
          else split_from (snoc cur c) s'
      | EmptyString => [snoc cur c]
      end
  end.

Definition split_2sp (s : str) : list str := split_from EmptyString s.

(** [sep.join(l)] *)
Fixpoint join (sep : str) (l : list str) : str :=
  match l with
  | [] => EmptyString
  | [x] => x
  | x :: l' => append x (append sep (join sep l'))
  end.

(** *** Letters and case on ASCII *)

Definition is_ascii (c : char) : bool := (c <? 128)%N.

Definition ascii_isupper (c : char) : bool := in_range 65 90 c.
Definition ascii_islower (c : char) : bool := in_range 97 122 c.
Definition ascii_isalpha (c : char) : bool := ascii_isupper c || ascii_islower c.
Definition ascii_isdigit (c : char) : bool := in_range 48 57 c.

(** The word characters of [\w] among the ASCII ones. *)
Definition ascii_isword (c : char) : bool :=
  ascii_isalpha c || ascii_isdigit c || (c =? 95)%N.

Definition ascii_lower (c : char) : char :=
  if ascii_isupper c then (c + 32)%N else c.

(** *** The Unicode character database

    [str.lower], [str.isalpha] and the class [\w] of regular expressions
    read the tables of the Unicode character database.  The tables are a
    parameter; what is known of them is their content on ASCII.

    [lower_at before c after] is what [str.lower] writes for the character
    [c] standing between [before] (nearest character first) and [after]:
    the lowercase mapping of [c], one to three characters; the context
    matters for the capital sigma only.  [isalpha_char] is [str.isalpha]
    on one character and [isword_char] is the class [\w] of a [str]
    pattern (alphanumeric characters and the underscore). *)
Class Unicode : Type := {
  lower_at : str -> char -> str -> str;
  isalpha_char : char -> bool;
  isword_char : char -> bool;
  lower_at_ascii : forall before c after,
    is_ascii c = true ->
    lower_at before c after = String (ascii_lower c) EmptyString;
  isalpha_char_ascii : forall c,
    is_ascii c = true -> isalpha_char c = ascii_isalpha c;
  isword_char_ascii : forall c,
    is_ascii c = true -> isword_char c = ascii_isword c
}.

Section Cased.

Context {unicode : Unicode}.

Fixpoint lower_from (before s : str) : str :=
  match s with
  | EmptyString => EmptyString
  | String c s' => append (lower_at before c s') (lower_from (String c before) s')
  end.

(** [s.lower()] *)
Definition lower (s : str) : str := lower_from EmptyString s.

Fixpoint all_letters (s : str) : bool :=
  match s with
  | EmptyString => true
  | String c s' => isalpha_char c && all_letters s'
  end.

(** [s.isalpha()]: non-empty and letters only. *)
Definition isalpha (s : str) : bool := truthy s && all_letters s.

End Cased.

End Py.

Notation "a ++ b" := (Py.append a b) : str_scope.

(* ================================================================= *)
(** ** Exceptions, the outside world and the effect monad *)

(** The exceptions that reach [app.py], each with the text [str(e)] gives. *)
Inductive exn : Type :=
| RateLimitException (msg : str) (period_remaining : Q)
    (* raised by the [ratelimit.limits] wrapper *)
| RequestException (msg : str)
    (* [requests.exceptions.RequestException] and its subclasses *)
| TemplateNotFound (name : str)
    (* [jinja2.exceptions.TemplateNotFound] *)
| PyException (msg : str).
    (* any other subclass of [Exception] *)

Definition str_exn (e : exn) : str :=
  match e with
  | RateLimitException m _ => m
  | RequestException m => m
  | TemplateNotFound m => m
  | PyException m => m
  end.

Inductive result (A : Type) : Type :=
| Ok (a : A)
| Raise (e : exn).
Arguments Ok {A} a.
Arguments Raise {A} e.

(** An HTTP response as [requests] presents it. *)
Record Response : Type := mkResponse {
  status_code : nat;
  reason : str;
  resp_url : str;
  text : str
}.

(** What [requests.get] does on one call. *)
Inductive HttpOutcome : Type :=
| ConnectionFailed (msg : str)   (* raises a [RequestException] *)
| Crashed (msg : str)            (* raises some other [Exception] *)
| Responded (r : Response).

(** The behaviour of the world during one request: the network, how long
    the network and [time.sleep] take, the HTML parser ([BeautifulSoup]
    with the [script] and [style] subtrees extracted, then [get_text]),
    [time.strftime], and Flask's [render_template] over the templates that
    are deployed with the application, applied to a template name and the
    value of [chat_history]. *)
Record Env : Type := mkEnv {
  http : str -> HttpOutcome;
  net_delay : Q;
  sleep_over : Q;
  html_text : str -> result str;
  strftime : str -> str;
  render_template : str -> list (str * str * str) -> result str
}.

(** Effects worth observing, in the order they happen. *)
Inductive Event : Type :=
| EvInvoke (url : str)     (* [rate_limited_get_url_content(url)] is called *)
| EvSleep (d : Q)          (* [time.sleep(d)] *)
| EvHttpGet (url : str)    (* [requests.get(url, ...)] *)
| EvParse (body : str).    (* [BeautifulSoup(body, 'html.parser')] *)

(** Process-wide mutable state. *)
Record State : Type := mkState {
  now : Q;                 (* the clock, as [time.time()] reads it *)
  last_request_time : Q;   (* the cell [last_request_time[0]] *)
  last_reset : Q;          (* [RateLimitDecorator.last_reset] *)
  num_calls : nat;         (* [RateLimitDecorator.num_calls] *)
  events : list Event
}.

Definition M (A : Type) : Type := Env -> State -> result A * State.

Definition ret {A : Type} (a : A) : M A := fun _ s => (Ok a, s).

Definition bind {A B : Type} (m : M A) (k : A -> M B) : M B :=
  fun e s =>
    match m e s with
    | (Ok a, s') => k a e s'
    | (Raise x, s') => (Raise x, s')
    end.

Definition raise {A : Type} (x : exn) : M A := fun _ s => (Raise x, s).

(** [try: body except Exception as e: handler e] *)
Definition try_except {A : Type} (body : M A) (handler : exn -> M A) : M A :=
  fun e s =>
    match body e s with
    | (Ok a, s') => (Ok a, s')
    | (Raise x, s') => handler x e s'
    end.

Declare Scope monad_scope.
Delimit Scope monad_scope with monad.
Notation "x <- m ;; k" := (bind m (fun x => k))
  (at level 61, m at next level, right associativity) : monad_scope.
Notation "m ;; k" := (bind m (fun _ => k))
  (at level 61, right associativity) : monad_scope.
Open Scope monad_scope.

Definition ask : M Env := fun e s => (Ok e, s).
Definition get : M State := fun _ s => (Ok s, s).
Definition put (s : State) : M unit := fun _ _ => (Ok tt, s).
Definition modify (f : State -> State) : M unit := fun _ s => (Ok tt, f s).

Definition set_now (t : Q) (s : State) : State :=
  mkState t (last_request_time s) (last_reset s) (num_calls s) (events s).
Definition set_last_request_time (t : Q) (s : State) : State :=
  mkState (now s) t (last_reset s) (num_calls s) (events s).
Definition set_last_reset (t : Q) (s : State) : State :=
  mkState (now s) (last_request_time s) t (num_calls s) (events s).
Definition set_num_calls (n : nat) (s : State) : State :=
  mkState (now s) (last_request_time s) (last_reset s) n (events s).
Definition log (ev : Event) (s : State) : State :=
  mkState (now s) (last_request_time s) (last_reset s) (num_calls s) (events s ++ [ev]).

Definition emit (ev : Event) : M unit := modify (log ev).

Definition Qltb (x y : Q) : bool := negb (Qle_bool y x).

(** [time.time()] *)
Definition time_time : M Q := s <- get ;; ret (now s).

(** Time passing: the clock moves forward by [d]. *)
Definition elapse (d : Q) : M unit := modify (fun s => set_now (now s + d)%Q s).

(** [time.sleep(d)]: refuses a negative length, otherwise returns after at
    least [d]. *)
Definition time_sleep (d : Q) : M unit :=
  if Qltb d 0 then raise (PyException "sleep length must be non-negative")
  else
    e <- ask ;;
    emit (EvSleep d) ;;
    elapse (d + sleep_over e)%Q.

(** [requests.get(url, headers=headers, timeout=10)] *)
Definition requests_get (url : str) : M Response :=
  e <- ask ;;
  emit (EvHttpGet url) ;;
  elapse (net_delay e) ;;
  match http e url with
  | ConnectionFailed msg => raise (RequestException msg)
  | Crashed msg => raise (PyException msg)
  | Responded r => ret r
  end.

Fixpoint digits (u : Decimal.uint) : str :=
  match u with
  | Decimal.Nil => EmptyString
  | Decimal.D0 u' => String 48 (digits u')
  | Decimal.D1 u' => String 49 (digits u')
  | Decimal.D2 u' => String 50 (digits u')
  | Decimal.D3 u' => String 51 (digits u')
  | Decimal.D4 u' => String 52 (digits u')
  | Decimal.D5 u' => String 53 (digits u')
  | Decimal.D6 u' => String 54 (digits u')
  | Decimal.D7 u' => String 55 (digits u')
  | Decimal.D8 u' => String 56 (digits u')
  | Decimal.D9 u' => String 57 (digits u')
  end.

(** [str(n)] for a natural number. *)
Definition decimal (n : nat) : str := digits (Nat.to_uint n).

Definition http_error_msg (r : Response) : str :=
  if Py.between 400 499 (status_code r) then
    (decimal (status_code r) ++ " Client Error: " ++ reason r ++ " for url: " ++ resp_url r)%str
  else if Py.between 500 599 (status_code r) then
    (decimal (status_code r) ++ " Server Error: " ++ reason r ++ " for url: " ++ resp_url r)%str
  else EmptyString.

(** [Response.raise_for_status()] *)
Definition raise_for_status (r : Response) : M unit :=
  if Py.truthy (http_error_msg r) then raise (RequestException (http_error_msg r))
  else ret tt.

(** [BeautifulSoup(body, 'html.parser')], extraction of every [script] and
    [style] node, then [soup.get_text()]. *)
Definition soup_get_text (body : str) : M str :=
  e <- ask ;;
  emit (EvParse body) ;;
  match html_text e body with
  | Ok t => ret t
  | Raise x => raise x
  end.

(* ================================================================= *)
(** ** The [ratelimit] decorator *)

Module Ratelimit.

(** [ratelimit.limits(calls, period)] applied to [func]: a counter of the
    attempts since [last_reset]; the counter restarts once [period] has
    elapsed; an attempt beyond [calls] raises [RateLimitException]
    ([raise_on_limit] is left at its default). *)
Definition limits {A : Type} (calls : nat) (period : Q) (func : M A) : M A :=
  s <- get ;;
  let period_remaining := (period - (now s - last_reset s))%Q in
  (if Qle_bool period_remaining 0
   then modify (fun s => set_last_reset (now s) (set_num_calls 0 s))
   else ret tt) ;;
  modify (fun s => set_num_calls (S (num_calls s)) s) ;;
  s' <- get ;;
  if calls <? num_calls s'
  then raise (RateLimitException "too many calls" period_remaining)
  else func.

End Ratelimit.

(* ================================================================= *)
(** ** The content fetcher *)

Definition newline : str := String 10 EmptyString.

(** Lines 90-92: strip every line, cut it at double blanks, strip the
    pieces, drop the empty ones and join what is left with newlines. *)
Definition collapse (text : str) : str :=
  let lines := map Py.strip (Py.splitlines text) in
  let chunks := flat_map (fun line => map Py.strip (Py.split_2sp line)) lines in
  Py.join newline (filter Py.truthy chunks).

Definition DISALLOWED : str := "Scraping not permitted by website.".

Definition fetch_body (url : str) : M str :=
  try_except
    (current_time <- time_time ;;
     s <- get ;;
     (if Qltb (current_time - last_request_time s)%Q 1
      then time_sleep (1 - (current_time - last_request_time s))%Q
      else ret tt) ;;
     t <- time_time ;;
     modify (set_last_request_time t) ;;
     response <- requests_get url ;;
     raise_for_status response ;;
     if Py.contains "Disallow" (text response) then ret DISALLOWED
     else
       text <- soup_get_text (text response) ;;
       ret (collapse text))
    (fun e =>
       match e with
       | RequestException _ => ret ("Error accessing URL: " ++ str_exn e)%str
       | _ => ret ("An unexpected error occurred during scraping: " ++ str_exn e)%str
       end).

(** [@ratelimit.limits(calls=10, period=60) def rate_limited_get_url_content(url)] *)
Definition rate_limited_get_url_content (url : str) : M str :=
  emit (EvInvoke url) ;;
  Ratelimit.limits 10 (60 # 1) (fetch_body url).

(* ================================================================= *)
(** ** NLTK *)

(** The four NLTK services [app.py] uses.  [stop_words] is membership in
    [set(stopwords.words('english'))]; [lemmatize] is
    [WordNetLemmatizer().lemmatize] with its default part of speech. *)
Class Nltk : Type := {
  word_tokenize : str -> list str;
  sent_tokenize : str -> list str;
  stop_words : str -> bool;
  lemmatize : str -> str
}.

(* ================================================================= *)
(** ** scikit-learn: [TfidfVectorizer] and [cosine_similarity] *)

Definition str_eq_dec (a b : str) : {a = b} + {a <> b}.
Proof. decide equality. apply N.eq_dec. Defined.

Module Sklearn.

Section Vectorizer.

Context {unicode : Py.Unicode}.

Fixpoint runs_from (cur s : str) : list str :=
  match s with
  | EmptyString => [cur]
  | String c s' =>
      if Py.isword_char c then runs_from (Py.snoc cur c) s'
      else cur :: runs_from EmptyString s'
  end.

(** The default analyzer: lowercase, then every match of the token
    pattern [\b\w\w+\b], i.e. the maximal runs of word characters that
    are at least two characters long. *)
Definition analyzer (doc : str) : list str :=
  filter (fun t => 2 <=? Py.len t) (runs_from EmptyString (Py.lower doc)).

Definition count (t : str) (tokens : list str) : nat :=
  count_occ str_eq_dec tokens t.

(** Number of documents of the corpus in which [t] occurs. *)
Definition df (corpus : list str) (t : str) : nat :=
  List.length (filter (fun d => existsb (Py.eqb t) (analyzer d)) corpus).

(** A fitted vectorizer: the vocabulary (sklearn orders it alphabetically;
    here it is the list of distinct terms in another fixed order, which
    permutes coordinates only) and the smoothed inverse document
    frequencies. *)
Record Tfidf : Type := mkTfidf {
  vocabulary_ : list str;
  idf_ : str -> R
}.

(** The vocabulary and the weights [fit_transform] learns from a corpus.
    On a corpus without any term [fit_transform] raises [ValueError]
    instead (see [import_module] below). *)
Definition fit (corpus : list str) : Tfidf :=
  mkTfidf
    (nodup str_eq_dec (flat_map analyzer corpus))
    (fun t => (ln ((1 + INR (List.length corpus)) / (1 + INR (df corpus t))) + 1)%R).

Fixpoint dot (u v : list R) : R :=
  match u, v with
  | x :: u', y :: v' => (x * y + dot u' v')%R
  | _, _ => 0%R
  end.

Definition norm (v : list R) : R := sqrt (dot v v).

(** A zero norm is replaced by 1 before dividing. *)
Definition handle_zeros (n : R) : R := if Req_dec_T n 0 then 1%R else n.

(** [sklearn.preprocessing.normalize(v, norm='l2')] on one row. *)
Definition normalize (v : list R) : list R :=
  map (fun x => (x / handle_zeros (norm v))%R) v.

(** Term counts over the frozen vocabulary, weighted by idf. *)
Definition weigh (m : Tfidf) (doc : str) : list R :=
  map (fun t => (INR (count t (analyzer doc)) * idf_ m t)%R) (vocabulary_ m).

(** [vectorizer.transform([doc])], as one row. *)
Definition transform (m : Tfidf) (doc : str) : list R :=
  normalize (weigh m doc).

(** [cosine_similarity(x, Y).flatten()] for a one-row [x]. *)
Definition cosine_similarity (x : list R) (Y : list (list R)) : list R :=
  map (fun y => dot (normalize x) (normalize y)) Y.

(** What lines 46, 106 and 107 compute for the document [doc] against the
    corpus, in exact arithmetic: the cosine of the angle between the
    TF-IDF vector of [doc] and that of each document of the corpus. *)
Definition exact_row (corpus : list str) (doc : str) : list R :=
  cosine_similarity (transform (fit corpus) doc) (map (transform (fit corpus)) corpus).

End Vectorizer.

(** *** The numbers scikit-learn computes

    scikit-learn works in float64: its weights, norms and similarities are
    those of [exact_row] up to rounding, and rounding decides comparisons
    at the threshold.  What the library returns is therefore a parameter:
    [cosine_row corpus doc] is the array
    [cosine_similarity(v.transform([doc]), v.fit_transform(corpus)).flatten()]
    for [v = TfidfVectorizer()], each float64 entry read as the real number
    it denotes. *)
Class Float64 : Type := {
  cosine_row : list str -> str -> list R;
  (* the array has one entry per document of the corpus *)
  cosine_row_length : forall corpus doc,
    List.length (cosine_row corpus doc) = List.length corpus
}.

(** A bound far above the rounding errors of the computation. *)
Definition ROUNDING : R := (1 / 1000000000)%R.

(** What is assumed of the library where a property depends on the values:
    each similarity is within [ROUNDING] of the exact one, and is exactly
    zero where the exact one is (the two texts share no term: sums and
    products of zeros are exact in float64). *)
Definition accurate {unicode : Py.Unicode} (F : Float64) : Prop :=
  forall (corpus : list str) (doc : str),
    Forall2 (fun x y => (Rabs (x - y) <= ROUNDING)%R /\ (y = 0%R -> x = 0%R))
            (cosine_row corpus doc) (exact_row corpus doc).

(** Arithmetic without rounding. *)
Definition exact {unicode : Py.Unicode} : Float64.
Proof.
  refine {| cosine_row := exact_row |}.
  intros corpus doc. unfold exact_row, cosine_similarity.
  rewrite !length_map. reflexivity.
Defined.

(** A library that returns the similarity [row i] for the document number
    [i] of the corpus whatever the texts are, to place a similarity where
    one wants it. *)
Definition fixed (row : nat -> R) : Float64.
Proof.
  refine {| cosine_row := fun corpus _ => map row (seq 0 (List.length corpus)) |}.
  intros corpus doc. rewrite length_map, length_seq. reflexivity.
Defined.

Fixpoint argmax_from (best : nat) (best_val : R) (i : nat) (l : list R) : nat :=
  match l with
  | [] => best
  | x :: l' =>
      if Rlt_dec best_val x then argmax_from i x (S i) l'
      else argmax_from best best_val (S i) l'
  end.

(** [a.argmax()]: the first index of the greatest element; [None] stands
    for the [ValueError] numpy raises on an empty array. *)
Definition argmax (l : list R) : option nat :=
  match l with
  | [] => None
  | x :: l' => Some (argmax_from 0 x 1 l')
  end.

End Sklearn.

(* ================================================================= *)
(** ** The knowledge base, the matcher and the router *)

Inductive Answer : Type :=
| StaticText (s : str)
| DynamicGenerator (g : M str).   (* entries flagged ["dynamic": True] *)

Record KnowledgeEntry : Type := mkEntry {
  question : str;
  answer : Answer
}.

Definition strftime_answer (before fmt after : str) : Answer :=
  DynamicGenerator (e <- ask ;; ret (before ++ strftime e fmt ++ after)%str).

Definition ADVANCED_KNOWLEDGE : list KnowledgeEntry :=
  [ mkEntry "hello" (StaticText "Hello there! How can I help you today?");
    mkEntry "how are you"
      (StaticText "I'm just a program, but I'm doing great! Thanks for asking.");
    mkEntry "what is your name" (StaticText "I am an NLTK Flask Chatbot.");
    mkEntry "tell me a joke"
      (StaticText "Why don't scientists trust atoms? Because they make up everything!");
    mkEntry "what time is it" (strftime_answer "The current time is " "%H:%M:%S" ".");
    mkEntry "what is the date" (strftime_answer "Today's date is " "%Y-%m-%d" ".");
    mkEntry "who is albert einstein"
      (StaticText "Albert Einstein was a theoretical physicist who developed the theory of relativity.");
    mkEntry "define artificial intelligence"
      (StaticText "Artificial Intelligence is the simulation of human intelligence in machines.") ].

(** The literal [0.6] of line 110 as Python reads it: the float64 nearest
    to six tenths, which is 5404319552844595 / 2^53, a little below. *)
Definition THRESHOLD : R := (5404319552844595 / 9007199254740992)%R.

Section App.

Context {unicode : Py.Unicode} {nltk : Nltk} {float64 : Sklearn.Float64}.
Variable KB : list KnowledgeEntry.

Definition knowledge_questions : list str := map question KB.

(** The vocabulary and the weights the vectorizer has after line 46. *)
Definition vectorizer : Sklearn.Tfidf := Sklearn.fit knowledge_questions.

(** Lines 44-46, run when the module is imported: [fit_transform] raises
    [ValueError] when no question has a term, and then the module, with
    every function below, does not exist. *)
Definition import_module : result unit :=
  match Sklearn.vocabulary_ vectorizer with
  | [] => Raise (PyException
                   "empty vocabulary; perhaps the documents only contain stop words")
  | _ :: _ => Ok tt
  end.

Definition preprocess (text : str) : str :=
  let tokens := word_tokenize (Py.lower text) in
  let lemmas :=
    map lemmatize
        (filter (fun token => Py.isalpha token && negb (stop_words token)) tokens) in
  Py.join " " lemmas.

(** Lines 105-107: the similarities as the library returns them. *)
Definition similarities_of (user_input : str) : list R :=
  let processed_input := preprocess user_input in
  Sklearn.cosine_row knowledge_questions processed_input.

(** The answer of a matched entry; a dynamic one is computed now. *)
Definition resolve (a : Answer) : M str :=
  match a with
  | DynamicGenerator g => g
  | StaticText s => ret s
  end.

(** Python's [None] is the [None] of [option]. *)
Definition custom_semantic_match (user_input : str) : M (option str) :=
  let similarities := similarities_of user_input in
  match Sklearn.argmax similarities with
  | None => raise (PyException "attempt to get argmax of an empty sequence")
  | Some max_sim_idx =>
      let max_sim_score := nth max_sim_idx similarities 0%R in
      if Rlt_dec THRESHOLD max_sim_score then
        match nth_error KB max_sim_idx with
        | Some match_item => a <- resolve (answer match_item) ;; ret (Some a)
        | None => raise (PyException "list index out of range")
        end
      else ret None
  end.

Definition dquote : str := String 34 EmptyString.

Definition generate_response (user_input : str) : M str :=
  let user_input_lower := Py.lower user_input in
  if Py.startswith user_input_lower "scrape " then
    let url := Py.strip (Py.slice_from (Py.len "scrape ") user_input) in
    if Py.truthy url then
      scraped_text <- rate_limited_get_url_content url ;;
      if Py.startswith scraped_text "Error"
         || Py.startswith scraped_text "Scraping not permitted"
      then ret scraped_text
      else
        let marker := if 500 <? Py.len scraped_text then "..." else "" in
        let preview := (Py.slice_to 500 scraped_text ++ marker)%str in
        ret ("Successfully scraped content from " ++ url ++ ":<br><pre>"
             ++ preview ++ "</pre>")%str
    else ret "Please provide a URL to scrape."
  else
    m <- custom_semantic_match user_input ;;
    match m with
    | Some (String c a) => ret (String c a)
    | _ =>
        match sent_tokenize user_input with
        | first :: _ =>
            ret ("I'm not sure how to respond to that. You said: "
                 ++ dquote ++ first ++ dquote)%str
        | [] => ret "I'm not sure how to respond to that."
        end
    end.

End App.

(* ================================================================= *)
(** ** Vocabulary for the statements *)

(** The decorator's bookkeeping on entry: restart the period if it has
    elapsed, then count the attempt. *)
Definition enter (s : State) : State :=
  let s1 := if Qle_bool ((60 # 1) - (now s - last_reset s)) 0
            then set_last_reset (now s) (set_num_calls 0 s) else s in
  set_num_calls (S (num_calls s1)) s1.

(** The decorator lets the call through. *)
Definition admits (s : State) : bool := num_calls (enter s) <=? 10.

(** The spacing step (lines 76-79): sleep for what is missing to one
    second since the recorded time, then record the clock. *)
Definition pace (e : Env) (s : State) : State :=
  let gap := (now s - last_request_time s)%Q in
  let s1 := if Qltb gap 1
            then set_now (now s + ((1 - gap) + sleep_over e))%Q (log (EvSleep (1 - gap)%Q) s)
            else s in
  set_last_request_time (now s1) s1.

Definition after_get (e : Env) (url : str) (s : State) : State :=
  let s1 := log (EvHttpGet url) (pace e s) in
  set_now (now s1 + net_delay e)%Q s1.

(** The text the body of the fetcher returns, by cases on the world. *)
Definition fetch_text (e : Env) (url : str) : str :=
  match http e url with
  | ConnectionFailed msg => ("Error accessing URL: " ++ msg)%str
  | Crashed msg => ("An unexpected error occurred during scraping: " ++ msg)%str
  | Responded r =>
      if Py.truthy (http_error_msg r) then ("Error accessing URL: " ++ http_error_msg r)%str
      else if Py.contains "Disallow" (text r) then DISALLOWED
      else
        match html_text e (text r) with
        | Ok t => collapse t
        | Raise (RequestException m) => ("Error accessing URL: " ++ m)%str
        | Raise x => ("An unexpected error occurred during scraping: " ++ str_exn x)%str
        end
  end.

(** Whether the body of the fetcher reaches the HTML parser. *)
Definition parse_events (e : Env) (url : str) : list Event :=
  match http e url with
  | Responded r =>
      if Py.truthy (http_error_msg r) then []
      else if Py.contains "Disallow" (text r) then []
      else [EvParse (text r)]
  | _ => []
  end.

Definition fetch_state (e : Env) (url : str) (s : State) : State :=
  let s1 := after_get e url s in
  mkState (now s1) (last_request_time s1) (last_reset s1) (num_calls s1)
          (events s1 ++ parse_events e url).

Definition invocations (l : list Event) : list str :=
  flat_map (fun ev => match ev with EvInvoke u => [u] | _ => [] end) l.

Definition http_gets (l : list Event) : list str :=
  flat_map (fun ev => match ev with EvHttpGet u => [u] | _ => [] end) l.

Definition parses (l : list Event) : list str :=
  flat_map (fun ev => match ev with EvParse b => [b] | _ => [] end) l.

Definition sleeps (l : list Event) : list Q :=
  flat_map (fun ev => match ev with EvSleep d => [d] | _ => [] end) l.

(** The scrape command as the router recognises it. *)
Definition is_scrape_command {unicode : Py.Unicode} (user_input : str) : bool :=
  Py.startswith (Py.lower user_input) "scrape ".

Definition scrape_url (user_input : str) : str :=
  Py.strip (Py.slice_from 7 user_input).

(** The first [n] characters of [t], all of [t] if it has fewer. *)
Fixpoint first_chars (n : nat) (t : str) : str :=
  match t with
  | EmptyString => EmptyString
  | String c t' =>
      match n with
      | O => EmptyString
      | S n' => String c (first_chars n' t')
      end
  end.

(** The preview of a fetched text as the specification words it: the text
    itself up to 500 characters, else its first 500 characters and the
    ellipsis marker. *)
Definition spec_preview (t : str) : str :=
  if Py.len t <=? 500 then t
  else (first_chars 500 t ++ "...")%str.

Definition success_message (url preview : str) : str :=
  ("Successfully scraped content from " ++ url ++ ":<br><pre>" ++ preview ++ "</pre>")%str.

(** What the router makes of the text the fetcher returned. *)
Definition routed (url t : str) : str :=
  if Py.startswith t "Error" || Py.startswith t "Scraping not permitted" then t
  else success_message url (spec_preview t).

(** The router on a scrape command for a URL that is not empty. *)
Definition scrape (user_input : str) : M str :=
  fun e s =>
    match rate_limited_get_url_content (scrape_url user_input) e s with
    | (Ok t, s') => (Ok (routed (scrape_url user_input) t), s')
    | (Raise x, s') => (Raise x, s')
    end.

(** The sleep the spacing step performs, if any. *)
Definition sleep_events (s : State) : list Event :=
  let gap := (now s - last_request_time s)%Q in
  if Qltb gap 1 then [EvSleep (1 - gap)%Q] else [].

(** *** Sequences of requests *)

(** One request: the time that passes before it arrives, the behaviour of
    the world while it is served, and its argument. *)
Record Request : Type := mkRequest {
  idle : Q;
  world : Env;
  input : str
}.

(** What one call left behind: its outcome, the period of the decorator
    it fell in, the recorded request time and the clock on return. *)
Record Completion (A : Type) : Type := mkCompletion {
  outcome : result A;
  period_start : Q;
  started_at : Q;
  returned_at : Q
}.
Arguments mkCompletion {A}.
Arguments outcome {A}.
Arguments period_start {A}.
Arguments started_at {A}.
Arguments returned_at {A}.

Fixpoint serve {A : Type} (f : str -> M A) (reqs : list Request) (s : State)
  : list (Completion A) :=
  match reqs with
  | [] => []
  | r :: reqs' =>
      let s0 := set_now (now s + idle r)%Q s in
      let (o, s1) := f (input r) (world r) s0 in
      mkCompletion o (last_reset s1) (last_request_time s1) (now s1)
        :: serve f reqs' s1
  end.

Definition is_ok {A : Type} (r : result A) : bool :=
  match r with Ok _ => true | Raise _ => false end.

Definition is_rate_limit {A : Type} (r : result A) : bool :=
  match r with Raise (RateLimitException _ _) => true | _ => false end.

Fixpoint replicate (n : nat) (c : char) : str :=
  match n with
  | O => EmptyString
  | S n' => String c (replicate n' c)
  end.

(** The state right after the module is imported at clock [t]. *)
Definition boot (t : Q) : State := mkState t t t 0 [].

(** A page of [n] times the character [c] and nothing else. *)
Definition page_with (n : nat) (c : char) : Response :=
  mkResponse 200 "OK" "http://example.com" (replicate n c).

(** A page of [n] letters [a]. *)
Definition page_of (n : nat) : Response := page_with n 97.

(** The parser of a world whose pages are plain text already. *)
Definition as_is (body : str) : result str := Ok body.

(** The templates of this repository: there is none, so
    [render_template] raises [TemplateNotFound]. *)
Definition no_templates (name : str) (chat_history : list (str * str * str))
  : result str :=
  Raise (TemplateNotFound name).

(** A world in which every URL answers with [r], nothing takes time, the
    HTML parser behaves as [parser], and no template is deployed. *)
Definition serving (r : Response) (parser : str -> result str) : Env :=
  mkEnv (fun _ => Responded r) 0 0 parser (fun fmt => fmt) no_templates.

(** *** The Unicode tables on Latin-1

    On the code points up to U+00FF the tables are these; the instance
    leaves every other character as it is and takes none of them for a
    letter.  It is used to exercise the definitions on Latin-1 text. *)

Definition latin1_isupper (c : char) : bool :=
  Py.ascii_isupper c || Py.in_range 192 214 c || Py.in_range 216 222 c.

Definition latin1_lower (c : char) : char :=
  if latin1_isupper c then (c + 32)%N else c.

Definition latin1_isalpha (c : char) : bool :=
  Py.ascii_isalpha c || (c =? 170)%N || (c =? 181)%N || (c =? 186)%N
  || Py.in_range 192 214 c || Py.in_range 216 246 c || Py.in_range 248 255 c.

Definition latin1_isword (c : char) : bool :=
  latin1_isalpha c || Py.ascii_isdigit c || (c =? 95)%N
  || (c =? 178)%N || (c =? 179)%N || (c =? 185)%N || Py.in_range 188 190 c.

Definition latin1 : Py.Unicode.
Proof.
  assert (R : forall lo hi c : char,
             (128 <= lo)%N -> Py.is_ascii c = true -> Py.in_range lo hi c = false).
  { unfold Py.is_ascii, Py.in_range. intros lo hi c L A. apply N.ltb_lt in A.
    destruct (N.leb_spec lo c); [lia | reflexivity]. }
  assert (E : forall k c : char,
             (128 <= k)%N -> Py.is_ascii c = true -> (c =? k)%N = false).
  { unfold Py.is_ascii. intros k c L A. apply N.ltb_lt in A. apply N.eqb_neq. lia. }
  refine (Py.Build_Unicode (fun _ c _ => String (latin1_lower c) EmptyString)
                           latin1_isalpha latin1_isword _ _ _).
  - intros _ c _ A. f_equal. unfold latin1_lower, latin1_isupper, Py.ascii_lower.
    rewrite !(fun lo hi L => R lo hi c L A) by (cbv; discriminate).
    rewrite !orb_false_r. reflexivity.
  - intros c A. unfold latin1_isalpha.
    rewrite !(fun lo hi L => R lo hi c L A) by (cbv; discriminate).
    rewrite !(fun k L => E k c L A) by (cbv; discriminate).
    rewrite !orb_false_r. reflexivity.
  - intros c A. unfold latin1_isword, latin1_isalpha, Py.ascii_isword.
    rewrite (R 192 214 c)%N, (R 216 246 c)%N, (R 248 255 c)%N, (R 188 190 c)%N,
      (E 170 c)%N, (E 181 c)%N, (E 186 c)%N, (E 178 c)%N, (E 179 c)%N, (E 185 c)%N
      by first [exact A | cbv; discriminate].
    rewrite !orb_false_r. reflexivity.
Defined.

(** *** A reference NLTK for plain phrases

    On lowercase words separated by blanks, [word_tokenize] cuts at the
    blanks; a phrase without sentence punctuation is one sentence, with
    the whitespace at its end removed; the stop words are the English list
    shipped with NLTK; the lemmatizer leaves a word that is already its
    own lemma unchanged.  This instance does exactly that and is used to
    exercise the definitions on such phrases. *)

Fixpoint words_from (cur s : str) : list str :=
  match s with
  | EmptyString => [cur]
  | String c s' =>
      if Py.isspace c then cur :: words_from EmptyString s'
      else words_from (Py.snoc cur c) s'
  end.

Definition blank_split (s : str) : list str :=
  filter Py.truthy (words_from EmptyString s).

Definition english_stop_words : list str :=
  [ "i"; "me"; "my"; "myself"; "we"; "our"; "ours"; "ourselves"; "you";
    "you're"; "you've"; "you'll"; "you'd"; "your"; "yours"; "yourself";
    "yourselves"; "he"; "him"; "his"; "himself"; "she"; "she's"; "her";
    "hers"; "herself"; "it"; "it's"; "its"; "itself"; "they"; "them";
    "their"; "theirs"; "themselves"; "what"; "which"; "who"; "whom"; "this";
    "that"; "that'll"; "these"; "those"; "am"; "is"; "are"; "was"; "were";
    "be"; "been"; "being"; "have"; "has"; "had"; "having"; "do"; "does";
    "did"; "doing"; "a"; "an"; "the"; "and"; "but"; "if"; "or"; "because";
    "as"; "until"; "while"; "of"; "at"; "by"; "for"; "with"; "about";
    "against"; "between"; "into"; "through"; "during"; "before"; "after";
    "above"; "below"; "to"; "from"; "up"; "down"; "in"; "out"; "on"; "off";
    "over"; "under"; "again"; "further"; "then"; "once"; "here"; "there";
    "when"; "where"; "why"; "how"; "all"; "any"; "both"; "each"; "few";
    "more"; "most"; "other"; "some"; "such"; "no"; "nor"; "not"; "only";
    "own"; "same"; "so"; "than"; "too"; "very"; "s"; "t"; "can"; "will";
    "just"; "don"; "don't"; "should"; "should've"; "now"; "d"; "ll"; "m";
    "o"; "re"; "ve"; "y"; "ain"; "aren"; "aren't"; "couldn"; "couldn't";
    "didn"; "didn't"; "doesn"; "doesn't"; "hadn"; "hadn't"; "hasn";
    "hasn't"; "haven"; "haven't"; "isn"; "isn't"; "ma"; "mightn";
    "mightn't"; "mustn"; "mustn't"; "needn"; "needn't"; "shan"; "shan't";
    "shouldn"; "shouldn't"; "wasn"; "wasn't"; "weren"; "weren't"; "won";
    "won't"; "wouldn"; "wouldn't" ].

Definition plain_sentences (s : str) : list str :=
  match Py.rstrip s with
  | EmptyString => []
  | t => [t]
  end.

Definition plain_nltk : Nltk := {|
  word_tokenize := blank_split;
  sent_tokenize := plain_sentences;
  stop_words := fun t => existsb (Py.eqb t) english_stop_words;
  lemmatize := fun t => t
|}.

(** *** Worlds used as concrete inputs *)

(** NO-BREAK SPACE, NEXT LINE and the euro sign. *)
Definition NBSP : char := 160.
Definition NEL : char := 133.
Definition EURO : char := 8364.

(** A page whose visible text begins with the word Error. *)
Definition error_looking_page : Response :=
  mkResponse 200 "OK" "http://example.com/status"
             "Error codes explained: what 404 and 500 mean".

(** The same kind of page, with a no-break space before the text and a
    next-line character and a no-break space after it. *)
Definition padded_error_page : Response :=
  mkResponse 200 "OK" "http://example.com/status"
             (String NBSP ("Error 404 explained" ++ String NEL (String NBSP EmptyString))%str).

(** A parser that gives up on its input. *)
Definition giving_up (body : str) : result str :=
  Raise (PyException "maximum recursion depth exceeded").

(** A missing page whose body happens to contain the marker. *)
Definition missing_page : Response :=
  mkResponse 404 "Not Found" "http://example.com/robots.txt"
             "No robots.txt here; add one with a Disallow line.".

(** A page that does contain the marker and is served normally. *)
Definition robots_page : Response :=
  mkResponse 200 "OK" "http://example.com/robots.txt" "User-agent: * Disallow: /".

(** An answer whose computation leaves the state alone. *)
Definition quiet (a : Answer) : Prop :=
  forall (e : Env) (s : State), snd (resolve a e s) = s.

(** *** Vocabulary for sequences of calls *)

(** The recorded request time and the start of the current period are not
    in the future. *)
Definition settled (s : State) : Prop :=
  (last_request_time s <= now s)%Q /\ (last_reset s <= now s)%Q.

(** No request travels back in time: idle time, the overshoot of
    [time.sleep] and the duration of the network call are not negative. *)
Definition calm (reqs : list Request) : Prop :=
  Forall (fun r => (0 <= idle r)%Q /\ (0 <= sleep_over (world r))%Q
                   /\ (0 <= net_delay (world r))%Q) reqs.

(** Number of calls that were let through in the period starting at [p]. *)
Definition admitted_in {A : Type} (p : Q) (cs : list (Completion A)) : nat :=
  List.length (filter (fun c => is_ok (outcome c) && Qeq_bool (period_start c) p) cs).

(** How many more calls the decorator can let through in the period that
    starts at [p], seen from state [s]. *)
Definition quota_left (p : Q) (s : State) : nat :=
  if Qeq_bool p (last_reset s) then 10 - num_calls s
  else if Qltb p (last_reset s) then 0 else 10.

(** The recorded request times along a sequence of completions never
    decrease, and each call that was let through is at least one unit
    after the time recorded before it. *)
Fixpoint spaced {A : Type} (lo : Q) (cs : list (Completion A)) : Prop :=
  match cs with
  | [] => True
  | c :: cs' =>
      (lo <= started_at c)%Q
      /\ (is_ok (outcome c) = true -> (lo + 1 <= started_at c)%Q)
      /\ spaced (started_at c) cs'
  end.

Definition rapid (n : nat) (w : Env) (arg : str) : list Request :=
  repeat (mkRequest 0 w arg) n.

(** Ten calls from clock 50 on, then, one unit later, ten more. *)
Definition two_bursts : list Request :=
  mkRequest (50 # 1) (serving (page_of 10) as_is) "http://example.com"
  :: rapid 9 (serving (page_of 10) as_is) "http://example.com"
  ++ mkRequest 1 (serving (page_of 10) as_is) "http://example.com"
  :: rapid 9 (serving (page_of 10) as_is) "http://example.com".

(** A state in which the decorator has counted ten attempts in a period
    that started five units ago. *)
Definition quota_used_up : State := mkState (5 # 1) (5 # 1) 0 10 [].

(** *** Vocabulary for the matcher *)

(** The module was imported: line 46 did not raise. *)
Definition imported {unicode : Py.Unicode} (KB : list KnowledgeEntry) : Prop :=
  import_module KB = Ok tt.

(** [m] is the greatest element of [l]. *)
Definition is_max (m : R) (l : list R) : Prop :=
  In m l /\ Forall (fun x => (x <= m)%R) l.

(** Similarities that are zero except at entry number 4 of the knowledge
    base, the dynamic entry ["what time is it"]. *)
Definition time_row (x : R) (i : nat) : R :=
  if i =? 4 then x else 0%R.

(** What NLTK does on the question ["what is your name"]: four tokens,
    of which only [name] is no stop word, and [name] is its own lemma. *)
Definition nltk_on_name_question `{Nltk} : Prop :=
  word_tokenize "what is your name" = ["what"; "is"; "your"; "name"]
  /\ stop_words "what" = true /\ stop_words "is" = true
  /\ stop_words "your" = true /\ stop_words "name" = false
  /\ lemmatize "name" = "name".

(** *** Vocabulary for the whitespace reduction *)

(** Every character of [s] satisfies [p]. *)
Fixpoint all_chars (p : char -> bool) (s : str) : bool :=
  match s with
  | EmptyString => true
  | String c s' => p c && all_chars p s'
  end.

(** [s] has no line boundary in it. *)
Definition no_break (s : str) : bool :=
  all_chars (fun c => negb (Py.is_linebreak c)) s.

Definition is_blank (c : char) : bool := (c =? 32)%N.

(** [s] has no two blanks in a row, [prev] telling whether the character
    before [s] is a blank. *)
Fixpoint no_double_blank_from (prev : bool) (s : str) : bool :=
  match s with
  | EmptyString => true
  | String c s' => negb (prev && is_blank c) && no_double_blank_from (is_blank c) s'
  end.

Definition no_double_blank (s : str) : bool := no_double_blank_from false s.

(** Whether the last character of [s] is a blank ([prev] if [s] is empty). *)
Fixpoint ends_blank (prev : bool) (s : str) : bool :=
  match s with
  | EmptyString => prev
  | String c s' => ends_blank (is_blank c) s'
  end.

Definition starts_blank (s : str) : bool :=
  match s with
  | EmptyString => false
  | String c _ => is_blank c
  end.

(** A clean line: not empty, no whitespace at either end, no line
    boundary and no two blanks in a row inside. *)
Definition clean_line (s : str) : Prop :=
  Py.truthy s = true /\ Py.strip s = s /\ no_break s = true
  /\ no_double_blank s = true.

(** The fragments [collapse] keeps, before they are joined. *)
Definition kept_chunks (text : str) : list str :=
  filter Py.truthy
    (flat_map (fun line => map Py.strip (Py.split_2sp line))
              (map Py.strip (Py.splitlines text))).

(** *** Vocabulary for the command word *)

(** ASCII text, and its lowercase. *)
Definition ascii_text (s : str) : bool := all_chars Py.is_ascii s.

Fixpoint ascii_lowercase (s : str) : str :=
  match s with
  | EmptyString => EmptyString
  | String c s' => String (Py.ascii_lower c) (ascii_lowercase s')
  end.

(** The scrape command as the specification words it: the trimmed,
    lowercased input starts with the word [scrape] followed by a
    whitespace character. *)
Definition spec_scrape_command {unicode : Py.Unicode} (user_input : str) : bool :=
  let t := Py.lower (Py.strip user_input) in
  Py.startswith t "scrape"
  && match Py.slice_from 6 t with
     | String c _ => Py.isspace c
     | EmptyString => false
     end.

Definition TAB : char := 9.

(** *** The ends of a text *)

(** The last character of the text that starts with [c] and goes on with
    [s]. *)
Fixpoint last_char (c : char) (s : str) : char :=
  match s with
  | EmptyString => c
  | String d s' => last_char d s'
  end.

(** Neither the first nor the last character of [s] is whitespace. *)
Definition no_space_at_ends (s : str) : bool :=
  match s with
  | EmptyString => true
  | String c s' => negb (Py.isspace c) && negb (Py.isspace (last_char c s'))
  end.

(* ================================================================= *)
(** ** The conversation log and the request handler *)

Module Web.

(** A row of the table [conversation]. *)
Record Row : Type := mkRow {
  row_id : nat;
  row_timestamp : str;
  row_user : str;
  row_user_input : str;
  row_bot_response : str
}.

(** The content of a database: the table [conversation] ([None] until it
    is created), its rows in the order they were inserted, and the
    greatest id ever given, which [AUTOINCREMENT] keeps. *)
Record Database : Type := mkDatabase {
  conversation : option (list Row);
  last_id : nat
}.

(** The server: the state of the core, the database file as committed,
    the connection held in [g.db] (with the database as that connection
    sees it, uncommitted changes included), and how many connections were
    opened and closed so far. *)
Record Server : Type := mkServer {
  core : State;
  stored : Database;
  g_db : option Database;
  opened : nat;
  closed : nat
}.

Definition W (A : Type) : Type := Env -> Server -> result A * Server.

Definition wret {A : Type} (a : A) : W A := fun _ sv => (Ok a, sv).

Definition wbind {A B : Type} (m : W A) (k : A -> W B) : W B :=
  fun e sv =>
    match m e sv with
    | (Ok a, sv') => k a e sv'
    | (Raise x, sv') => (Raise x, sv')
    end.

Definition wraise {A : Type} (x : exn) : W A := fun _ sv => (Raise x, sv).

Definition wask : W Env := fun e sv => (Ok e, sv).

Declare Scope web_scope.
Notation "x <- m ;; k" := (wbind m (fun x => k))
  (at level 61, m at next level, right associativity) : web_scope.
Notation "m ;; k" := (wbind m (fun _ => k))
  (at level 61, right associativity) : web_scope.
Local Open Scope web_scope.

(** A computation of the core, run on the core's part of the state. *)
Definition lift {A : Type} (m : M A) : W A :=
  fun e sv =>
    let (r, c) := m e (core sv) in
    (r, mkServer c (stored sv) (g_db sv) (opened sv) (closed sv)).

Definition set_g_db (d : option Database) (sv : Server) : Server :=
  mkServer (core sv) (stored sv) d (opened sv) (closed sv).

(** [sqlite3.connect(app.config['DATABASE'])]: a new connection, which
    sees the database as committed. *)
Definition connect (sv : Server) : Server :=
  mkServer (core sv) (stored sv) (Some (stored sv)) (S (opened sv)) (closed sv).

(** [get_db()]: the connection of this application context, opened on
    first use. *)
Definition get_db : W unit :=
  fun _ sv =>
    match g_db sv with
    | None => (Ok tt, connect sv)
    | Some _ => (Ok tt, sv)
    end.

(** [close_db(error)]: [g.pop("db", None)], and [close()] if there was a
    connection; what it had not committed is lost. *)
Definition close_db : W unit :=
  fun _ sv =>
    match g_db sv with
    | None => (Ok tt, sv)
    | Some _ => (Ok tt, mkServer (core sv) (stored sv) None (opened sv) (S (closed sv)))
    end.

(** A statement run on the connection [g.db]. *)
Definition on_connection {A : Type} (f : Database -> result (A * Database)) : W A :=
  fun _ sv =>
    match g_db sv with
    | None => (Raise (PyException "Cannot operate on a closed database."), sv)
    | Some d =>
        match f d with
        | Ok (a, d') => (Ok a, set_g_db (Some d') sv)
        | Raise x => (Raise x, sv)
        end
    end.

(** [CREATE TABLE IF NOT EXISTS conversation (...)] *)
Definition create_table_if_not_exists : W unit :=
  on_connection (fun d =>
    match conversation d with
    | None => Ok (tt, mkDatabase (Some []) (last_id d))
    | Some _ => Ok (tt, d)
    end).

(** [db.commit()] *)
Definition commit : W unit :=
  fun _ sv =>
    match g_db sv with
    | None => (Raise (PyException "Cannot operate on a closed database."), sv)
    | Some d => (Ok tt, mkServer (core sv) d (g_db sv) (opened sv) (closed sv))
    end.

Definition no_such_table : exn := PyException "no such table: conversation".

Fixpoint insert_by_id (r : Row) (l : list Row) : list Row :=
  match l with
  | [] => [r]
  | x :: l' => if row_id r <? row_id x then r :: l else x :: insert_by_id r l'
  end.

(** [ORDER BY id ASC] *)
Definition order_by_id (l : list Row) : list Row := fold_right insert_by_id [] l.

(** [SELECT timestamp, user_input, bot_response FROM conversation
    ORDER BY id ASC] *)
Definition select_history : W (list (str * str * str)) :=
  on_connection (fun d =>
    match conversation d with
    | None => Raise no_such_table
    | Some rows =>
        Ok (map (fun r => (row_timestamp r, row_user_input r, row_bot_response r))
                (order_by_id rows), d)
    end).

(** [INSERT INTO conversation (timestamp, user, user_input, bot_response)
    VALUES (?, ?, ?, ?)]: the id is one more than the greatest ever given. *)
Definition insert_conversation (timestamp user user_input bot_response : str) : W unit :=
  on_connection (fun d =>
    match conversation d with
    | None => Raise no_such_table
    | Some rows =>
        Ok (tt, mkDatabase
                  (Some (rows ++ [mkRow (S (last_id d)) timestamp user user_input
                                        bot_response]))
                  (S (last_id d)))
    end).

(** [init_db()] *)
Definition init_db : W unit :=
  get_db ;;
  create_table_if_not_exists ;;
  commit.

Inductive Method : Type := GET | HEAD | POST.

(** A request: its method and the fields of its form. *)
Record HttpRequest : Type := mkHttpRequest {
  method : Method;
  form : list (str * str)
}.

(** [request.form.get(key, default)] *)
Fixpoint form_get (fields : list (str * str)) (key default : str) : str :=
  match fields with
  | [] => default
  | (k, v) :: fields' => if Py.eqb k key then v else form_get fields' key default
  end.

(** What the view returns: the page [render_template] produced, or a
    redirection. *)
Inductive View : Type :=
| Rendered (page : str)
| Redirect (location : str).

(** [url_for("chat")]: the only route. *)
Definition url_for (endpoint : str) : str := "/".

Section Chat.

Context {unicode : Py.Unicode} {nltk : Nltk} {float64 : Sklearn.Float64}.
Variable KB : list KnowledgeEntry.

(** [chat()], the view of the route ["/"]. *)
Definition chat (request : HttpRequest) : W View :=
  init_db ;;
  get_db ;;
  chat_history <- select_history ;;
  match method request with
  | POST =>
      let user_input := form_get (form request) "message" "" in
      response <- lift (generate_response KB user_input) ;;
      e <- wask ;;
      let timestamp := strftime e "%Y-%m-%d %H:%M:%S" in
      insert_conversation timestamp "guest" user_input response ;;
      commit ;;
      wret (Redirect (url_for "chat"))
  | _ =>
      e <- wask ;;
      match render_template e "chatbot.html" chat_history with
      | Ok page => wret (Rendered page)
      | Raise x => wraise x
      end
  end.

(** One request as Flask serves it: the view, then the teardown of the
    application context, which runs whether the view returned or raised. *)
Definition handle (request : HttpRequest) : W View :=
  fun e sv =>
    let (r, sv1) := chat request e sv in
    let (_, sv2) := close_db e sv1 in
    (r, sv2).

(** Requests served one after the other, each in its own world. *)
Fixpoint handle_all (requests : list (HttpRequest * Env)) (sv : Server) : Server :=
  match requests with
  | [] => sv
  | (request, e) :: requests' => handle_all requests' (snd (handle request e sv))
  end.

End Chat.

(** The rows of a database, none if the table does not exist yet. *)
Definition rows_of (d : Database) : list Row :=
  match conversation d with
  | None => []
  | Some rows => rows
  end.

(** The ids of the rows increase with the order of insertion and none
    exceeds the counter. *)
Definition consistent (d : Database) : Prop :=
  StronglySorted lt (map row_id (rows_of d))
  /\ Forall (fun r => row_id r <= last_id d) (rows_of d).

Definition columns (r : Row) : str * str * str :=
  (row_timestamp r, row_user_input r, row_bot_response r).

(** A server that has just started on an empty disk. *)
Definition fresh (t : Q) : Server :=
  mkServer (boot t) (mkDatabase None 0) None 0 0.

End Web.

(** The database once [init_db] has run on it. *)
Definition initialised (d : Web.Database) : Web.Database :=
  match Web.conversation d with
  | None => Web.mkDatabase (Some []) (Web.last_id d)
  | Some _ => d
  end.

(** The database after one more exchange has been logged. *)
Definition logged (d : Web.Database) (timestamp user_input bot_response : str)
  : Web.Database :=
  Web.mkDatabase
    (Some (Web.rows_of d
           ++ [Web.mkRow (S (Web.last_id d)) timestamp "guest" user_input bot_response]))
    (S (Web.last_id d)).

Definition is_post (m : Web.Method) : bool :=
  match m with Web.POST => true | _ => false end.

(** What a request that is no POST answers with: whatever
    [render_template] makes of the template [chatbot.html] and the
    history, a page or an exception. *)
Definition page_or_exception (e : Env) (chat_history : list (str * str * str))
  : result Web.View :=
  match render_template e "chatbot.html" chat_history with
  | Ok page => Ok (Web.Rendered page)
  | Raise x => Raise x
  end.

(** A template [chatbot.html] that lists the exchanges, one per line. *)
Definition listing (name : str) (chat_history : list (str * str * str)) : result str :=
  if Py.eqb name "chatbot.html"
  then Ok (Py.join newline
             (map (fun row => let '(_, user_input, bot_response) := row in
                              (user_input ++ " / " ++ bot_response)%str) chat_history))
  else Raise (TemplateNotFound name).

(** The world of [serving], with the template [listing] deployed. *)
Definition deployed (r : Response) (parser : str -> result str) : Env :=
  mkEnv (fun _ => Responded r) 0 0 parser (fun fmt => fmt) listing.

(** A server whose log holds two exchanges. *)
Definition two_exchanges : Web.Server :=
  Web.mkServer (boot 0)
    (Web.mkDatabase
       (Some [ Web.mkRow 1 "2024-01-01 10:00:00" "guest" "hello"
                 "Hello there! How can I help you today?";
               Web.mkRow 2 "2024-01-01 10:00:05" "guest" "bye"
                 "I'm not sure how to respond to that." ])
       2)
    None 3 3.

(** A server on which the quota of the decorator is used up. *)
Definition server_over_quota : Web.Server :=
  Web.mkServer quota_used_up (Web.mkDatabase None 0) None 0 0.

Definition post_message (m : str) : Web.HttpRequest :=
  Web.mkHttpRequest Web.POST [("message", m)].

Definition get_page : Web.HttpRequest := Web.mkHttpRequest Web.GET [].

Definition posts (requests : list (Web.HttpRequest * Env)) : nat :=
  List.length (filter (fun r => is_post (Web.method (fst r))) requests).

(** A message, a look at the page, and a message with no text. *)
Definition short_session : list (Web.HttpRequest * Env) :=
  [ (post_message "hello", serving (page_of 10) as_is);
    (get_page, serving (page_of 10) as_is);
    (Web.mkHttpRequest Web.POST [], serving (page_of 10) as_is) ].

(* ================================================================= *)
(** * Properties *)

Ltac run :=
  cbn -[Nat.ltb Nat.leb Qle_bool Qminus Qplus Qltb Py.contains Py.startswith
        Py.truthy Py.strip Py.slice_from Py.slice_to Py.lower
        Py.append Py.len collapse http_error_msg].

(** ** Rational comparisons *)

Lemma Qltb_true (x y : Q) : Qltb x y = true <-> (x < y)%Q.
Proof.
  unfold Qltb. rewrite negb_true_iff. split; intros H.
  - apply Qnot_le_lt. intros L. apply Qle_bool_iff in L. congruence.
  - destruct (Qle_bool y x) eqn:E; [|reflexivity].
    apply Qle_bool_iff in E. exfalso. Lqa.lra.
Qed.

Lemma Qltb_false (x y : Q) : Qltb x y = false <-> (y <= x)%Q.
Proof. unfold Qltb. rewrite negb_false_iff. apply Qle_bool_iff. Qed.

(** ** The decorator and the body of the fetcher *)

Lemma limits_enter {A : Type} (f : M A) (e : Env) (s : State) :
  Ratelimit.limits 10 (60 # 1) f e s =
  if admits s then f e (enter s)
  else (Raise (RateLimitException "too many calls" ((60 # 1) - (now s - last_reset s))%Q),
        enter s).
Proof.
  unfold Ratelimit.limits, admits, enter, bind, get, modify, ret, raise. run.
  destruct (Qle_bool _ 0); run; rewrite Nat.leb_antisym;
    match goal with |- context [Nat.ltb ?a ?b] => destruct (Nat.ltb a b) end;
    reflexivity.
Qed.

(** The body never raises: whatever happens inside is turned into text. *)
Lemma fetch_body_eq (url : str) (e : Env) (s : State) :
  fetch_body url e s = (Ok (fetch_text e url), fetch_state e url s).
Proof.
  unfold fetch_body, try_except, bind, time_time, get, ret, modify, time_sleep,
    requests_get, raise_for_status, soup_get_text, ask, emit, elapse, modify,
    raise, fetch_text, fetch_state, parse_events, after_get, pace.
  run.
  assert (Z : Qltb (now s - last_request_time s) 1 = true ->
              Qltb (1 - (now s - last_request_time s)) 0 = false).
  { intros G. apply Qltb_true in G. apply Qltb_false. Lqa.lra. }
  destruct (Qltb (now s - last_request_time s) 1) eqn:G; [rewrite (Z eq_refl)|]; run;
    (destruct (http e url) as [msg|msg|r]; run;
     [ rewrite app_nil_r; reflexivity
     | rewrite app_nil_r; reflexivity
     | destruct (Py.truthy (http_error_msg r)); run;
       [ rewrite app_nil_r; reflexivity
       | destruct (Py.contains "Disallow" (text r)); run;
         [ rewrite app_nil_r; reflexivity
         | destruct (html_text e (text r)) as [t|[m p|m|m|m]]; reflexivity ] ] ]).
Qed.

Lemma admits_log (ev : Event) (s : State) : admits (log ev s) = admits s.
Proof.
  unfold admits, enter. run. destruct (Qle_bool _ 0); reflexivity.
Qed.

Lemma rate_limited_eq (url : str) (e : Env) (s : State) :
  rate_limited_get_url_content url e s =
  if admits s
  then (Ok (fetch_text e url), fetch_state e url (enter (log (EvInvoke url) s)))
  else (Raise (RateLimitException "too many calls" ((60 # 1) - (now s - last_reset s))%Q),
        enter (log (EvInvoke url) s)).
Proof.
  unfold rate_limited_get_url_content, emit, modify, bind.
  rewrite limits_enter, admits_log, fetch_body_eq. reflexivity.
Qed.

(** ** Strings *)

Lemma append_empty_r (t : str) : (t ++ "")%str = t.
Proof. induction t as [|c t IH]; simpl; [reflexivity | now rewrite IH]. Qed.

Lemma append_assoc (a b c : str) : ((a ++ b) ++ c)%str = (a ++ (b ++ c))%str.
Proof. induction a as [|x a IH]; cbn; [reflexivity | now rewrite IH]. Qed.

Lemma len_append (a b : str) : Py.len (a ++ b)%str = Py.len a + Py.len b.
Proof. induction a as [|x a IH]; cbn; [reflexivity | now rewrite IH]. Qed.

Lemma slice_to_first_chars (n : nat) (t : str) : Py.slice_to n t = first_chars n t.
Proof.
  revert n. induction t as [|c t IH]; intros [|n]; simpl; try reflexivity.
  now rewrite IH.
Qed.

Lemma slice_to_all (n : nat) (t : str) : Py.len t <= n -> Py.slice_to n t = t.
Proof.
  revert t. induction n as [|n IH]; intros [|c t]; simpl; intros H;
    try reflexivity; try lia.
  rewrite IH by lia. reflexivity.
Qed.

(** A text is its first [n] characters followed by the rest. *)
Lemma first_chars_slice_from (n : nat) (t : str) :
  t = (first_chars n t ++ Py.slice_from n t)%str.
Proof.
  revert n. induction t as [|c t IH]; intros [|n]; simpl; try reflexivity.
  now rewrite <- IH.
Qed.

Lemma len_first_chars (n : nat) (t : str) :
  n <= Py.len t -> Py.len (first_chars n t) = n.
Proof.
  revert n. induction t as [|c t IH]; intros [|n]; simpl; intros L;
    try reflexivity; try lia.
  rewrite IH by lia. reflexivity.
Qed.

Lemma truthy_append_l (a b : str) :
  Py.truthy b = true -> Py.truthy (a ++ b)%str = true.
Proof. destruct a; simpl; auto. Qed.

Lemma truthy_false (t : str) : Py.truthy t = false <-> t = "".
Proof. destruct t; simpl; split; congruence. Qed.

Lemma truthy_http_error_msg (r : Response) :
  Py.truthy (http_error_msg r) = Py.between 400 599 (status_code r).
Proof.
  unfold http_error_msg, Py.between.
  destruct (400 <=? status_code r) eqn:A, (status_code r <=? 499) eqn:B,
           (500 <=? status_code r) eqn:C, (status_code r <=? 599) eqn:D;
    cbn [andb Py.truthy];
    try (apply truthy_append_l; reflexivity); try reflexivity;
    apply Nat.leb_le in A || apply Nat.leb_gt in A;
    apply Nat.leb_le in B || apply Nat.leb_gt in B;
    apply Nat.leb_le in C || apply Nat.leb_gt in C;
    apply Nat.leb_le in D || apply Nat.leb_gt in D; lia.
Qed.

(** The preview the router builds is the one the specification words. *)
Lemma preview_eq (t : str) :
  Py.append (Py.slice_to 500 t) (if 500 <? Py.len t then "..." else "")
  = spec_preview t.
Proof.
  unfold spec_preview. rewrite Nat.ltb_antisym.
  destruct (Py.len t <=? 500) eqn:L; cbn [negb].
  - apply Nat.leb_le in L. rewrite slice_to_all by exact L. apply append_empty_r.
  - rewrite slice_to_first_chars. reflexivity.
Qed.

Lemma prefix_append (a b : str) : Py.prefix a (a ++ b)%str = true.
Proof.
  induction a as [|c a IH]; cbn; [reflexivity|]. rewrite N.eqb_refl. exact IH.
Qed.

Lemma slice_from_append (a b : str) : Py.slice_from (Py.len a) (a ++ b)%str = b.
Proof. induction a as [|c a IH]; cbn; [reflexivity | exact IH]. Qed.

(** ** Lowercasing ASCII text *)

Section Lowercase.

Context {unicode : Py.Unicode}.

Lemma lower_from_ascii (s before : str) :
  ascii_text s = true -> Py.lower_from before s = ascii_lowercase s.
Proof.
  revert before. induction s as [|c s IH]; intros before A; [reflexivity|].
  unfold ascii_text in A. cbn [all_chars] in A. apply andb_true_iff in A as [A1 A2].
  cbn [Py.lower_from ascii_lowercase]. rewrite Py.lower_at_ascii by exact A1.
  cbn [Py.append]. f_equal. apply IH. exact A2.
Qed.

Lemma lower_ascii (s : str) : ascii_text s = true -> Py.lower s = ascii_lowercase s.
Proof. apply lower_from_ascii. Qed.

(** An ASCII beginning is lowercased on its own, whatever follows. *)
Lemma lower_from_ascii_prefix (p rest before : str) :
  ascii_text p = true ->
  exists t, Py.lower_from before (p ++ rest)%str = (ascii_lowercase p ++ t)%str.
Proof.
  revert before. induction p as [|c p IH]; intros before A.
  - eexists. reflexivity.
  - unfold ascii_text in A. cbn [all_chars] in A. apply andb_true_iff in A as [A1 A2].
    destruct (IH (String c before) A2) as [t E]. exists t.
    cbn [Py.append Py.lower_from ascii_lowercase]. rewrite Py.lower_at_ascii by exact A1.
    cbn [Py.append]. f_equal. exact E.
Qed.

Lemma ascii_lowercase_ascii (p q : str) :
  ascii_lowercase p = q -> ascii_text q = true -> ascii_text p = true.
Proof.
  revert q. induction p as [|c p IH]; intros [|d q]; cbn; try congruence.
  intros [= E1 E2] A. unfold ascii_text in *. cbn [all_chars] in *.
  apply andb_true_iff in A as [A1 A2]. rewrite (IH q E2 A2), andb_true_r.
  subst d. revert A1. unfold Py.ascii_lower, Py.ascii_isupper, Py.in_range, Py.is_ascii.
  destruct (N.leb_spec 65 c), (N.leb_spec c 90); cbn; intros L;
    apply N.ltb_lt; apply N.ltb_lt in L; lia.
Qed.

Lemma len_ascii_lowercase (p : str) : Py.len (ascii_lowercase p) = Py.len p.
Proof. induction p as [|c p IH]; cbn; [reflexivity | now rewrite IH]. Qed.

(** The command word in any letter case makes a scrape command. *)
Lemma command_prefix (p rest : str) :
  ascii_lowercase p = "scrape " -> is_scrape_command (p ++ rest)%str = true.
Proof.
  intros L. unfold is_scrape_command, Py.startswith, Py.lower.
  destruct (lower_from_ascii_prefix p rest EmptyString) as [t E].
  { apply (ascii_lowercase_ascii p _ L). reflexivity. }
  rewrite E, L. apply prefix_append.
Qed.

Lemma is_scrape_command_ascii (user_input : str) :
  ascii_text user_input = true ->
  is_scrape_command user_input = Py.startswith (ascii_lowercase user_input) "scrape ".
Proof. intros A. unfold is_scrape_command. rewrite lower_ascii by exact A. reflexivity. Qed.

End Lowercase.

(** ** The router on a scrape command *)

Section Router.

Context {unicode : Py.Unicode} {nltk : Nltk} {float64 : Sklearn.Float64}.
Variable KB : list KnowledgeEntry.

Lemma generate_response_scrape (user_input : str) (e : Env) (s : State) :
  is_scrape_command user_input = true ->
  Py.truthy (scrape_url user_input) = true ->
  generate_response KB user_input e s = scrape user_input e s.
Proof.
  unfold is_scrape_command, scrape_url, generate_response, scrape. intros C U.
  rewrite C. change (Py.len "scrape ") with 7. rewrite U.
  unfold bind, routed, success_message, ret, scrape_url.
  destruct (rate_limited_get_url_content _ e s) as [[t|x] s']; [|reflexivity].
  rewrite <- preview_eq.
  destruct (Py.startswith t "Error" || Py.startswith t "Scraping not permitted");
    reflexivity.
Qed.

Lemma generate_response_no_url (user_input : str) (e : Env) (s : State) :
  is_scrape_command user_input = true ->
  Py.truthy (scrape_url user_input) = false ->
  generate_response KB user_input e s = (Ok "Please provide a URL to scrape.", s).
Proof.
  unfold is_scrape_command, scrape_url, generate_response. intros C U.
  rewrite C. change (Py.len "scrape ") with 7. rewrite U. reflexivity.
Qed.

End Router.

(** ** What a call leaves in the event log *)

Lemma events_enter (s : State) : events (enter s) = events s.
Proof. unfold enter. run. destruct (Qle_bool _ 0); reflexivity. Qed.

Lemma events_fetch_state (e : Env) (url : str) (s : State) :
  events (fetch_state e url s)
  = events s ++ sleep_events s ++ [EvHttpGet url] ++ parse_events e url.
Proof.
  unfold fetch_state, after_get, pace, sleep_events. run.
  destruct (Qltb (now s - last_request_time s) 1); run;
    rewrite <- ?app_assoc; reflexivity.
Qed.

Lemma events_rate_limited (url : str) (e : Env) (s : State) :
  events (snd (rate_limited_get_url_content url e s))
  = events s ++ [EvInvoke url]
    ++ (if admits s
        then sleep_events (enter (log (EvInvoke url) s)) ++ [EvHttpGet url] ++ parse_events e url
        else []).
Proof.
  rewrite rate_limited_eq. destruct (admits s); cbn [snd].
  - rewrite events_fetch_state, events_enter. cbn [log events].
    rewrite <- app_assoc. reflexivity.
  - rewrite events_enter. cbn [log events]. rewrite app_nil_r. reflexivity.
Qed.

Lemma invocations_app (l1 l2 : list Event) :
  invocations (l1 ++ l2) = invocations l1 ++ invocations l2.
Proof. apply flat_map_app. Qed.

Lemma http_gets_app (l1 l2 : list Event) :
  http_gets (l1 ++ l2) = http_gets l1 ++ http_gets l2.
Proof. apply flat_map_app. Qed.

Lemma parses_app (l1 l2 : list Event) :
  parses (l1 ++ l2) = parses l1 ++ parses l2.
Proof. apply flat_map_app. Qed.

Lemma sleep_events_quiet (s : State) :
  invocations (sleep_events s) = [] /\ http_gets (sleep_events s) = []
  /\ parses (sleep_events s) = [].
Proof. unfold sleep_events. destruct (Qltb _ 1); repeat split; reflexivity. Qed.

Lemma parse_events_quiet (e : Env) (url : str) :
  invocations (parse_events e url) = [] /\ http_gets (parse_events e url) = [].
Proof.
  unfold parse_events. destruct (http e url) as [m|m|r]; [split; reflexivity ..|].
  destruct (Py.truthy _); [split; reflexivity|].
  destruct (Py.contains _ _); split; reflexivity.
Qed.

(** One call of the entry point is one invocation and at most one GET. *)
Lemma one_invocation (url : str) (e : Env) (s : State) :
  invocations (events (snd (rate_limited_get_url_content url e s)))
  = invocations (events s) ++ [url]
  /\ http_gets (events (snd (rate_limited_get_url_content url e s)))
     = http_gets (events s) ++ (if admits s then [url] else []).
Proof.
  rewrite events_rate_limited.
  destruct (sleep_events_quiet (enter (log (EvInvoke url) s))) as (I1 & G1 & _).
  destruct (parse_events_quiet e url) as (I2 & G2).
  rewrite !invocations_app, !http_gets_app.
  destruct (admits s).
  - rewrite !invocations_app, !http_gets_app, I1, G1, I2, G2. split; reflexivity.
  - split; reflexivity.
Qed.

(** ** Claims about the router and the fetcher *)

Section RouterClaims.

Context {unicode : Py.Unicode} {nltk : Nltk} {float64 : Sklearn.Float64}.
Variable KB : list KnowledgeEntry.

(** The router on the command word, in any letter case, followed by a
    rest that is not blank. *)
Lemma generate_response_command (p rest : str) (e : Env) (s : State) :
  ascii_lowercase p = "scrape " ->
  Py.truthy (Py.strip rest) = true ->
  generate_response KB (p ++ rest)%str e s = scrape (p ++ rest)%str e s.
Proof.
  intros L T. apply generate_response_scrape; [apply command_prefix; exact L|].
  unfold scrape_url. replace 7 with (Py.len p); [rewrite slice_from_append; exact T|].
  rewrite <- len_ascii_lowercase, L. reflexivity.
Qed.

Lemma matcher_keeps_state (user_input : str) (e : Env) (s : State) :
  Forall (fun item => quiet (answer item)) KB ->
  snd (custom_semantic_match KB user_input e s) = s.
Proof.
  intros Q. unfold custom_semantic_match.
  destruct (Sklearn.argmax _) as [i|]; [|reflexivity].
  cbv zeta. destruct (Rlt_dec _ _); [|reflexivity].
  destruct (nth_error KB i) as [item|] eqn:N; [|reflexivity].
  apply nth_error_In in N. rewrite Forall_forall in Q. specialize (Q item N e s).
  unfold bind. destruct (resolve (answer item) e s) as [[a|x] s']; cbn [snd] in *;
    subst; reflexivity.
Qed.

Lemma generate_response_keeps_state (user_input : str) (e : Env) (s : State) :
  Forall (fun item => quiet (answer item)) KB ->
  is_scrape_command user_input = false ->
  snd (generate_response KB user_input e s) = s.
Proof.
  intros Q C. unfold is_scrape_command in C. unfold generate_response.
  rewrite C. unfold bind.
  pose proof (matcher_keeps_state user_input e s Q) as K.
  destruct (custom_semantic_match KB user_input e s) as [[m|x] s']; cbn [snd] in *;
    subst; [|reflexivity].
  destruct m as [[|c a]|]; try reflexivity;
    destruct (sent_tokenize user_input); reflexivity.
Qed.

End RouterClaims.

Lemma ADVANCED_KNOWLEDGE_quiet :
  Forall (fun item => quiet (answer item)) ADVANCED_KNOWLEDGE.
Proof. repeat constructor. Qed.

(** C8. For every text [t] the fetcher returned that does not start with
    an error or disallowed sentinel, the response to the scrape command is
    the success message around the preview of [t]; when [t] has more than
    500 characters (code points, as [len] counts them) the preview is the
    first 500 of them, that is the beginning [head] of [t] of length 500,
    followed by the marker ["..."]; otherwise it is [t] itself with no
    marker. *)
Theorem preview_truncation {unicode : Py.Unicode} {nltk : Nltk}
        {float64 : Sklearn.Float64} (KB : list KnowledgeEntry)
        (user_input : str) (e : Env) (s : State) (t : str) :
  is_scrape_command user_input = true ->
  Py.truthy (scrape_url user_input) = true ->
  fst (rate_limited_get_url_content (scrape_url user_input) e s) = Ok t ->
  Py.startswith t "Error" = false ->
  Py.startswith t "Scraping not permitted" = false ->
  fst (generate_response KB user_input e s)
  = Ok (success_message (scrape_url user_input) (spec_preview t))
  /\ (500 < Py.len t ->
      exists head tail,
        t = Py.append head tail /\ Py.len head = 500
        /\ spec_preview t = Py.append head "...")
  /\ (Py.len t <= 500 -> spec_preview t = t).
Proof.
  intros C U F E1 E2. split; [|split].
  - rewrite (generate_response_scrape KB user_input e s C U). unfold scrape.
    destruct (rate_limited_get_url_content _ e s) as [[t'|x] s']; cbn [fst] in *;
      [|discriminate].
    injection F as ->. unfold routed. rewrite E1, E2. reflexivity.
  - intros L. exists (first_chars 500 t), (Py.slice_from 500 t).
    split; [apply first_chars_slice_from|]. split; [apply len_first_chars; lia|].
    unfold spec_preview.
    destruct (Py.len t <=? 500) eqn:B; [apply Nat.leb_le in B; lia | reflexivity].
  - intros L. unfold spec_preview.
    destruct (Py.len t <=? 500) eqn:B; [reflexivity|].
    apply Nat.leb_gt in B. lia.
Qed.

(** C10. The router tells failure from success by the first characters of
    the returned text only: when a fetch succeeds (the limiter admits the
    call, the status is no error status, the body has no ["Disallow"],
    the parser returns) and the extracted text itself begins with
    ["Error"] or ["Scraping not permitted"], [generate_response] returns
    that page text verbatim, with no success wrapper and no preview. *)
Theorem error_looking_page_passed_verbatim {unicode : Py.Unicode} {nltk : Nltk}
        {float64 : Sklearn.Float64} (KB : list KnowledgeEntry)
        (user_input : str) (e : Env) (s : State) (r : Response) (page : str) :
  is_scrape_command user_input = true ->
  Py.truthy (scrape_url user_input) = true ->
  admits s = true ->
  http e (scrape_url user_input) = Responded r ->
  Py.between 400 599 (status_code r) = false ->
  Py.contains "Disallow" (text r) = false ->
  html_text e (text r) = Ok page ->
  Py.startswith (collapse page) "Error"
    || Py.startswith (collapse page) "Scraping not permitted" = true ->
  fst (rate_limited_get_url_content (scrape_url user_input) e s) = Ok (collapse page)
  /\ fst (generate_response KB user_input e s) = Ok (collapse page).
Proof.
  intros C U A W St D P E.
  assert (F : rate_limited_get_url_content (scrape_url user_input) e s
              = (Ok (collapse page),
                 fetch_state e (scrape_url user_input)
                   (enter (log (EvInvoke (scrape_url user_input)) s)))).
  { rewrite rate_limited_eq, A. unfold fetch_text.
    rewrite W, truthy_http_error_msg, St, D, P. reflexivity. }
  split.
  - rewrite F. reflexivity.
  - rewrite (generate_response_scrape KB user_input e s C U). unfold scrape.
    rewrite F. cbn [fst]. unfold routed. rewrite E. reflexivity.
Qed.

(** C4, evaluated where it fails.  When the parser raises an exception
    that is no [RequestException], the fetcher returns the text
    ["An unexpected error occurred during scraping: ..."]; it starts with
    neither prefix the router looks for, so the router wraps it in the
    success message. *)
Theorem unexpected_error_wrapped_as_success {unicode : Py.Unicode} {nltk : Nltk}
        {float64 : Sklearn.Float64} (KB : list KnowledgeEntry) :
  fst (generate_response KB "scrape http://example.com"
         (serving (page_of 10) giving_up) (boot 0))
  = Ok (success_message "http://example.com"
          "An unexpected error occurred during scraping: maximum recursion depth exceeded").
Proof.
  change "scrape http://example.com" with ("scrape " ++ "http://example.com")%str.
  rewrite generate_response_command by reflexivity.
  vm_compute. reflexivity.
Qed.

(** The same for every world and state: an exception other than
    [RequestException] raised by [requests.get] is reported as a success. *)
Lemma crash_wrapped_as_success {unicode : Py.Unicode} {nltk : Nltk}
      {float64 : Sklearn.Float64} (KB : list KnowledgeEntry)
      (user_input : str) (e : Env) (s : State) (msg : str) :
  is_scrape_command user_input = true ->
  Py.truthy (scrape_url user_input) = true ->
  admits s = true ->
  http e (scrape_url user_input) = Crashed msg ->
  fst (generate_response KB user_input e s)
  = Ok (success_message (scrape_url user_input)
          (spec_preview ("An unexpected error occurred during scraping: " ++ msg)%str)).
Proof.
  intros C U A W.
  rewrite (generate_response_scrape KB user_input e s C U). unfold scrape.
  rewrite rate_limited_eq, A.
  cbn [fst]. unfold fetch_text. rewrite W. reflexivity.
Qed.

(** While network failures and the disallowed sentinel do pass verbatim. *)
Lemma network_error_passed_verbatim {unicode : Py.Unicode} {nltk : Nltk}
      {float64 : Sklearn.Float64} (KB : list KnowledgeEntry)
      (user_input : str) (e : Env) (s : State) (msg : str) :
  is_scrape_command user_input = true ->
  Py.truthy (scrape_url user_input) = true ->
  admits s = true ->
  http e (scrape_url user_input) = ConnectionFailed msg ->
  fst (generate_response KB user_input e s) = Ok ("Error accessing URL: " ++ msg)%str.
Proof.
  intros C U A W.
  rewrite (generate_response_scrape KB user_input e s C U). unfold scrape.
  rewrite rate_limited_eq, A.
  cbn [fst]. unfold fetch_text. rewrite W. reflexivity.
Qed.

(** C9 fails on an error status: the status check comes first, so a 404
    page whose body contains ["Disallow"] yields the error text. *)
Lemma disallow_in_missing_page :
  Py.contains "Disallow" (text missing_page) = true
  /\ fst (rate_limited_get_url_content "http://example.com/robots.txt"
            (serving missing_page as_is) (boot 0))
     = Ok "Error accessing URL: 404 Client Error: Not Found for url: http://example.com/robots.txt".
Proof. split; vm_compute; reflexivity. Qed.

(** C9, amended.  For every response that passes [raise_for_status] (its
    status is outside 400..599) and whose body contains ["Disallow"], a
    call the limiter admits returns exactly the sentinel, and the HTML
    parser is not run. *)
Theorem disallow_sentinel (url : str) (e : Env) (s : State) (r : Response) :
  admits s = true ->
  http e url = Responded r ->
  Py.between 400 599 (status_code r) = false ->
  Py.contains "Disallow" (text r) = true ->
  fst (rate_limited_get_url_content url e s) = Ok "Scraping not permitted by website."
  /\ parses (events (snd (rate_limited_get_url_content url e s))) = parses (events s).
Proof.
  intros A W St D. split.
  - rewrite rate_limited_eq, A. cbn [fst]. unfold fetch_text.
    rewrite W, truthy_http_error_msg, St, D. reflexivity.
  - rewrite events_rate_limited, A.
    destruct (sleep_events_quiet (enter (log (EvInvoke url) s))) as (_ & _ & P).
    rewrite !parses_app, P. unfold parse_events.
    rewrite W, truthy_http_error_msg, St, D. cbn. apply app_nil_r.
Qed.

Lemma disallow_sentinel_witness :
  fst (rate_limited_get_url_content "http://example.com/robots.txt"
         (serving robots_page as_is) (boot 0))
  = Ok "Scraping not permitted by website."
  /\ parses (events (snd (rate_limited_get_url_content "http://example.com/robots.txt"
                            (serving robots_page as_is) (boot 0))))
     = parses (events (boot 0)).
Proof.
  apply (disallow_sentinel "http://example.com/robots.txt"
           (serving robots_page as_is) (boot 0) robots_page);
    vm_compute; reflexivity.
Defined.

(** C5 fails twice over.  The router looks for the seven characters
    ["scrape "] at the very start of the lowercased input: an input with a
    leading blank is not a command although its trimmed form starts with
    the command word, and neither is the command word followed by a
    whitespace character other than the blank, here a tab.  In both cases
    nothing is fetched, whatever the Unicode tables, NLTK, the arithmetic
    of the library, the world and the state. *)
Lemma blank_or_tab_is_no_command :
  (forall (unicode : Py.Unicode) (nltk : Nltk) (float64 : Sklearn.Float64)
          (e : Env) (s : State),
      spec_scrape_command " scrape http://example.com" = true
      /\ is_scrape_command " scrape http://example.com" = false
      /\ snd (generate_response ADVANCED_KNOWLEDGE " scrape http://example.com" e s) = s
      /\ invocations (events (snd (generate_response ADVANCED_KNOWLEDGE
                                     " scrape http://example.com" e s)))
         = invocations (events s))
  /\ (forall (unicode : Py.Unicode) (nltk : Nltk) (float64 : Sklearn.Float64)
             (e : Env) (s : State),
         spec_scrape_command (Py.append "scrape" (String TAB "http://example.com")) = true
         /\ is_scrape_command (Py.append "scrape" (String TAB "http://example.com")) = false
         /\ snd (generate_response ADVANCED_KNOWLEDGE
                   (Py.append "scrape" (String TAB "http://example.com")) e s) = s
         /\ invocations (events (snd (generate_response ADVANCED_KNOWLEDGE
                                        (Py.append "scrape" (String TAB "http://example.com"))
                                        e s)))
            = invocations (events s)).
Proof.
  split; intros unicode nltk float64 e s.
  - assert (C : is_scrape_command " scrape http://example.com" = false)
      by (rewrite is_scrape_command_ascii by reflexivity; reflexivity).
    assert (K : snd (generate_response ADVANCED_KNOWLEDGE " scrape http://example.com" e s) = s)
      by (apply generate_response_keeps_state; [apply ADVANCED_KNOWLEDGE_quiet | exact C]).
    split; [|split; [exact C | split; [exact K | rewrite K; reflexivity]]].
    unfold spec_scrape_command.
    change (Py.strip " scrape http://example.com") with "scrape http://example.com".
    rewrite lower_ascii by reflexivity. reflexivity.
  - assert (C : is_scrape_command (Py.append "scrape" (String TAB "http://example.com")) = false)
      by (rewrite is_scrape_command_ascii by reflexivity; reflexivity).
    assert (K : snd (generate_response ADVANCED_KNOWLEDGE
                       (Py.append "scrape" (String TAB "http://example.com")) e s) = s)
      by (apply generate_response_keeps_state; [apply ADVANCED_KNOWLEDGE_quiet | exact C]).
    split; [|split; [exact C | split; [exact K | rewrite K; reflexivity]]].
    unfold spec_scrape_command.
    change (Py.strip (Py.append "scrape" (String TAB "http://example.com")))
      with (Py.append "scrape" (String TAB "http://example.com")).
    rewrite lower_ascii by reflexivity. reflexivity.
Qed.

(** C5, amended.  For every input whose lowercased form, untrimmed,
    starts with ["scrape "] (the word and one blank, U+0020): if the rest
    of the input, trimmed of whitespace, is empty the response is
    ["Please provide a URL to scrape."] and the state is untouched;
    otherwise the fetch entry point is called exactly once, with that URL,
    which issues exactly one GET for it when the limiter admits the call
    and none otherwise. *)
Theorem scrape_command {unicode : Py.Unicode} {nltk : Nltk}
        {float64 : Sklearn.Float64} (KB : list KnowledgeEntry)
        (user_input : str) (e : Env) (s : State) :
  is_scrape_command user_input = true ->
  (scrape_url user_input = "" ->
   generate_response KB user_input e s = (Ok "Please provide a URL to scrape.", s))
  /\ (scrape_url user_input <> "" ->
      invocations (events (snd (generate_response KB user_input e s)))
      = invocations (events s) ++ [scrape_url user_input]
      /\ http_gets (events (snd (generate_response KB user_input e s)))
         = http_gets (events s) ++ (if admits s then [scrape_url user_input] else [])).
Proof.
  intros C. split; intros U.
  - apply generate_response_no_url; [exact C|]. rewrite U. reflexivity.
  - assert (T : Py.truthy (scrape_url user_input) = true).
    { destruct (scrape_url user_input); [congruence | reflexivity]. }
    rewrite (generate_response_scrape KB user_input e s C T). unfold scrape.
    pose proof (one_invocation (scrape_url user_input) e s) as O.
    destruct (rate_limited_get_url_content (scrape_url user_input) e s) as [[t|x] s'];
      exact O.
Qed.

Section RouterWitnesses.

#[local] Existing Instance latin1.
#[local] Existing Instance plain_nltk.
#[local] Existing Instance Sklearn.exact.

Lemma preview_truncation_witness :
  fst (generate_response ADVANCED_KNOWLEDGE
         "scrape http://example.com" (serving (page_of 1000) as_is) (boot 0))
  = Ok (success_message "http://example.com" (Py.append (replicate 500 97) "..."))
  /\ fst (generate_response ADVANCED_KNOWLEDGE
            "scrape http://example.com" (serving (page_of 100) as_is) (boot 0))
     = Ok (success_message "http://example.com" (replicate 100 97))
  /\ fst (generate_response ADVANCED_KNOWLEDGE
            "scrape http://example.com" (serving (page_with 300 EURO) as_is) (boot 0))
     = Ok (success_message "http://example.com" (replicate 300 EURO)).
Proof.
  split; [|split].
  - apply (preview_truncation ADVANCED_KNOWLEDGE
             "scrape http://example.com" (serving (page_of 1000) as_is) (boot 0)
             (replicate 1000 97)); vm_compute; reflexivity.
  - apply (preview_truncation ADVANCED_KNOWLEDGE
             "scrape http://example.com" (serving (page_of 100) as_is) (boot 0)
             (replicate 100 97)); vm_compute; reflexivity.
  - apply (preview_truncation ADVANCED_KNOWLEDGE
             "scrape http://example.com" (serving (page_with 300 EURO) as_is) (boot 0)
             (replicate 300 EURO)); vm_compute; reflexivity.
Defined.

Lemma error_looking_page_passed_verbatim_witness :
  (fst (rate_limited_get_url_content "http://example.com/status"
          (serving error_looking_page as_is) (boot 0))
   = Ok "Error codes explained: what 404 and 500 mean"
   /\ fst (generate_response ADVANCED_KNOWLEDGE "scrape http://example.com/status"
             (serving error_looking_page as_is) (boot 0))
      = Ok "Error codes explained: what 404 and 500 mean")
  /\ (fst (rate_limited_get_url_content "http://example.com/status"
             (serving padded_error_page as_is) (boot 0))
      = Ok "Error 404 explained"
      /\ fst (generate_response ADVANCED_KNOWLEDGE "scrape http://example.com/status"
                (serving padded_error_page as_is) (boot 0))
         = Ok "Error 404 explained").
Proof.
  split.
  - apply (error_looking_page_passed_verbatim ADVANCED_KNOWLEDGE
             "scrape http://example.com/status"
             (serving error_looking_page as_is) (boot 0) error_looking_page
             "Error codes explained: what 404 and 500 mean");
      vm_compute; reflexivity.
  - apply (error_looking_page_passed_verbatim ADVANCED_KNOWLEDGE
             "scrape http://example.com/status"
             (serving padded_error_page as_is) (boot 0) padded_error_page
             (text padded_error_page));
      vm_compute; reflexivity.
Defined.

Lemma scrape_command_witness :
  generate_response ADVANCED_KNOWLEDGE "scrape "
    (serving (page_of 10) as_is) (boot 0)
  = (Ok "Please provide a URL to scrape.", boot 0)
  /\ generate_response ADVANCED_KNOWLEDGE (Py.append "scrape " (String NBSP EmptyString))
       (serving (page_of 10) as_is) (boot 0)
     = (Ok "Please provide a URL to scrape.", boot 0)
  /\ invocations (events (snd (generate_response ADVANCED_KNOWLEDGE
                                 "Scrape http://example.com"
                                 (serving (page_of 10) as_is) (boot 0))))
     = ["http://example.com"]
  /\ http_gets (events (snd (generate_response ADVANCED_KNOWLEDGE
                               "Scrape http://example.com"
                               (serving (page_of 10) as_is) (boot 0))))
     = ["http://example.com"].
Proof.
  split; [|split].
  - apply (scrape_command ADVANCED_KNOWLEDGE "scrape "
             (serving (page_of 10) as_is) (boot 0)); reflexivity.
  - apply (scrape_command ADVANCED_KNOWLEDGE (Py.append "scrape " (String NBSP EmptyString))
             (serving (page_of 10) as_is) (boot 0)); reflexivity.
  - apply (scrape_command ADVANCED_KNOWLEDGE "Scrape http://example.com"
             (serving (page_of 10) as_is) (boot 0)); [reflexivity|].
    vm_compute. discriminate.
Defined.

End RouterWitnesses.

(** ** The rate limiter along a sequence of calls *)

(** What one call does to the cells of the limiter. *)
Lemma call_summary (url : str) (e : Env) (s : State) :
  settled s -> (0 <= sleep_over e)%Q -> (0 <= net_delay e)%Q ->
  forall o s1, rate_limited_get_url_content url e s = (o, s1) ->
  settled s1
  /\ ((is_rate_limit o = true /\ is_ok o = false
       /\ last_request_time s1 = last_request_time s
       /\ last_reset s1 = last_reset s
       /\ num_calls s1 = S (num_calls s) /\ 10 < num_calls s1)
      \/ (is_ok o = true
          /\ (last_request_time s + 1 <= last_request_time s1)%Q
          /\ ((last_reset s1 = last_reset s
               /\ num_calls s1 = S (num_calls s) /\ num_calls s1 <= 10)
              \/ ((last_reset s + 60 <= last_reset s1)%Q /\ num_calls s1 = 1)))).
Proof.
  intros [S1 S2] So Nd o s1. rewrite rate_limited_eq.
  unfold admits, enter, fetch_state, after_get, pace, settled. run.
  destruct (Qle_bool (60 - (now s - last_reset s)) 0) eqn:R; run.
  - (* the period has elapsed *)
    apply Qle_bool_iff in R.
    intros [= <- <-]. run.
    destruct (Qltb (now s - last_request_time s) 1) eqn:G; run;
      [apply Qltb_true in G | apply Qltb_false in G];
      (split; [split; Lqa.lra|]); right;
      (split; [reflexivity|]); (split; [Lqa.lra|]); right; split;
      [Lqa.lra | reflexivity | Lqa.lra | reflexivity].
  - destruct (S (num_calls s) <=? 10) eqn:N.
    + apply Nat.leb_le in N. intros [= <- <-]. run.
      destruct (Qltb (now s - last_request_time s) 1) eqn:G; run;
        [apply Qltb_true in G | apply Qltb_false in G];
        (split; [split; Lqa.lra|]); right;
        (split; [reflexivity|]); (split; [Lqa.lra|]); left; repeat split;
        try reflexivity; exact N.
    + apply Nat.leb_gt in N. intros [= <- <-]. run.
      split; [split; assumption|]. left. repeat split; try reflexivity. exact N.
Qed.

Lemma arrival_settled (s : State) (d : Q) :
  settled s -> (0 <= d)%Q -> settled (set_now (now s + d)%Q s).
Proof. unfold settled. run. intros [A B] D. split; Lqa.lra. Qed.

Lemma serve_cons {A : Type} (f : str -> M A) (r : Request)
      (reqs : list Request) (s : State) :
  serve f (r :: reqs) s
  = let s0 := set_now (now s + idle r)%Q s in
    mkCompletion (fst (f (input r) (world r) s0))
                 (last_reset (snd (f (input r) (world r) s0)))
                 (last_request_time (snd (f (input r) (world r) s0)))
                 (now (snd (f (input r) (world r) s0)))
      :: serve f reqs (snd (f (input r) (world r) s0)).
Proof.
  cbn [serve]. cbv zeta. destruct (f (input r) (world r) _) as [o s1]. reflexivity.
Qed.

(** A tactic for the step of the inductions below: name the arrival
    state, the outcome and the state after the first call, and bring in
    what [call_summary] says about them. *)
Ltac first_call r s St Cr o s1 Sum :=
  rewrite serve_cons; cbv zeta;
  inversion Cr as [|? ? (Hidle & Hover & Hnet) Cr']; subst;
  pose proof (arrival_settled s (idle r) St Hidle) as St0;
  destruct (rate_limited_get_url_content (input r) (world r)
              (set_now (now s + idle r)%Q s)) as [o s1] eqn:Call;
  pose proof (call_summary _ _ _ St0 Hover Hnet _ _ Call) as Sum;
  cbn [fst snd]; cbn [set_now last_request_time last_reset num_calls] in Sum.

Lemma serve_outcomes (reqs : list Request) (s : State) :
  Forall (fun c => is_ok (outcome c) || is_rate_limit (outcome c) = true)
         (serve rate_limited_get_url_content reqs s).
Proof.
  revert s. induction reqs as [|r reqs IH]; intros s; [constructor|].
  rewrite serve_cons. cbv zeta. constructor; [|apply IH].
  cbn [outcome]. rewrite rate_limited_eq. destruct (admits _); reflexivity.
Qed.

Lemma serve_spaced (reqs : list Request) (s : State) :
  settled s -> calm reqs ->
  spaced (last_request_time s) (serve rate_limited_get_url_content reqs s).
Proof.
  revert s. induction reqs as [|r reqs IH]; intros s St Cr; [exact I|].
  first_call r s St Cr o s1 Sum.
  destruct Sum as [St1 Sum]. cbn [spaced started_at outcome].
  specialize (IH s1 St1 Cr').
  destruct Sum as [(_ & No & L & _) | (_ & L & _)].
  - rewrite L. repeat split; [Lqa.lra | rewrite No; discriminate | rewrite <- L; exact IH].
  - repeat split; [Lqa.lra | intros _; exact L | exact IH].
Qed.

Lemma spaced_weaken {A : Type} (lo lo' : Q) (cs : list (Completion A)) :
  (lo' <= lo)%Q -> spaced lo cs -> spaced lo' cs.
Proof.
  destruct cs as [|c cs]; [trivial|]. cbn [spaced]. intros L (A1 & A2 & A3).
  repeat split; [Lqa.lra | intros O; specialize (A2 O); Lqa.lra | exact A3].
Qed.

Lemma spaced_nth {A : Type} (cs : list (Completion A)) (lo : Q) (j : nat)
      (cj : Completion A) :
  spaced lo cs -> nth_error cs j = Some cj ->
  (lo <= started_at cj)%Q /\ (is_ok (outcome cj) = true -> (lo + 1 <= started_at cj)%Q).
Proof.
  revert lo j. induction cs as [|c cs IH]; intros lo j Sp N.
  - destruct j; discriminate.
  - destruct Sp as (A1 & A2 & A3). destruct j as [|j]; cbn in N.
    + injection N as <-. split; assumption.
    + apply (IH lo j); [|exact N]. apply (spaced_weaken (started_at c)); assumption.
Qed.

Lemma spaced_pairs {A : Type} (cs : list (Completion A)) (lo : Q) (i j : nat)
      (ci cj : Completion A) :
  spaced lo cs -> i < j ->
  nth_error cs i = Some ci -> nth_error cs j = Some cj ->
  is_ok (outcome cj) = true -> (started_at ci + 1 <= started_at cj)%Q.
Proof.
  revert lo i j. induction cs as [|c cs IH]; intros lo i j Sp L Ni Nj Oj.
  - destruct i; discriminate.
  - destruct Sp as (A1 & A2 & A3). destruct j as [|j]; [lia|]. cbn in Nj.
    destruct i as [|i]; cbn in Ni.
    + injection Ni as <-. destruct (spaced_nth cs _ j cj A3 Nj) as [_ B]. auto.
    + apply (IH (started_at c) i j); try assumption. lia.
Qed.

Lemma admitted_in_cons {A : Type} (p : Q) (c : Completion A) (cs : list (Completion A)) :
  admitted_in p (c :: cs)
  = (if is_ok (outcome c) && Qeq_bool (period_start c) p then 1 else 0) + admitted_in p cs.
Proof.
  unfold admitted_in. cbn [filter].
  destruct (is_ok (outcome c) && Qeq_bool (period_start c) p); reflexivity.
Qed.

Lemma quota_left_le (p : Q) (s : State) : quota_left p s <= 10.
Proof.
  unfold quota_left. destruct (Qeq_bool _ _); [lia|]. destruct (Qltb _ _); lia.
Qed.

Lemma serve_quota (reqs : list Request) (s : State) (p : Q) :
  settled s -> calm reqs ->
  admitted_in p (serve rate_limited_get_url_content reqs s) <= quota_left p s.
Proof.
  revert s. induction reqs as [|r reqs IH]; intros s St Cr; [cbn; lia|].
  first_call r s St Cr o s1 Sum.
  destruct Sum as [St1 Sum]. specialize (IH s1 St1 Cr').
  rewrite admitted_in_cons. cbn [outcome period_start].
  revert IH. unfold quota_left.
  destruct Sum as [(_ & No & _ & R & N & _) | (Yes & _ & [(R & N & B) | (R & N)])].
  - rewrite No, R, N. cbn [andb].
    destruct (Qeq_bool p (last_reset s)); [lia|]. destruct (Qltb _ _); lia.
  - rewrite Yes, R, N. cbn [andb].
    destruct (Qeq_bool p (last_reset s)) eqn:E.
    + destruct (Qeq_bool (last_reset s) p); lia.
    + assert (E' : Qeq_bool (last_reset s) p = false).
      { destruct (Qeq_bool (last_reset s) p) eqn:E'; [|reflexivity].
        apply Qeq_bool_iff in E'. symmetry in E'. apply Qeq_bool_iff in E'. congruence. }
      rewrite E'. destruct (Qltb _ _); lia.
  - rewrite Yes, N. cbn [andb].
    destruct (Qeq_bool (last_reset s1) p) eqn:E1.
    + apply Qeq_bool_iff in E1.
      assert (E2 : Qeq_bool p (last_reset s1) = true)
        by (apply Qeq_bool_iff; symmetry; exact E1).
      rewrite E2.
      destruct (Qeq_bool p (last_reset s)) eqn:E; [apply Qeq_bool_iff in E; exfalso; Lqa.lra|].
      destruct (Qltb p (last_reset s)) eqn:L; [apply Qltb_true in L; exfalso; Lqa.lra|].
      lia.
    + assert (E2 : Qeq_bool p (last_reset s1) = false).
      { destruct (Qeq_bool p (last_reset s1)) eqn:E2; [|reflexivity].
        apply Qeq_bool_iff in E2. symmetry in E2. apply Qeq_bool_iff in E2. congruence. }
      rewrite E2.
      destruct (Qltb p (last_reset s1)) eqn:L1.
      * lia.
      * apply Qltb_false in L1.
        destruct (Qeq_bool p (last_reset s)) eqn:E; [apply Qeq_bool_iff in E; exfalso; Lqa.lra|].
        destruct (Qltb p (last_reset s)) eqn:L; [apply Qltb_true in L; exfalso; Lqa.lra|].
        lia.
Qed.

(** C1 fails twice over.  Eleven calls in a row: the eleventh is not
    delayed, it raises [RateLimitException].  And the periods of the
    decorator are consecutive blocks, not a rolling window: ten calls at
    clock 50..59 and ten more at 60..69 all complete, twenty within
    twenty time units. *)
Lemma eleventh_call_raises_and_window_overrun :
  map (fun c => outcome c)
      (serve rate_limited_get_url_content
             (rapid 11 (serving (page_of 10) as_is) "http://example.com") (boot 0))
  = repeat (Ok "aaaaaaaaaa") 10 ++ [Raise (RateLimitException "too many calls" (50 # 1))]
  /\ List.length (serve rate_limited_get_url_content two_bursts (boot 0)) = 20
  /\ forallb (fun c => is_ok (outcome c)
                       && Qle_bool (50 # 1) (started_at c)
                       && Qle_bool (returned_at c) (69 # 1))
             (serve rate_limited_get_url_content two_bursts (boot 0)) = true.
Proof. repeat split; vm_compute; reflexivity. Qed.

(** C1, amended.  A call is never delayed for the quota: it is let
    through exactly when the decorator admits it and raises
    [RateLimitException] otherwise.  Along every sequence of calls (from a
    settled state, with no negative durations) each call returns a text or
    raises [RateLimitException]; the request time recorded by a call that
    was let through is at least one unit after the one recorded by any
    earlier call; and in each period of the decorator (a block that starts
    at a reset, not a rolling window) at most 10 calls are let through. *)
Theorem rate_limiter_behaviour (reqs : list Request) (s : State) :
  settled s -> calm reqs ->
  let cs := serve rate_limited_get_url_content reqs s in
  (forall url e s0,
      is_ok (fst (rate_limited_get_url_content url e s0)) = admits s0
      /\ is_rate_limit (fst (rate_limited_get_url_content url e s0)) = negb (admits s0))
  /\ Forall (fun c => is_ok (outcome c) || is_rate_limit (outcome c) = true) cs
  /\ (forall i j ci cj,
         i < j -> nth_error cs i = Some ci -> nth_error cs j = Some cj ->
         is_ok (outcome cj) = true ->
         (started_at ci + 1 <= started_at cj)%Q)
  /\ (forall p, admitted_in p cs <= 10).
Proof.
  intros St Cr cs. split; [|split; [|split]].
  - intros url e s0. rewrite rate_limited_eq. destruct (admits s0); split; reflexivity.
  - apply serve_outcomes.
  - intros i j ci cj L Ni Nj Oj.
    apply (spaced_pairs cs (last_request_time s) i j ci cj); try assumption.
    apply serve_spaced; assumption.
  - intros p. etransitivity; [apply serve_quota; assumption | apply quota_left_le].
Qed.

Lemma settled_boot (t : Q) : settled (boot t).
Proof. split; apply Qle_refl. Defined.

Lemma calm_two_bursts : calm two_bursts.
Proof.
  unfold calm, two_bursts, rapid. cbn [repeat app].
  repeat (apply Forall_cons; [cbn; repeat split; discriminate|]). apply Forall_nil.
Defined.

Lemma rate_limiter_behaviour_witness :
  let cs := serve rate_limited_get_url_content two_bursts (boot 0) in
  (forall url e s0,
      is_ok (fst (rate_limited_get_url_content url e s0)) = admits s0
      /\ is_rate_limit (fst (rate_limited_get_url_content url e s0)) = negb (admits s0))
  /\ Forall (fun c => is_ok (outcome c) || is_rate_limit (outcome c) = true) cs
  /\ (forall i j ci cj,
         i < j -> nth_error cs i = Some ci -> nth_error cs j = Some cj ->
         is_ok (outcome cj) = true ->
         (started_at ci + 1 <= started_at cj)%Q)
  /\ (forall p, admitted_in p cs <= 10).
Proof.
  exact (rate_limiter_behaviour two_bursts (boot 0) (settled_boot 0) calm_two_bursts).
Defined.

Lemma serve_ext {A : Type} (f g : str -> M A) (reqs : list Request) (s : State) :
  Forall (fun r => forall e s0, f (input r) e s0 = g (input r) e s0) reqs ->
  serve f reqs s = serve g reqs s.
Proof.
  intros F. revert s. induction F as [|r reqs E _ IH]; intros s; [reflexivity|].
  cbn [serve]. cbv zeta. rewrite E.
  destruct (g (input r) (world r) _) as [o s1]. rewrite IH. reflexivity.
Qed.

(** C2, evaluated where it fails.  Eleven scrape commands in a row: the
    first ten are answered, the eleventh leaves [generate_response] as an
    uncaught [RateLimitException], raised by the decorator outside the
    [try] of the fetcher. *)
Theorem eleventh_scrape_escapes {unicode : Py.Unicode} {nltk : Nltk}
        {float64 : Sklearn.Float64} (KB : list KnowledgeEntry) :
  map (fun c => outcome c)
      (serve (generate_response KB)
             (rapid 11 (serving (page_of 10) as_is) "scrape http://example.com") (boot 0))
  = repeat (Ok (success_message "http://example.com" "aaaaaaaaaa")) 10
    ++ [Raise (RateLimitException "too many calls" (50 # 1))].
Proof.
  rewrite (serve_ext (generate_response KB) scrape).
  - vm_compute. reflexivity.
  - apply Forall_forall. intros r I. apply repeat_spec in I. subst r. cbn [input].
    intros e s0.
    change "scrape http://example.com" with ("scrape " ++ "http://example.com")%str.
    apply generate_response_command; reflexivity.
Qed.

(** The same for every state in which the decorator is over its quota. *)
Lemma over_quota_escapes {unicode : Py.Unicode} {nltk : Nltk}
      {float64 : Sklearn.Float64} (KB : list KnowledgeEntry)
      (user_input : str) (e : Env) (s : State) :
  is_scrape_command user_input = true ->
  Py.truthy (scrape_url user_input) = true ->
  admits s = false ->
  fst (generate_response KB user_input e s)
  = Raise (RateLimitException "too many calls" ((60 # 1) - (now s - last_reset s))%Q).
Proof.
  intros C U A.
  rewrite (generate_response_scrape KB user_input e s C U). unfold scrape.
  rewrite rate_limited_eq, A.
  reflexivity.
Qed.

(** Off that case the router always answers: every other failure of the
    fetch path comes back as text. *)
Lemma admitted_scrape_answers {unicode : Py.Unicode} {nltk : Nltk}
      {float64 : Sklearn.Float64} (KB : list KnowledgeEntry)
      (user_input : str) (e : Env) (s : State) :
  is_scrape_command user_input = true ->
  admits s = true ->
  is_ok (fst (generate_response KB user_input e s)) = true.
Proof.
  intros C A. destruct (Py.truthy (scrape_url user_input)) eqn:U.
  - rewrite (generate_response_scrape KB user_input e s C U). unfold scrape.
    rewrite rate_limited_eq, A.
    reflexivity.
  - rewrite (generate_response_no_url KB user_input e s C U). reflexivity.
Qed.


(* ================================================================= *)
(** ** Vectors, norms and cosine similarity *)

Section Cosine.

Local Open Scope R_scope.
Import Sklearn.

Lemma dot_scale (a b : R) (u w : list R) :
  a <> 0 -> b <> 0 ->
  dot (map (fun x => x / a) u) (map (fun y => y / b) w) = dot u w / (a * b).
Proof.
  intros Ha Hb. revert w. induction u as [|x u IH]; intros [|y w]; cbn [map dot];
    try (field; split; assumption).
  rewrite IH. field. split; assumption.
Qed.

Lemma dot_self_nonneg (v : list R) : 0 <= dot v v.
Proof. induction v as [|x v IH]; cbn [dot]; [lra | nra]. Qed.

Lemma norm_nonneg (v : list R) : 0 <= norm v.
Proof. apply sqrt_pos. Qed.

Lemma handle_zeros_pos (n : R) : 0 <= n -> 0 < handle_zeros n.
Proof. unfold handle_zeros. destruct (Req_dec_T n 0); lra. Qed.

Lemma norm_scale (a : R) (v : list R) :
  0 < a -> norm (map (fun x => x / a) v) = norm v / a.
Proof.
  intros Ha. unfold norm. rewrite dot_scale by lra.
  rewrite sqrt_div_alt by nra. rewrite sqrt_square by lra. reflexivity.
Qed.

Lemma handle_zeros_normalize (v : list R) : handle_zeros (norm (normalize v)) = 1.
Proof.
  unfold normalize. pose proof (norm_nonneg v) as P.
  rewrite norm_scale by (apply handle_zeros_pos; exact P).
  unfold handle_zeros at 2. destruct (Req_dec_T (norm v) 0) as [Z|NZ].
  - rewrite Z, Rdiv_1_r. unfold handle_zeros. destruct (Req_dec_T 0 0); [reflexivity|lra].
  - replace (norm v / norm v) with 1 by (field; exact NZ).
    unfold handle_zeros. destruct (Req_dec_T 1 0); [lra|reflexivity].
Qed.

Lemma normalize_dot (u w : list R) :
  dot (normalize u) (normalize w)
  = dot u w / (handle_zeros (norm u) * handle_zeros (norm w)).
Proof.
  unfold normalize.
  pose proof (handle_zeros_pos _ (norm_nonneg u)).
  pose proof (handle_zeros_pos _ (norm_nonneg w)).
  apply dot_scale; lra.
Qed.

(** Normalising twice, as [transform] and then [cosine_similarity] do,
    divides by the norms once. *)
Lemma cosine_eq (u w : list R) :
  dot (normalize (normalize u)) (normalize (normalize w))
  = dot u w / (handle_zeros (norm u) * handle_zeros (norm w)).
Proof.
  rewrite normalize_dot, !handle_zeros_normalize, normalize_dot.
  rewrite Rmult_1_r. apply Rdiv_1_r.
Qed.

Lemma dot_zero_l (u w : list R) : Forall (fun x => x = 0) u -> dot u w = 0.
Proof.
  intros Z. revert w. induction Z as [|x u -> _ IH]; intros [|y w]; cbn [dot];
    try reflexivity.
  rewrite IH. ring.
Qed.

Lemma normalize_zero (v : list R) :
  Forall (fun x => x = 0) v -> Forall (fun x => x = 0) (normalize v).
Proof.
  intros Z. unfold normalize. apply Forall_map.
  eapply Forall_impl; [|exact Z]. cbn. intros x ->. apply Rdiv_0_l.
Qed.

(** *** [argmax] *)

Lemma argmax_from_spec (l pre : list R) (b : nat) (bv : R) :
  (b < List.length pre)%nat -> nth b pre 0 = bv ->
  Forall (fun x => x <= bv) pre ->
  let r := argmax_from b bv (List.length pre) l in
  (r < List.length (pre ++ l))%nat
  /\ Forall (fun x => x <= nth r (pre ++ l) 0) (pre ++ l).
Proof.
  revert pre b bv. induction l as [|x l IH]; intros pre b bv Hb Hv Hmax; cbn [argmax_from].
  - cbv zeta. rewrite app_nil_r. split; [exact Hb|]. rewrite Hv. exact Hmax.
  - assert (E : pre ++ x :: l = (pre ++ [x]) ++ l) by (rewrite <- app_assoc; reflexivity).
    assert (L : S (List.length pre) = List.length (pre ++ [x]))
      by (rewrite length_app; cbn; lia).
    destruct (Rlt_dec bv x) as [Lt|Ge]; rewrite E, L.
    + apply IH.
      * rewrite <- L. lia.
      * rewrite app_nth2 by lia. rewrite Nat.sub_diag. reflexivity.
      * apply Forall_app. split.
        -- eapply Forall_impl; [|exact Hmax]. cbn. intros; lra.
        -- constructor; [lra|constructor].
    + apply IH.
      * rewrite <- L. lia.
      * rewrite app_nth1 by exact Hb. exact Hv.
      * apply Forall_app. split; [exact Hmax|]. constructor; [lra|constructor].
Qed.

Lemma argmax_spec (l : list R) :
  l <> [] ->
  exists i, argmax l = Some i /\ (i < List.length l)%nat
            /\ Forall (fun x => x <= nth i l 0) l.
Proof.
  destruct l as [|x l]; [congruence|]. intros _. cbn [argmax].
  exists (argmax_from 0 x 1 l). split; [reflexivity|].
  apply (argmax_from_spec l [x] 0%nat x); cbn; [lia | reflexivity |].
  constructor; [lra|constructor].
Qed.

Lemma is_max_unique (m m' : R) (l : list R) : is_max m l -> is_max m' l -> m = m'.
Proof.
  intros [I1 F1] [I2 F2]. rewrite Forall_forall in F1, F2.
  specialize (F1 _ I2). specialize (F2 _ I1). lra.
Qed.

Lemma argmax_is_max (l : list R) (i : nat) :
  argmax l = Some i -> (i < List.length l)%nat /\ is_max (nth i l 0) l.
Proof.
  intros A. destruct l as [|x l]; [discriminate|].
  destruct (argmax_spec (x :: l)) as (j & A' & Lj & Fj); [discriminate|].
  rewrite A in A'. injection A' as <-. split; [exact Lj|]. split; [|exact Fj].
  apply nth_In. exact Lj.
Qed.

End Cosine.

(* ================================================================= *)
(** ** The matcher *)

Section Matcher.

Local Open Scope R_scope.
Import Sklearn.

Context {unicode : Py.Unicode} {nltk : Nltk} {float64 : Float64}.
Variable KB : list KnowledgeEntry.

(** Each exact similarity is the dot product of the two weighted count
    vectors over the product of their norms (a zero norm counting as 1). *)
Lemma exact_row_eq (corpus : list str) (doc : str) :
  exact_row corpus doc
  = map (fun d =>
           dot (weigh (fit corpus) doc) (weigh (fit corpus) d)
           / (handle_zeros (norm (weigh (fit corpus) doc))
              * handle_zeros (norm (weigh (fit corpus) d))))
        corpus.
Proof.
  unfold exact_row, cosine_similarity, transform.
  rewrite map_map. apply map_ext. intros d. apply cosine_eq.
Qed.

Lemma similarities_length (user_input : str) :
  List.length (similarities_of KB user_input) = List.length KB.
Proof.
  unfold similarities_of, knowledge_questions.
  rewrite cosine_row_length, length_map. reflexivity.
Qed.

Lemma similarities_not_nil (user_input : str) :
  KB <> [] -> similarities_of KB user_input <> [].
Proof.
  intros NE Z. apply (f_equal (@List.length R)) in Z.
  rewrite similarities_length in Z. destruct KB; [congruence|discriminate].
Qed.

(** When no similarity exceeds the threshold the matcher returns [None]. *)
Lemma below_threshold_no_match (user_input : str) (e : Env) (s : State) :
  KB <> [] ->
  Forall (fun x => x <= THRESHOLD) (similarities_of KB user_input) ->
  custom_semantic_match KB user_input e s = (Ok None, s).
Proof.
  intros NE F. unfold custom_semantic_match.
  destruct (argmax_spec (similarities_of KB user_input)) as (i & A & Li & _).
  { apply similarities_not_nil. exact NE. }
  rewrite A. cbv zeta.
  destruct (Rlt_dec THRESHOLD (nth i (similarities_of KB user_input) 0)) as [Lt|_];
    [|reflexivity].
  rewrite Forall_forall in F.
  specialize (F _ (nth_In _ 0 Li)). lra.
Qed.

(** What the accuracy of the library gives for one query. *)
Lemma accurate_similarities (user_input : str) :
  accurate float64 ->
  Forall2 (fun x y => Rabs (x - y) <= ROUNDING /\ (y = 0 -> x = 0))
          (similarities_of KB user_input)
          (exact_row (knowledge_questions KB) (preprocess user_input)).
Proof. intros A. apply A. Qed.

(** A text without any term of the vocabulary has the zero vector, and
    its exact similarities are zero. *)
Lemma unshared_zero_vector (doc : str) :
  (forall t, In t (vocabulary_ (vectorizer KB)) -> ~ In t (analyzer doc)) ->
  Forall (fun x => x = 0) (transform (vectorizer KB) doc).
Proof.
  intros D. unfold transform. apply normalize_zero. unfold weigh.
  apply Forall_map. apply Forall_forall. intros t Ht.
  unfold count. rewrite (proj1 (count_occ_not_In _ _ _) (D t Ht)).
  cbn [INR]. ring.
Qed.

Lemma unshared_zero_row (doc : str) :
  (forall t, In t (vocabulary_ (vectorizer KB)) -> ~ In t (analyzer doc)) ->
  Forall (fun x => x = 0) (exact_row (knowledge_questions KB) doc).
Proof.
  intros D. unfold exact_row, cosine_similarity. apply Forall_map.
  apply Forall_forall. intros y _. apply dot_zero_l. apply normalize_zero.
  apply unshared_zero_vector. exact D.
Qed.

Lemma Forall2_zero (l l' : list R) :
  Forall2 (fun x y => Rabs (x - y) <= ROUNDING /\ (y = 0 -> x = 0)) l l' ->
  Forall (fun y => y = 0) l' -> Forall (fun x => x = 0) l.
Proof.
  induction 1 as [|x y l l' [_ Z] _ IH]; intros F; [constructor|].
  inversion F as [|? ? Zy F']; subst. constructor; [apply Z; reflexivity | apply IH; exact F'].
Qed.

Lemma Forall2_bound (b : R) (l l' : list R) :
  Forall2 (fun x y => Rabs (x - y) <= ROUNDING /\ (y = 0 -> x = 0)) l l' ->
  Forall (fun y => y <= b) l' -> Forall (fun x => x <= b + ROUNDING) l.
Proof.
  induction 1 as [|x y l l' [B _] _ IH]; intros F; [constructor|].
  inversion F as [|? ? By F']; subst. constructor; [|apply IH; exact F'].
  unfold Rabs in B. destruct (Rcase_abs (x - y)); lra.
Qed.

Lemma THRESHOLD_pos : 0 < THRESHOLD.
Proof. unfold THRESHOLD. lra. Qed.

(** A query with no term of the vocabulary is not matched. *)
Lemma unshared_no_match (user_input : str) (e : Env) (s : State) :
  accurate float64 ->
  KB <> [] ->
  (forall t, In t (vocabulary_ (vectorizer KB)) ->
             ~ In t (analyzer (preprocess user_input))) ->
  custom_semantic_match KB user_input e s = (Ok None, s).
Proof.
  intros A NE D. apply below_threshold_no_match; [exact NE|].
  pose proof (Forall2_zero _ _ (accurate_similarities user_input A)
                           (unshared_zero_row _ D)) as Z.
  eapply Forall_impl; [|exact Z]. cbn. intros x ->. pose proof THRESHOLD_pos. lra.
Qed.

End Matcher.

(** C7. For every query whose normalized form has no term of the
    vocabulary (in particular when it normalizes to nothing), the query
    vector is all zero, so is every similarity the library returns (zeros
    are exact), there is one similarity per entry, and the matcher returns
    the no-match result without raising. *)
Theorem no_shared_term_no_match {unicode : Py.Unicode} {nltk : Nltk}
        {float64 : Sklearn.Float64} (KB : list KnowledgeEntry)
        (user_input : str) (e : Env) (s : State) :
  Sklearn.accurate float64 ->
  KB <> [] ->
  (forall t, In t (Sklearn.vocabulary_ (vectorizer KB)) ->
             ~ In t (Sklearn.analyzer (preprocess user_input))) ->
  Forall (fun x => x = 0%R) (Sklearn.transform (vectorizer KB) (preprocess user_input))
  /\ Forall (fun x => x = 0%R) (similarities_of KB user_input)
  /\ List.length (similarities_of KB user_input) = List.length KB
  /\ custom_semantic_match KB user_input e s = (Ok None, s).
Proof.
  intros A NE D.
  split; [apply unshared_zero_vector; exact D|].
  split; [|split; [apply similarities_length | apply unshared_no_match; assumption]].
  apply (Forall2_zero _ _ (accurate_similarities KB user_input A)).
  apply unshared_zero_row. exact D.
Qed.

(** C6. The threshold is exclusive.  The similarities are the float64
    numbers the library returned and 0.6 is the float64 the literal
    denotes, 5404319552844595 / 2^53.  If the greatest similarity of a
    query is exactly 0.6 the matcher returns no match; if it exceeds 0.6 the matcher returns the
    answer of the entry at the arg-max, whose similarity is that greatest
    one: the text of a static entry, or what the generator of a dynamic
    entry computes now. *)
Theorem threshold_is_exclusive {unicode : Py.Unicode} {nltk : Nltk}
        {float64 : Sklearn.Float64} (KB : list KnowledgeEntry)
        (user_input : str) (e : Env) (s : State) (m : R) :
  imported KB ->
  is_max m (similarities_of KB user_input) ->
  (m = (5404319552844595 / 9007199254740992)%R ->
   custom_semantic_match KB user_input e s = (Ok None, s))
  /\ ((5404319552844595 / 9007199254740992 < m)%R ->
      exists i item,
        Sklearn.argmax (similarities_of KB user_input) = Some i
        /\ nth i (similarities_of KB user_input) 0%R = m
        /\ nth_error KB i = Some item
        /\ custom_semantic_match KB user_input e s
           = match answer item with
             | StaticText t => (Ok (Some t), s)
             | DynamicGenerator g =>
                 match g e s with
                 | (Ok t, s') => (Ok (Some t), s')
                 | (Raise x, s') => (Raise x, s')
                 end
             end).
Proof.
  intros _ Mx. fold THRESHOLD.
  assert (NE : similarities_of KB user_input <> []).
  { destruct Mx as [I _]. intros Z. rewrite Z in I. exact I. }
  destruct (argmax_spec _ NE) as (i & A & Li & _).
  destruct (argmax_is_max _ _ A) as [_ Mi].
  pose proof (is_max_unique _ _ _ Mi Mx) as E.
  unfold custom_semantic_match. rewrite A. cbv zeta. rewrite E.
  split.
  - intros ->. destruct (Rlt_dec _ _) as [Lt|_]; [lra|reflexivity].
  - intros Gt. destruct (Rlt_dec _ _) as [_|Ge]; [|lra].
    rewrite similarities_length in Li.
    destruct (nth_error KB i) as [item|] eqn:N.
    + exists i, item. split; [reflexivity|]. split; [exact E|]. split; [exact N|].
      unfold bind, resolve, ret. destruct (answer item) as [t|g]; [reflexivity|].
      destruct (g e s) as [[t|x] s']; reflexivity.
    + apply nth_error_None in N. lia.
Qed.

(** ** Evaluating the matcher on the knowledge base *)

Lemma Forall2_refl {A : Type} (P : A -> A -> Prop) (l : list A) :
  (forall x, P x x) -> Forall2 P l l.
Proof. intros R. induction l; constructor; auto. Qed.

(** Arithmetic without rounding is accurate. *)
Lemma exact_accurate {unicode : Py.Unicode} : Sklearn.accurate Sklearn.exact.
Proof.
  intros corpus doc. apply Forall2_refl. intros x. split; [|trivial].
  unfold Rminus. rewrite Rplus_opp_r, Rabs_R0. unfold Sklearn.ROUNDING. lra.
Defined.

Lemma time_row_similarities (x : R) (user_input : str)
      {unicode : Py.Unicode} {nltk : Nltk} :
  similarities_of (float64 := Sklearn.fixed (time_row x)) ADVANCED_KNOWLEDGE user_input
  = [0; 0; 0; 0; x; 0; 0; 0]%R.
Proof. reflexivity. Defined.

Lemma is_max_time_row (x : R) (user_input : str)
      {unicode : Py.Unicode} {nltk : Nltk} :
  (0 <= x)%R ->
  is_max x (similarities_of (float64 := Sklearn.fixed (time_row x))
              ADVANCED_KNOWLEDGE user_input).
Proof.
  intros P. rewrite time_row_similarities. split.
  - do 4 right. left. reflexivity.
  - repeat (apply Forall_cons; [cbn; lra|]). apply Forall_nil.
Defined.

Lemma nonneg_THRESHOLD : (0 <= THRESHOLD)%R.
Proof. unfold THRESHOLD. lra. Defined.

Lemma nonneg_above : (0 <= 600001 / 1000000)%R.
Proof. lra. Defined.

Lemma above_THRESHOLD : (THRESHOLD < 600001 / 1000000)%R.
Proof. unfold THRESHOLD. lra. Defined.

Section MatcherWitnesses.

#[local] Existing Instance latin1.
#[local] Existing Instance plain_nltk.

Lemma imported_ADVANCED_KNOWLEDGE : imported ADVANCED_KNOWLEDGE.
Proof. vm_compute. reflexivity. Defined.

Lemma threshold_is_exclusive_witness :
  custom_semantic_match (float64 := Sklearn.fixed (time_row THRESHOLD))
    ADVANCED_KNOWLEDGE "what time is it" (serving (page_of 10) as_is) (boot 0)
  = (Ok None, boot 0)
  /\ custom_semantic_match (float64 := Sklearn.fixed (time_row (600001 / 1000000)))
       ADVANCED_KNOWLEDGE "what time is it" (serving (page_of 10) as_is) (boot 0)
     = (Ok (Some "The current time is %H:%M:%S."), boot 0).
Proof.
  split.
  - apply (proj1 (threshold_is_exclusive (float64 := Sklearn.fixed (time_row THRESHOLD))
                    ADVANCED_KNOWLEDGE "what time is it"
                    (serving (page_of 10) as_is) (boot 0) THRESHOLD
                    imported_ADVANCED_KNOWLEDGE
                    (is_max_time_row THRESHOLD _ nonneg_THRESHOLD))).
    reflexivity.
  - destruct (proj2 (threshold_is_exclusive
                       (float64 := Sklearn.fixed (time_row (600001 / 1000000)))
                       ADVANCED_KNOWLEDGE "what time is it"
                       (serving (page_of 10) as_is) (boot 0) (600001 / 1000000)%R
                       imported_ADVANCED_KNOWLEDGE
                       (is_max_time_row _ _ nonneg_above)) above_THRESHOLD)
      as (i & item & _ & V & N & C).
    rewrite time_row_similarities in V.
    do 4 (destruct i as [|i]; [cbn in V; exfalso; lra|]).
    destruct i as [|i].
    + injection N as <-. exact C.
    + do 3 (destruct i as [|i]; [cbn in V; exfalso; lra|]). destruct i; discriminate N.
Defined.

#[local] Existing Instance Sklearn.exact.

Lemma no_shared_term_no_match_witness :
  custom_semantic_match ADVANCED_KNOWLEDGE "how are you"
    (serving (page_of 10) as_is) (boot 0) = (Ok None, boot 0)
  /\ custom_semantic_match ADVANCED_KNOWLEDGE "purple elephants"
       (serving (page_of 10) as_is) (boot 0) = (Ok None, boot 0).
Proof.
  split.
  - apply (no_shared_term_no_match ADVANCED_KNOWLEDGE "how are you"
             (serving (page_of 10) as_is) (boot 0)); [apply exact_accurate|discriminate|].
    intros t _ Q. vm_compute in Q. exact Q.
  - apply (no_shared_term_no_match ADVANCED_KNOWLEDGE "purple elephants"
             (serving (page_of 10) as_is) (boot 0)); [apply exact_accurate|discriminate|].
    intros t V Q. vm_compute in Q. vm_compute in V.
    destruct Q as [<-|[<-|[]]];
      repeat (destruct V as [V|V]; [discriminate V|]); exact V.
Defined.

End MatcherWitnesses.

(** ** Bounds on the logarithms behind the idf weights *)

Section Logarithms.

Local Open Scope R_scope.

Lemma ln_le_of_le_exp (c y : R) : 0 < c -> c <= exp y -> ln c <= y.
Proof.
  intros Pc L. destruct (Rle_or_lt (ln c) y) as [Le|Lt]; [exact Le|].
  exfalso. apply exp_increasing in Lt. rewrite exp_ln in Lt by exact Pc. lra.
Qed.

Lemma exp_double (a x : R) : 0 <= a -> a <= exp x -> a * a <= exp (x + x).
Proof. intros Pa L. rewrite exp_plus. pose proof (exp_pos x). nra. Qed.

Lemma div_le (a b c : R) : 0 < b -> a <= c * b -> a / b <= c.
Proof.
  intros Pb L. apply (Rmult_le_reg_r b); [exact Pb|].
  unfold Rdiv. rewrite Rmult_assoc, Rinv_l by lra. lra.
Qed.

Lemma ln_9_2_upper : ln (9 / 2) <= 31 / 20.
Proof.
  apply ln_le_of_le_exp; [lra|].
  assert (E1 : 671 / 640 <= exp (31 / 640))
    by (pose proof (exp_ineq1_le (31 / 640)); lra).
  assert (E2 : 10992 / 10000 <= exp (31 / 320)).
  { replace (31 / 320) with (31 / 640 + 31 / 640) by lra.
    pose proof (fun P => exp_double _ _ P E1) as D; specialize (D ltac:(lra)). lra. }
  assert (E4 : 12082 / 10000 <= exp (31 / 160)).
  { replace (31 / 160) with (31 / 320 + 31 / 320) by lra.
    pose proof (fun P => exp_double _ _ P E2) as D; specialize (D ltac:(lra)). lra. }
  assert (E8 : 14597 / 10000 <= exp (31 / 80)).
  { replace (31 / 80) with (31 / 160 + 31 / 160) by lra.
    pose proof (fun P => exp_double _ _ P E4) as D; specialize (D ltac:(lra)). lra. }
  assert (E16 : 21307 / 10000 <= exp (31 / 40)).
  { replace (31 / 40) with (31 / 80 + 31 / 80) by lra.
    pose proof (fun P => exp_double _ _ P E8) as D; specialize (D ltac:(lra)). lra. }
  replace (31 / 20) with (31 / 40 + 31 / 40) by lra.
  pose proof (fun P => exp_double _ _ P E16) as D; specialize (D ltac:(lra)). lra.
Qed.

Lemma ln_9_4_lower : 3 / 4 <= ln (9 / 4).
Proof.
  replace (9 / 4) with (/ (4 / 9)) by field. rewrite ln_Rinv by lra.
  enough (ln (4 / 9) <= - (3 / 4)) by lra.
  apply ln_le_of_le_exp; [lra|].
  assert (F1 : 29 / 32 <= exp (- (3 / 32))) by (pose proof (exp_ineq1_le (- (3 / 32))); lra).
  assert (F2 : 82 / 100 <= exp (- (3 / 16))).
  { replace (- (3 / 16)) with (- (3 / 32) + - (3 / 32)) by lra.
    pose proof (fun P => exp_double _ _ P F1) as D; specialize (D ltac:(lra)). lra. }
  assert (F4 : 67 / 100 <= exp (- (3 / 8))).
  { replace (- (3 / 8)) with (- (3 / 16) + - (3 / 16)) by lra.
    pose proof (fun P => exp_double _ _ P F2) as D; specialize (D ltac:(lra)). lra. }
  replace (- (3 / 4)) with (- (3 / 8) + - (3 / 8)) by lra.
  pose proof (fun P => exp_double _ _ P F4) as D; specialize (D ltac:(lra)). lra.
Qed.

Lemma ln_9_5_lower : 1 / 2 <= ln (9 / 5).
Proof.
  replace (9 / 5) with (/ (5 / 9)) by field. rewrite ln_Rinv by lra.
  enough (ln (5 / 9) <= - (1 / 2)) by lra.
  apply ln_le_of_le_exp; [lra|].
  assert (G1 : 15 / 16 <= exp (- (1 / 16))) by (pose proof (exp_ineq1_le (- (1 / 16))); lra).
  assert (G2 : 87 / 100 <= exp (- (1 / 8))).
  { replace (- (1 / 8)) with (- (1 / 16) + - (1 / 16)) by lra.
    pose proof (fun P => exp_double _ _ P G1) as D; specialize (D ltac:(lra)). lra. }
  assert (G4 : 75 / 100 <= exp (- (1 / 4))).
  { replace (- (1 / 4)) with (- (1 / 8) + - (1 / 8)) by lra.
    pose proof (fun P => exp_double _ _ P G2) as D; specialize (D ltac:(lra)). lra. }
  replace (- (1 / 2)) with (- (1 / 4) + - (1 / 4)) by lra.
  pose proof (fun P => exp_double _ _ P G4) as D; specialize (D ltac:(lra)). lra.
Qed.

Lemma ln_9_2_pos : 0 < ln (9 / 2).
Proof. rewrite <- ln_1. apply ln_increasing; lra. Qed.

End Logarithms.

(** ** The vectorizer on ASCII text

    On ASCII text the analyzer does not depend on the Unicode tables
    beyond ASCII: it agrees with the one over the Latin-1 tables, which
    can be evaluated. *)

Section AsciiText.

Import Sklearn.
Context {unicode : Py.Unicode}.

Lemma ascii_text_lowercase (s : str) :
  ascii_text s = true -> ascii_text (ascii_lowercase s) = true.
Proof.
  unfold ascii_text. induction s as [|c s IH]; cbn [all_chars ascii_lowercase]; [trivial|].
  intros A. apply andb_true_iff in A as [A1 A2]. rewrite (IH A2), andb_true_r.
  revert A1. unfold Py.ascii_lower, Py.ascii_isupper, Py.in_range, Py.is_ascii.
  destruct (N.leb_spec 65 c), (N.leb_spec c 90); cbn; intros L; try exact L.
  apply N.ltb_lt. lia.
Qed.

Lemma runs_from_ascii (s cur : str) :
  ascii_text s = true ->
  runs_from cur s = runs_from (unicode := latin1) cur s.
Proof.
  revert cur. unfold ascii_text.
  induction s as [|c s IH]; intros cur A; cbn [runs_from]; [reflexivity|].
  cbn [all_chars] in A. apply andb_true_iff in A as [A1 A2].
  rewrite (Py.isword_char_ascii c A1), (Py.isword_char_ascii (Unicode := latin1) c A1).
  destruct (Py.ascii_isword c); [apply IH; exact A2 | f_equal; apply IH; exact A2].
Qed.

Lemma analyzer_ascii (doc : str) :
  ascii_text doc = true -> analyzer doc = analyzer (unicode := latin1) doc.
Proof.
  intros A. unfold analyzer.
  rewrite (lower_ascii doc A), (lower_ascii (unicode := latin1) doc A).
  rewrite (runs_from_ascii _ _ (ascii_text_lowercase doc A)). reflexivity.
Qed.

Lemma flat_map_analyzer_ascii (corpus : list str) :
  forallb ascii_text corpus = true ->
  flat_map analyzer corpus = flat_map (analyzer (unicode := latin1)) corpus.
Proof.
  induction corpus as [|d corpus IH]; cbn [forallb flat_map]; [reflexivity|].
  intros A. apply andb_true_iff in A as [A1 A2].
  rewrite (analyzer_ascii d A1), (IH A2). reflexivity.
Qed.

Lemma df_ascii (corpus : list str) (t : str) :
  forallb ascii_text corpus = true ->
  df corpus t = df (unicode := latin1) corpus t.
Proof.
  unfold df. intros A. f_equal.
  induction corpus as [|d corpus IH]; cbn [forallb filter] in *; [reflexivity|].
  apply andb_true_iff in A as [A1 A2].
  rewrite (analyzer_ascii d A1), (IH A2). reflexivity.
Qed.

Lemma weigh_ascii (corpus : list str) (doc : str) :
  forallb ascii_text corpus = true -> ascii_text doc = true ->
  weigh (fit corpus) doc
  = weigh (unicode := latin1) (fit (unicode := latin1) corpus) doc.
Proof.
  intros A D. unfold weigh, fit. cbn [vocabulary_ idf_].
  rewrite (flat_map_analyzer_ascii corpus A), (analyzer_ascii doc D).
  apply map_ext. intros t. rewrite (df_ascii corpus t A). reflexivity.
Qed.

(** The exact similarities of an ASCII text against an ASCII corpus. *)
Lemma exact_row_ascii (corpus : list str) (doc : str) :
  forallb ascii_text corpus = true -> ascii_text doc = true ->
  exact_row corpus doc = exact_row (unicode := latin1) corpus doc.
Proof.
  intros A D. rewrite !exact_row_eq. apply map_ext_in. intros d I.
  assert (Ad : ascii_text d = true).
  { rewrite forallb_forall in A. apply A. exact I. }
  rewrite (weigh_ascii corpus doc A D), (weigh_ascii corpus d A Ad). reflexivity.
Qed.

Lemma isalpha_ascii (s : str) :
  ascii_text s = true ->
  Py.isalpha s = Py.truthy s && all_chars Py.ascii_isalpha s.
Proof.
  intros A. unfold Py.isalpha. f_equal. revert A. unfold ascii_text.
  induction s as [|c s IH]; cbn [all_chars Py.all_letters]; [reflexivity|].
  intros A. apply andb_true_iff in A as [A1 A2].
  rewrite (Py.isalpha_char_ascii c A1), (IH A2). reflexivity.
Qed.

End AsciiText.

(** ** The exact questions of the knowledge base *)

Ltac eval_terms :=
  repeat match goal with
  | |- context [Sklearn.count ?t ?l] =>
      let v := eval vm_compute in (Sklearn.count t l) in
      change (Sklearn.count t l) with v
  | |- context [Sklearn.df (unicode := ?u) ?c ?t] =>
      let v := eval vm_compute in (Sklearn.df (unicode := u) c t) in
      change (Sklearn.df (unicode := u) c t) with v
  | |- context [@List.length str ?l] =>
      let v := eval vm_compute in (@List.length str l) in
      change (@List.length str l) with v
  end.

Ltac eval_corpus KB :=
  let v := eval vm_compute in (Sklearn.vocabulary_ (vectorizer (unicode := latin1) KB)) in
  change (Sklearn.vocabulary_ (vectorizer (unicode := latin1) KB)) with v;
  let q := eval vm_compute in (knowledge_questions KB) in
  change (knowledge_questions KB) with q.

Lemma handle_zeros_pos_eq (n : R) : (0 < n)%R -> Sklearn.handle_zeros n = n.
Proof. intros P. unfold Sklearn.handle_zeros. destruct (Req_dec_T n 0); lra. Qed.

Section NameQuestion.

Local Open Scope R_scope.
Import Sklearn.

#[local] Existing Instance latin1.

(** The idf of a term of the eight questions. *)
Lemma idf_ADVANCED_KNOWLEDGE (t : str) :
  idf_ (vectorizer ADVANCED_KNOWLEDGE) t
  = ln (9 / (1 + INR (df (knowledge_questions ADVANCED_KNOWLEDGE) t))) + 1.
Proof.
  unfold vectorizer, fit. cbn [idf_].
  change (List.length (knowledge_questions ADVANCED_KNOWLEDGE)) with 8%nat.
  cbn [INR]. do 3 f_equal. lra.
Qed.

Lemma idf_name : idf_ (vectorizer ADVANCED_KNOWLEDGE) "name" = ln (9 / 2) + 1.
Proof. rewrite idf_ADVANCED_KNOWLEDGE. eval_terms. cbn [INR]. do 2 f_equal; lra. Qed.

Lemma idf_your : idf_ (vectorizer ADVANCED_KNOWLEDGE) "your" = ln (9 / 2) + 1.
Proof. rewrite idf_ADVANCED_KNOWLEDGE. eval_terms. cbn [INR]. do 2 f_equal; lra. Qed.

Lemma idf_what : idf_ (vectorizer ADVANCED_KNOWLEDGE) "what" = ln (9 / 4) + 1.
Proof. rewrite idf_ADVANCED_KNOWLEDGE. eval_terms. cbn [INR]. do 2 f_equal; lra. Qed.

Lemma idf_is : idf_ (vectorizer ADVANCED_KNOWLEDGE) "is" = ln (9 / 5) + 1.
Proof. rewrite idf_ADVANCED_KNOWLEDGE. eval_terms. cbn [INR]. do 2 f_equal; lra. Qed.

(** The cosine of the angle between the query vector (the term [name]
    alone) and the vector of the question (four terms). *)
Lemma name_against_four_terms (n y w i : R) :
  n = ln (9 / 2) + 1 -> y = ln (9 / 2) + 1 -> w = ln (9 / 4) + 1 -> i = ln (9 / 5) + 1 ->
  n * n / (handle_zeros (sqrt (n * n))
           * handle_zeros (sqrt (y * y + n * n + w * w + i * i))) <= 599 / 1000.
Proof.
  intros En Ey Ew Ei.
  pose proof ln_9_2_upper. pose proof ln_9_2_pos.
  pose proof ln_9_4_lower. pose proof ln_9_5_lower.
  assert (Pn : 0 < n) by lra.
  rewrite sqrt_square by lra. rewrite (handle_zeros_pos_eq n Pn).
  assert (Bn : n * n <= 255 / 100 * (255 / 100)) by nra.
  assert (Bw : 175 / 100 * (175 / 100) <= w * w) by nra.
  assert (Bi : 15 / 10 * (15 / 10) <= i * i) by nra.
  assert (Q : 1000 / 599 * n <= sqrt (y * y + n * n + w * w + i * i)).
  { rewrite <- (sqrt_square (1000 / 599 * n)) by lra. apply sqrt_le_1_alt.
    subst y. rewrite <- En. nra. }
  rewrite handle_zeros_pos_eq by lra.
  apply div_le; [nra|]. nra.
Qed.

(** The query [name] against the eight questions, in exact arithmetic:
    no similarity exceeds 0.599. *)
Lemma name_row_bound :
  Forall (fun x => x <= 599 / 1000)
         (exact_row (knowledge_questions ADVANCED_KNOWLEDGE) "name").
Proof.
  rewrite exact_row_eq. fold (vectorizer ADVANCED_KNOWLEDGE). unfold weigh.
  eval_corpus ADVANCED_KNOWLEDGE. cbn [map]. eval_terms.
  cbn [INR]. unfold norm. cbn [dot].
  repeat apply Forall_cons; try apply Forall_nil;
    try (match goal with |- ?a / ?b <= _ => replace a with 0 by ring end;
         rewrite Rdiv_0_l; lra).
  set (n := idf_ (vectorizer ADVANCED_KNOWLEDGE) "name").
  set (y := idf_ (vectorizer ADVANCED_KNOWLEDGE) "your").
  set (w := idf_ (vectorizer ADVANCED_KNOWLEDGE) "what").
  set (i := idf_ (vectorizer ADVANCED_KNOWLEDGE) "is").
  match goal with
  | |- ?a / (handle_zeros (sqrt ?u) * handle_zeros (sqrt ?v)) <= _ =>
      replace a with (n * n) by ring;
      replace u with (n * n) by ring;
      replace v with (y * y + n * n + w * w + i * i) by ring
  end.
  apply name_against_four_terms; [apply idf_name | apply idf_your | apply idf_what | apply idf_is].
Qed.

End NameQuestion.

Section ExactQuestion.

Local Open Scope R_scope.
Import Sklearn.

Context {unicode : Py.Unicode} {nltk : Nltk} {float64 : Float64}.

Lemma preprocess_name_question :
  nltk_on_name_question -> preprocess "what is your name" = "name"%str.
Proof.
  intros (T & A & B & C & D & L). unfold preprocess.
  rewrite lower_ascii by reflexivity.
  change (ascii_lowercase "what is your name") with "what is your name"%str.
  rewrite T. cbn [filter].
  rewrite !isalpha_ascii by reflexivity.
  change (Py.truthy "what" && all_chars Py.ascii_isalpha "what") with true.
  change (Py.truthy "is" && all_chars Py.ascii_isalpha "is") with true.
  change (Py.truthy "your" && all_chars Py.ascii_isalpha "your") with true.
  change (Py.truthy "name" && all_chars Py.ascii_isalpha "name") with true.
  rewrite A, B, C, D. cbn [andb negb map]. rewrite L. reflexivity.
Qed.

Lemma THRESHOLD_margin : 599 / 1000 + ROUNDING <= THRESHOLD.
Proof. unfold ROUNDING, THRESHOLD. lra. Qed.

Lemma THRESHOLD_below : THRESHOLD < 6 / 10.
Proof. unfold THRESHOLD. lra. Qed.

(** [THRESHOLD] is the float64 of the literal: of all the numbers
    k / 2^53, the float64 numbers between 1/2 and 1, none is nearer to six
    tenths. *)
Lemma THRESHOLD_nearest (k : Z) :
  Rabs (THRESHOLD - 6 / 10) <= Rabs (IZR k / 9007199254740992 - 6 / 10).
Proof.
  unfold THRESHOLD.
  destruct (Z_le_gt_dec k 5404319552844595) as [L|G].
  - apply IZR_le in L. unfold Rabs.
    destruct (Rcase_abs _), (Rcase_abs _); lra.
  - assert (L : (5404319552844596 <= k)%Z) by lia. apply IZR_le in L. unfold Rabs.
    destruct (Rcase_abs _), (Rcase_abs _); lra.
Qed.

End ExactQuestion.

(** C3, evaluated where it fails: the vectorizer is fitted on the raw
    questions, the query goes through [preprocess].  For the exact
    question ["what is your name"] the query keeps the term [name] only,
    the entry's own vector has four terms, their similarity is at most
    0.6 (so not 1), no other entry does better, and the matcher returns
    no match. *)
Theorem exact_question_not_matched {unicode : Py.Unicode} {nltk : Nltk}
        {float64 : Sklearn.Float64} (e : Env) (s : State) :
  Sklearn.accurate float64 ->
  nltk_on_name_question ->
  nth_error (knowledge_questions ADVANCED_KNOWLEDGE) 2 = Some "what is your name"%str
  /\ (nth 2 (similarities_of ADVANCED_KNOWLEDGE "what is your name") 0 <= 6 / 10)%R
  /\ custom_semantic_match ADVANCED_KNOWLEDGE "what is your name" e s = (Ok None, s).
Proof.
  intros A N.
  assert (F : Forall (fun x => (x <= THRESHOLD)%R)
                     (similarities_of ADVANCED_KNOWLEDGE "what is your name")).
  { pose proof (accurate_similarities ADVANCED_KNOWLEDGE "what is your name" A) as B.
    rewrite (preprocess_name_question N) in B.
    rewrite (exact_row_ascii (knowledge_questions ADVANCED_KNOWLEDGE) "name"
               eq_refl eq_refl) in B.
    pose proof (Forall2_bound _ _ _ B name_row_bound) as G.
    eapply Forall_impl; [|exact G]. cbn. intros x Hx.
    pose proof THRESHOLD_margin. lra. }
  split; [reflexivity|]. split.
  - rewrite Forall_forall in F. pose proof THRESHOLD_below as TB.
    enough ((nth 2 (similarities_of ADVANCED_KNOWLEDGE "what is your name") 0
             <= THRESHOLD)%R) by lra.
    apply F. apply nth_In. rewrite similarities_length. cbn. lia.
  - apply below_threshold_no_match; [discriminate | exact F].
Qed.

Lemma plain_nltk_on_name_question : nltk_on_name_question (H := plain_nltk).
Proof. repeat split. Defined.

Lemma exact_question_not_matched_witness :
  nth_error (knowledge_questions ADVANCED_KNOWLEDGE) 2 = Some "what is your name"
  /\ (nth 2 (similarities_of (unicode := latin1) (nltk := plain_nltk)
               (float64 := Sklearn.exact (unicode := latin1))
               ADVANCED_KNOWLEDGE "what is your name") 0
      <= 6 / 10)%R
  /\ custom_semantic_match (unicode := latin1) (nltk := plain_nltk)
       (float64 := Sklearn.exact (unicode := latin1))
       ADVANCED_KNOWLEDGE "what is your name"
       (serving (page_of 10) as_is) (boot 0) = (Ok None, boot 0).
Proof.
  exact (exact_question_not_matched (unicode := latin1) (nltk := plain_nltk)
           (float64 := Sklearn.exact (unicode := latin1))
           (serving (page_of 10) as_is) (boot 0)
           (exact_accurate (unicode := latin1)) plain_nltk_on_name_question).
Defined.

(** ** What does work: the matcher path never raises, and an untouched
    question matches itself *)

Section Sanity.

Local Open Scope R_scope.
Import Sklearn.

Lemma df_le_length {unicode : Py.Unicode} (corpus : list str) (t : str) :
  (df corpus t <= List.length corpus)%nat.
Proof. unfold df. apply filter_length_le. Qed.

(** The smoothed idf is at least 1. *)
Lemma idf_ge_1 {unicode : Py.Unicode} (corpus : list str) (t : str) :
  1 <= idf_ (fit corpus) t.
Proof.
  unfold fit. cbn [idf_].
  pose proof (le_INR _ _ (df_le_length corpus t)) as L.
  pose proof (pos_INR (df corpus t)) as P.
  enough (0 <= ln ((1 + INR (List.length corpus)) / (1 + INR (df corpus t)))) by lra.
  rewrite <- ln_1.
  destruct (Req_dec_T (INR (df corpus t)) (INR (List.length corpus))) as [E|NE].
  - rewrite E. replace ((1 + INR (List.length corpus)) / (1 + INR (List.length corpus)))
      with 1 by (field; lra). lra.
  - left. apply ln_increasing; [lra|].
    apply (Rmult_lt_reg_r (1 + INR (df corpus t))); [lra|].
    unfold Rdiv. rewrite Rmult_assoc, Rinv_l by lra. lra.
Qed.

#[local] Existing Instance latin1.
#[local] Existing Instance plain_nltk.
#[local] Existing Instance Sklearn.exact.

(** The question ["hello"] survives [preprocess] untouched and is
    matched: in exact arithmetic its similarity is 1 to its own entry and
    0 to the others. *)
Lemma hello_similarities :
  similarities_of ADVANCED_KNOWLEDGE "hello" = [1; 0; 0; 0; 0; 0; 0; 0].
Proof.
  unfold similarities_of. cbn [cosine_row exact].
  change (preprocess "hello") with "hello"%str.
  rewrite exact_row_eq. fold (vectorizer ADVANCED_KNOWLEDGE).
  unfold weigh. eval_corpus ADVANCED_KNOWLEDGE. cbn [map]. eval_terms.
  cbn [INR]. unfold norm. cbn [dot].
  pose proof (idf_ge_1 (knowledge_questions ADVANCED_KNOWLEDGE) "hello") as P.
  fold (vectorizer ADVANCED_KNOWLEDGE) in P.
  set (h := idf_ (vectorizer ADVANCED_KNOWLEDGE) "hello") in *.
  repeat (f_equal;
          try (match goal with |- ?a / ?b = 0 => replace a with 0 by ring end;
               apply Rdiv_0_l)).
  match goal with
  | |- ?a / (handle_zeros (sqrt ?u) * handle_zeros (sqrt ?v)) = _ =>
      replace a with (h * h) by ring;
      replace u with (h * h) by ring;
      replace v with (h * h) by ring
  end.
  rewrite sqrt_square by lra. rewrite handle_zeros_pos_eq by lra. field. lra.
Qed.

Lemma hello_is_matched (e : Env) (s : State) :
  custom_semantic_match ADVANCED_KNOWLEDGE "hello" e s
  = (Ok (Some "Hello there! How can I help you today?"%str), s).
Proof.
  unfold custom_semantic_match. rewrite hello_similarities.
  cbn [argmax argmax_from].
  repeat (destruct (Rlt_dec 1 0) as [A|_]; [lra|]).
  cbn [nth]. unfold THRESHOLD. destruct (Rlt_dec _ 1) as [_|B]; [|lra].
  reflexivity.
Qed.

End Sanity.

Lemma matcher_never_raises {unicode : Py.Unicode} {nltk : Nltk}
      {float64 : Sklearn.Float64} (user_input : str) (e : Env) (s : State) :
  is_ok (fst (custom_semantic_match ADVANCED_KNOWLEDGE user_input e s)) = true.
Proof.
  unfold custom_semantic_match.
  destruct (argmax_spec (similarities_of ADVANCED_KNOWLEDGE user_input))
    as (i & A & Li & _).
  { apply similarities_not_nil. discriminate. }
  rewrite A. cbv zeta. destruct (Rlt_dec _ _); [|reflexivity].
  rewrite similarities_length in Li.
  destruct (nth_error ADVANCED_KNOWLEDGE i) as [item|] eqn:N.
  - apply nth_error_In in N. cbn in N.
    repeat (destruct N as [<-|N]; [reflexivity|]). contradiction.
  - apply nth_error_None in N. lia.
Qed.

(** Off the scrape command the router always answers. *)
Lemma chat_always_answers {unicode : Py.Unicode} {nltk : Nltk}
      {float64 : Sklearn.Float64} (user_input : str) (e : Env) (s : State) :
  is_scrape_command user_input = false ->
  is_ok (fst (generate_response ADVANCED_KNOWLEDGE user_input e s)) = true.
Proof.
  intros C. unfold is_scrape_command in C. unfold generate_response.
  rewrite C. unfold bind.
  pose proof (matcher_never_raises user_input e s) as K.
  destruct (custom_semantic_match ADVANCED_KNOWLEDGE user_input e s) as [[m|x] s'];
    cbn [fst is_ok] in K; [|discriminate].
  destruct m as [[|c a]|]; try reflexivity;
    destruct (sent_tokenize user_input); reflexivity.
Qed.

(* ================================================================= *)
(** * Further properties of the matching engine *)

Section ArgmaxFirst.

Local Open Scope R_scope.
Import Sklearn.

Lemma argmax_from_first (l pre : list R) (b : nat) (bv : R) :
  (b < List.length pre)%nat -> nth b pre 0 = bv ->
  Forall (fun x => x <= bv) pre ->
  (forall j, (j < b)%nat -> nth j pre 0 < bv) ->
  forall j, (j < argmax_from b bv (List.length pre) l)%nat ->
            nth j (pre ++ l) 0
            < nth (argmax_from b bv (List.length pre) l) (pre ++ l) 0.
Proof.
  revert pre b bv. induction l as [|x l IH]; intros pre b bv Hb Hv Hmax Hfirst;
    cbn [argmax_from].
  - rewrite app_nil_r, Hv. exact Hfirst.
  - assert (E : pre ++ x :: l = (pre ++ [x]) ++ l) by (rewrite <- app_assoc; reflexivity).
    assert (L : S (List.length pre) = List.length (pre ++ [x]))
      by (rewrite length_app; cbn; lia).
    destruct (Rlt_dec bv x) as [Lt|Ge]; rewrite E, L.
    + apply IH.
      * rewrite <- L. lia.
      * rewrite app_nth2 by lia. rewrite Nat.sub_diag. reflexivity.
      * apply Forall_app. split.
        -- eapply Forall_impl; [|exact Hmax]. cbn. intros; lra.
        -- constructor; [lra|constructor].
      * intros j Hj. rewrite app_nth1 by exact Hj.
        rewrite Forall_forall in Hmax.
        specialize (Hmax _ (nth_In pre 0 Hj)). lra.
    + apply IH.
      * rewrite <- L. lia.
      * rewrite app_nth1 by exact Hb. exact Hv.
      * apply Forall_app. split; [exact Hmax|]. constructor; [lra|constructor].
      * intros j Hj. rewrite app_nth1 by lia. apply Hfirst. exact Hj.
Qed.

Lemma argmax_first (l : list R) (i : nat) :
  argmax l = Some i -> forall j, (j < i)%nat -> nth j l 0 < nth i l 0.
Proof.
  destruct l as [|x l]; [discriminate|]. cbn [argmax]. intros [= <-].
  apply (argmax_from_first l [x] 0%nat x); cbn; [lia | reflexivity | |].
  - constructor; [lra|constructor].
  - intros j Hj. lia.
Qed.

End ArgmaxFirst.

(** With a similarity of 0.600001 at the entry ["what time is it"] and
    zero elsewhere, the matcher answers with the time. *)
Lemma argmax_time_row (x : R) :
  (0 < x)%R -> Sklearn.argmax [0; 0; 0; 0; x; 0; 0; 0]%R = Some 4.
Proof.
  intros P. cbn [Sklearn.argmax Sklearn.argmax_from].
  destruct (Rlt_dec 0 0) as [?|_]; [lra|].
  destruct (Rlt_dec 0 x) as [_|?]; [|lra].
  destruct (Rlt_dec x 0) as [?|_]; [lra|]. reflexivity.
Qed.

Lemma time_question_answered {unicode : Py.Unicode} {nltk : Nltk} (e : Env) (s : State) :
  custom_semantic_match (float64 := Sklearn.fixed (time_row (600001 / 1000000)))
    ADVANCED_KNOWLEDGE "what time is it" e s
  = (Ok (Some ("The current time is " ++ strftime e "%H:%M:%S" ++ ".")%str), s).
Proof.
  unfold custom_semantic_match. rewrite time_row_similarities.
  rewrite argmax_time_row by lra. cbn [nth]. pose proof above_THRESHOLD.
  destruct (Rlt_dec THRESHOLD (600001 / 1000000)) as [_|B]; [|lra].
  reflexivity.
Qed.

(** X3. The verdict of the matcher is sound both ways, on the float64
    similarities the library returned and the float64 the literal [0.6]
    denotes, 5404319552844595 / 2^53.  When it answers, the answer is that of an entry whose
    similarity exceeds 0.6, is the greatest of all, and is strictly
    greater than that of every earlier entry (of equally similar entries
    the first wins): the text of a static entry with the state untouched,
    or what the generator of a dynamic entry computes now.  When it
    returns no match, no similarity exceeds 0.6 and the state is
    untouched. *)
Theorem matcher_verdict {unicode : Py.Unicode} {nltk : Nltk}
        {float64 : Sklearn.Float64} (KB : list KnowledgeEntry)
        (user_input : str) (e : Env) (s s' : State) (r : option str) :
  imported KB ->
  custom_semantic_match KB user_input e s = (Ok r, s') ->
  match r with
  | Some a =>
      exists i item,
        nth_error KB i = Some item
        /\ match answer item with
           | StaticText t => a = t /\ s' = s
           | DynamicGenerator g => g e s = (Ok a, s')
           end
        /\ (5404319552844595 / 9007199254740992
            < nth i (similarities_of KB user_input) 0)%R
        /\ Forall (fun x => (x <= nth i (similarities_of KB user_input) 0)%R)
                  (similarities_of KB user_input)
        /\ (forall j, j < i ->
              (nth j (similarities_of KB user_input) 0
               < nth i (similarities_of KB user_input) 0)%R)
  | None =>
      s' = s
      /\ Forall (fun x => (x <= 5404319552844595 / 9007199254740992)%R)
                (similarities_of KB user_input)
  end.
Proof.
  intros _. fold THRESHOLD. unfold custom_semantic_match.
  destruct (Sklearn.argmax (similarities_of KB user_input)) as [i|] eqn:A;
    [|discriminate].
  cbv zeta. destruct (argmax_is_max _ _ A) as [Li [_ Mx]].
  pose proof (argmax_first _ _ A) as Fst.
  destruct (Rlt_dec _ _) as [Gt|Le].
  - destruct (nth_error KB i) as [item|] eqn:N; [|discriminate].
    unfold bind, resolve, ret. intros R. destruct r as [a|].
    + exists i, item. split; [exact N|]. split; [|repeat split; assumption].
      destruct (answer item) as [t|g].
      * injection R as -> ->. split; reflexivity.
      * destruct (g e s) as [[t|x] s1]; [|discriminate].
        injection R as -> ->. reflexivity.
    + destruct (answer item) as [t|g]; [discriminate|].
      destruct (g e s) as [[t|x] s1]; discriminate.
  - intros [= <- <-]. split; [reflexivity|].
    eapply Forall_impl; [|exact Mx]. cbn. intros x Hx. lra.
Qed.

Lemma matcher_verdict_witness :
  exists i item,
    nth_error ADVANCED_KNOWLEDGE i = Some item
    /\ match answer item with
       | StaticText t => "The current time is %H:%M:%S."%str = t /\ boot 0 = boot 0
       | DynamicGenerator g =>
           g (serving (page_of 10) as_is) (boot 0)
           = (Ok "The current time is %H:%M:%S."%str, boot 0)
       end
    /\ (5404319552844595 / 9007199254740992
        < nth i (similarities_of (unicode := latin1) (nltk := plain_nltk)
                   (float64 := Sklearn.fixed (time_row (600001 / 1000000)))
                   ADVANCED_KNOWLEDGE "what time is it") 0)%R
    /\ Forall (fun x =>
                 (x <= nth i (similarities_of (unicode := latin1) (nltk := plain_nltk)
                                (float64 := Sklearn.fixed (time_row (600001 / 1000000)))
                                ADVANCED_KNOWLEDGE "what time is it") 0)%R)
              (similarities_of (unicode := latin1) (nltk := plain_nltk)
                 (float64 := Sklearn.fixed (time_row (600001 / 1000000)))
                 ADVANCED_KNOWLEDGE "what time is it")
    /\ (forall j, j < i ->
          (nth j (similarities_of (unicode := latin1) (nltk := plain_nltk)
                    (float64 := Sklearn.fixed (time_row (600001 / 1000000)))
                    ADVANCED_KNOWLEDGE "what time is it") 0
           < nth i (similarities_of (unicode := latin1) (nltk := plain_nltk)
                      (float64 := Sklearn.fixed (time_row (600001 / 1000000)))
                      ADVANCED_KNOWLEDGE "what time is it") 0)%R).
Proof.
  exact (matcher_verdict (unicode := latin1) (nltk := plain_nltk)
           (float64 := Sklearn.fixed (time_row (600001 / 1000000)))
           ADVANCED_KNOWLEDGE "what time is it"
           (serving (page_of 10) as_is) (boot 0) (boot 0)
           (Some "The current time is %H:%M:%S."%str)
           imported_ADVANCED_KNOWLEDGE
           (time_question_answered _ _)).
Defined.

Section Untouched.

Local Open Scope R_scope.
Import Sklearn.

Context {unicode : Py.Unicode}.

Lemma dot_self_ge (x : R) (u : list R) : In x u -> x * x <= dot u u.
Proof.
  induction u as [|y u IH]; cbn [In dot]; [tauto|].
  pose proof (dot_self_nonneg u) as P. intros [->|I]; [nra|].
  specialize (IH I). nra.
Qed.

Lemma vocabulary_In (corpus : list str) (q t : str) :
  In q corpus -> In t (analyzer q) -> In t (vocabulary_ (fit corpus)).
Proof.
  intros Q T. unfold fit. cbn [vocabulary_]. apply nodup_In.
  apply in_flat_map. exists q. split; assumption.
Qed.

(** A document with a term of the vocabulary has a vector of positive
    norm. *)
Lemma norm_weigh_pos (corpus : list str) (doc t : str) :
  In t (vocabulary_ (fit corpus)) -> In t (analyzer doc) ->
  0 < norm (weigh (fit corpus) doc).
Proof.
  intros V T.
  assert (E : In (INR (count t (analyzer doc)) * idf_ (fit corpus) t)
                 (weigh (fit corpus) doc)).
  { unfold weigh. apply in_map_iff. exists t. split; [reflexivity | exact V]. }
  apply dot_self_ge in E.
  pose proof (idf_ge_1 corpus t) as I.
  assert (C : 1 <= INR (count t (analyzer doc))).
  { change 1 with (INR 1). apply le_INR. unfold count.
    apply (count_occ_In str_eq_dec) in T. lia. }
  assert (1 <= INR (count t (analyzer doc)) * idf_ (fit corpus) t) by nra.
  unfold norm. apply sqrt_lt_R0. nra.
Qed.

(** The exact similarities depend on a text through its terms only. *)
Lemma exact_row_same_terms (corpus : list str) (doc doc' : str) :
  analyzer doc = analyzer doc' -> exact_row corpus doc = exact_row corpus doc'.
Proof.
  intros E. unfold exact_row, transform, weigh. rewrite E. reflexivity.
Qed.

(** In exact arithmetic a document of the corpus that has a term has
    similarity 1 with itself. *)
Lemma exact_self_similarity (corpus : list str) (i : nat) (doc : str) :
  nth_error corpus i = Some doc -> analyzer doc <> [] ->
  nth i (exact_row corpus doc) 0 = 1.
Proof.
  intros N NE. rewrite exact_row_eq.
  rewrite (nth_error_nth _ _ 0 (map_nth_error _ _ _ N)).
  destruct (analyzer doc) as [|t ts] eqn:T; [congruence|].
  assert (P : 0 < norm (weigh (fit corpus) doc)).
  { apply (norm_weigh_pos _ _ t).
    - apply (vocabulary_In _ doc); [eapply nth_error_In; exact N|].
      rewrite T. left. reflexivity.
    - rewrite T. left. reflexivity. }
  rewrite handle_zeros_pos_eq by exact P.
  unfold norm in *. rewrite sqrt_sqrt by apply dot_self_nonneg.
  field. intros Z. rewrite Z, sqrt_0 in P. lra.
Qed.

End Untouched.

Lemma Forall2_nth_bound (l l' : list R) (i : nat) :
  Forall2 (fun x y => (Rabs (x - y) <= Sklearn.ROUNDING)%R /\ (y = 0%R -> x = 0%R)) l l' ->
  i < List.length l ->
  (Rabs (nth i l 0 - nth i l' 0) <= Sklearn.ROUNDING)%R.
Proof.
  intros F. revert i. induction F as [|x y l l' [B _] _ IH]; intros i L; cbn in L; [lia|].
  destruct i as [|i]; cbn [nth]; [exact B | apply IH; lia].
Qed.

(** X4. A question of the knowledge base that [preprocess] leaves with
    the terms the vectorizer sees in it (at least one) is always answered
    when it is submitted, given that the library is accurate: its exact
    similarity with its own entry is 1, so the similarity returned for its
    entry is far above 0.6, and the answer is that of the entry at the
    arg-max, its own or one whose question has an exact similarity of at
    least 1 - 2 * 10^-9 with it. *)
Theorem untouched_question_matches {unicode : Py.Unicode} {nltk : Nltk}
        {float64 : Sklearn.Float64} (KB : list KnowledgeEntry)
        (i : nat) (item : KnowledgeEntry) (e : Env) (s : State) :
  Sklearn.accurate float64 ->
  nth_error KB i = Some item ->
  Sklearn.analyzer (preprocess (question item)) = Sklearn.analyzer (question item) ->
  Sklearn.analyzer (question item) <> [] ->
  nth i (Sklearn.exact_row (knowledge_questions KB) (question item)) 0%R = 1%R
  /\ exists j item',
       nth_error KB j = Some item'
       /\ (1 - 2 * Sklearn.ROUNDING
           <= nth j (Sklearn.exact_row (knowledge_questions KB) (question item)) 0)%R
       /\ custom_semantic_match KB (question item) e s
          = match answer item' with
            | StaticText t => (Ok (Some t), s)
            | DynamicGenerator g =>
                match g e s with
                | (Ok t, s') => (Ok (Some t), s')
                | (Raise x, s') => (Raise x, s')
                end
            end.
Proof.
  intros A N Same NE.
  assert (One : nth i (Sklearn.exact_row (knowledge_questions KB) (question item)) 0%R
                = 1%R).
  { apply exact_self_similarity; [|exact NE].
    unfold knowledge_questions. apply map_nth_error. exact N. }
  split; [exact One|].
  pose proof (accurate_similarities KB (question item) A) as B.
  rewrite (exact_row_same_terms _ _ _ Same) in B.
  assert (Li : i < List.length (similarities_of KB (question item))).
  { rewrite similarities_length. apply nth_error_Some. congruence. }
  pose proof (Forall2_nth_bound _ _ i B Li) as Bi. rewrite One in Bi.
  assert (NEs : similarities_of KB (question item) <> []).
  { intros Z. rewrite Z in Li. cbn in Li. lia. }
  destruct (argmax_spec _ NEs) as (j & Aj & Lj & Mj).
  pose proof (Forall2_nth_bound _ _ j B Lj) as Bj.
  rewrite Forall_forall in Mj. specialize (Mj _ (nth_In _ 0%R Li)).
  unfold Rabs in Bi, Bj.
  destruct (Rcase_abs _) in Bi; destruct (Rcase_abs _) in Bj;
    (rewrite similarities_length in Lj;
     destruct (nth_error KB j) as [item'|] eqn:Nj; [|apply nth_error_None in Nj; lia];
     exists j, item'; split; [exact Nj|]; split; [unfold Sklearn.ROUNDING in *; lra|];
     unfold custom_semantic_match; rewrite Aj; cbv zeta;
     destruct (Rlt_dec _ _) as [_|Ge];
     [ rewrite Nj; unfold bind, resolve, ret;
       destruct (answer item') as [t|g]; [reflexivity|];
       destruct (g e s) as [[t|x] s']; reflexivity
     | exfalso; apply Ge; unfold THRESHOLD, Sklearn.ROUNDING in *; lra ]).
Qed.

Lemma untouched_question_matches_witness :
  nth 0 (Sklearn.exact_row (unicode := latin1) (knowledge_questions ADVANCED_KNOWLEDGE)
           "hello") 0%R = 1%R
  /\ exists j item',
       nth_error ADVANCED_KNOWLEDGE j = Some item'
       /\ (1 - 2 * Sklearn.ROUNDING
           <= nth j (Sklearn.exact_row (unicode := latin1)
                       (knowledge_questions ADVANCED_KNOWLEDGE) "hello") 0)%R
       /\ custom_semantic_match (unicode := latin1) (nltk := plain_nltk)
            (float64 := Sklearn.exact (unicode := latin1)) ADVANCED_KNOWLEDGE "hello"
            (serving (page_of 10) as_is) (boot 0)
          = match answer item' with
            | StaticText t => (Ok (Some t), boot 0)
            | DynamicGenerator g =>
                match g (serving (page_of 10) as_is) (boot 0) with
                | (Ok t, s') => (Ok (Some t), s')
                | (Raise x, s') => (Raise x, s')
                end
            end.
Proof.
  apply (untouched_question_matches (unicode := latin1) (nltk := plain_nltk)
           (float64 := Sklearn.exact (unicode := latin1)) ADVANCED_KNOWLEDGE 0
           (mkEntry "hello" (StaticText "Hello there! How can I help you today?"))
           (serving (page_of 10) as_is) (boot 0)).
  - apply exact_accurate.
  - reflexivity.
  - vm_compute. reflexivity.
  - vm_compute. discriminate.
Defined.

(** X5. A query all of whose tokens are stop words or are not purely
    alphabetic (numbers, punctuation) normalizes to the empty string and
    is not matched, on every knowledge base the module can be imported
    with, given that the library is accurate. *)
Theorem stop_words_only_no_match {unicode : Py.Unicode} {nltk : Nltk}
        {float64 : Sklearn.Float64} (KB : list KnowledgeEntry)
        (user_input : str) (e : Env) (s : State) :
  Sklearn.accurate float64 ->
  imported KB ->
  Forall (fun token => Py.isalpha token = false \/ stop_words token = true)
         (word_tokenize (Py.lower user_input)) ->
  preprocess user_input = ""
  /\ custom_semantic_match KB user_input e s = (Ok None, s).
Proof.
  intros A I F.
  assert (NE : KB <> []).
  { intros ->. discriminate I. }
  assert (P : preprocess user_input = "").
  { unfold preprocess.
    replace (filter _ (word_tokenize (Py.lower user_input))) with (@nil str);
      [reflexivity|].
    symmetry. induction F as [|tok toks [B|S] _ IH]; cbn [filter]; [reflexivity| |].
    - rewrite B. exact IH.
    - rewrite S, andb_false_r. exact IH. }
  split; [exact P|].
  apply unshared_no_match; [exact A | exact NE |]. rewrite P. intros t _ [].
Qed.

Section EngineWitnesses.

#[local] Existing Instance latin1.
#[local] Existing Instance plain_nltk.
#[local] Existing Instance Sklearn.exact.

Lemma stop_words_only_no_match_witness :
  preprocess "Who am I, and what is 42?" = ""
  /\ custom_semantic_match ADVANCED_KNOWLEDGE
       "Who am I, and what is 42?" (serving (page_of 10) as_is) (boot 0)
     = (Ok None, boot 0).
Proof.
  apply (stop_words_only_no_match ADVANCED_KNOWLEDGE
           "Who am I, and what is 42?" (serving (page_of 10) as_is) (boot 0));
    [apply exact_accurate | apply imported_ADVANCED_KNOWLEDGE |].
  match goal with
  | |- Forall ?P ?l => let v := eval vm_compute in l in change (Forall P v)
  end.
  repeat (apply Forall_cons;
          [first [left; vm_compute; reflexivity | right; vm_compute; reflexivity]|]).
  apply Forall_nil.
Defined.

End EngineWitnesses.

(** X6. An input that is no scrape command and whose normalized form has
    no term of the vocabulary gets the fallback: the echo of its first
    sentence, or the fixed message when it has no sentence; the state is
    untouched. *)
Theorem unmatched_input_is_echoed {unicode : Py.Unicode} {nltk : Nltk}
        {float64 : Sklearn.Float64} (KB : list KnowledgeEntry)
        (user_input : str) (e : Env) (s : State) :
  Sklearn.accurate float64 ->
  KB <> [] ->
  is_scrape_command user_input = false ->
  (forall t, In t (Sklearn.vocabulary_ (vectorizer KB)) ->
             ~ In t (Sklearn.analyzer (preprocess user_input))) ->
  generate_response KB user_input e s
  = (Ok match sent_tokenize user_input with
        | first :: _ =>
            Py.append "I'm not sure how to respond to that. You said: "
              (Py.append dquote (Py.append first dquote))
        | [] => "I'm not sure how to respond to that."
        end, s).
Proof.
  intros A NE C D. unfold is_scrape_command in C. unfold generate_response.
  rewrite C. unfold bind. rewrite (unshared_no_match KB user_input e s A NE D).
  destruct (sent_tokenize user_input); reflexivity.
Qed.

(** The empty message, on the reference deployment, gets the fixed
    fallback. *)
Lemma empty_message_fallback (e : Env) (s : State) :
  generate_response (unicode := latin1) (nltk := plain_nltk)
    (float64 := Sklearn.exact (unicode := latin1)) ADVANCED_KNOWLEDGE "" e s
  = (Ok "I'm not sure how to respond to that.", s).
Proof.
  unfold generate_response.
  change (Py.startswith (Py.lower (unicode := latin1) "") "scrape ") with false.
  cbv iota. unfold bind.
  rewrite (unshared_no_match (unicode := latin1) (nltk := plain_nltk)
             (float64 := Sklearn.exact (unicode := latin1)) ADVANCED_KNOWLEDGE "" e s);
    [reflexivity | apply exact_accurate | discriminate |].
  intros t _ Q. vm_compute in Q. exact Q.
Qed.

Lemma startswith_truthy (t p : str) :
  Py.startswith t p = true -> Py.truthy p = true -> Py.truthy t = true.
Proof.
  unfold Py.startswith. destruct p as [|c p]; [discriminate|].
  destruct t as [|d t]; [discriminate | reflexivity].
Qed.

(** X7. Whenever [generate_response] returns, the text it returns is not
    empty, for every input, knowledge base, world and state. *)
Theorem response_never_empty {unicode : Py.Unicode} {nltk : Nltk}
        {float64 : Sklearn.Float64} (KB : list KnowledgeEntry)
        (user_input : str) (e : Env) (s s' : State) (r : str) :
  generate_response KB user_input e s = (Ok r, s') -> Py.truthy r = true.
Proof.
  intros G. destruct r as [|c0 r0]; [|reflexivity]. exfalso.
  destruct (is_scrape_command user_input) eqn:C.
  - destruct (Py.truthy (scrape_url user_input)) eqn:U.
    + rewrite (generate_response_scrape KB user_input e s C U) in G. unfold scrape in G.
      destruct (rate_limited_get_url_content _ e s) as [[t|x] s1]; [|discriminate].
      injection G as G _. unfold routed in G.
      destruct (Py.startswith t "Error") eqn:E1; cbn [orb] in G.
      * subst t. discriminate E1.
      * destruct (Py.startswith t "Scraping not permitted") eqn:E2.
        -- subst t. discriminate E2.
        -- discriminate G.
    + rewrite (generate_response_no_url KB user_input e s C U) in G. discriminate G.
  - unfold is_scrape_command in C. unfold generate_response in G.
    rewrite C in G. unfold bind in G.
    destruct (custom_semantic_match KB user_input e s) as [[m|x] s1]; [|discriminate].
    destruct m as [[|c a]|]; try discriminate G;
      destruct (sent_tokenize user_input); discriminate G.
Qed.

Section RouterFallbackWitnesses.

#[local] Existing Instance latin1.
#[local] Existing Instance plain_nltk.
#[local] Existing Instance Sklearn.exact.

Lemma unmatched_input_is_echoed_witness :
  generate_response ADVANCED_KNOWLEDGE "Remind me to buy milk."
    (serving (page_of 10) as_is) (boot 0)
  = (Ok (Py.append "I'm not sure how to respond to that. You said: "
           (Py.append dquote (Py.append "Remind me to buy milk." dquote))),
     boot 0)
  /\ generate_response ADVANCED_KNOWLEDGE ""
       (serving (page_of 10) as_is) (boot 0)
     = (Ok "I'm not sure how to respond to that.", boot 0).
Proof.
  split.
  - refine (unmatched_input_is_echoed ADVANCED_KNOWLEDGE
              "Remind me to buy milk." (serving (page_of 10) as_is) (boot 0) _ _ _ _);
      [apply exact_accurate | discriminate | reflexivity |].
    intros t V Q. vm_compute in Q. vm_compute in V.
    destruct Q as [<-|[<-|[]]];
      repeat (destruct V as [V|V]; [discriminate V|]); exact V.
  - refine (unmatched_input_is_echoed ADVANCED_KNOWLEDGE
              "" (serving (page_of 10) as_is) (boot 0) _ _ _ _);
      [apply exact_accurate | discriminate | reflexivity |].
    intros t _ Q. vm_compute in Q. exact Q.
Defined.

Lemma response_never_empty_witness :
  Py.truthy "Please provide a URL to scrape." = true.
Proof.
  exact (response_never_empty ADVANCED_KNOWLEDGE "scrape "
           (serving (page_of 10) as_is) (boot 0) (boot 0)
           "Please provide a URL to scrape." eq_refl).
Defined.

End RouterFallbackWitnesses.

(* ================================================================= *)
(** * Further properties of the fetch pipeline and the router *)

(** X8. A call the decorator rejects costs nothing: it raises at once,
    without sleeping, without any request to the network and without
    parsing; the clock, the recorded request time and the period are as
    before, and only the attempt counter has moved. *)
Theorem rejected_call_is_free (url : str) (e : Env) (s : State) :
  admits s = false ->
  fst (rate_limited_get_url_content url e s)
  = Raise (RateLimitException "too many calls" ((60 # 1) - (now s - last_reset s))%Q)
  /\ snd (rate_limited_get_url_content url e s)
     = mkState (now s) (last_request_time s) (last_reset s) (S (num_calls s))
               (events s ++ [EvInvoke url]).
Proof.
  intros A. rewrite rate_limited_eq, A. split; [reflexivity|]. cbn [snd].
  unfold admits, enter in *. revert A. run.
  destruct (Qle_bool _ 0); run; [discriminate | reflexivity].
Qed.

Lemma rejected_call_is_free_witness :
  fst (rate_limited_get_url_content "http://example.com"
         (serving (page_of 10) as_is) quota_used_up)
  = Raise (RateLimitException "too many calls"
             ((60 # 1) - (now quota_used_up - last_reset quota_used_up))%Q)
  /\ snd (rate_limited_get_url_content "http://example.com"
            (serving (page_of 10) as_is) quota_used_up)
     = mkState (now quota_used_up) (last_request_time quota_used_up)
               (last_reset quota_used_up) (S (num_calls quota_used_up))
               (events quota_used_up ++ [EvInvoke "http://example.com"]).
Proof.
  exact (rejected_call_is_free "http://example.com" (serving (page_of 10) as_is)
           quota_used_up eq_refl).
Defined.

(** X9. A call is let through exactly when the 60-unit period of the
    decorator has elapsed since its last reset or fewer than ten
    attempts, rejected ones included, were counted in it. *)
Theorem admission_criterion (url : str) (e : Env) (s : State) :
  is_ok (fst (rate_limited_get_url_content url e s)) = true
  <-> ((60 # 1) <= now s - last_reset s)%Q \/ num_calls s < 10.
Proof.
  rewrite rate_limited_eq.
  assert (A : admits s = true <-> ((60 # 1) <= now s - last_reset s)%Q \/ num_calls s < 10).
  { unfold admits, enter. run.
    destruct (Qle_bool ((60 # 1) - (now s - last_reset s)) 0) eqn:R; run.
    - apply Qle_bool_iff in R. split; [intros _; left; Lqa.lra | reflexivity].
    - assert (N : ~ ((60 # 1) - (now s - last_reset s) <= 0)%Q).
      { intros L. apply Qle_bool_iff in L. congruence. }
      rewrite Nat.leb_le. split.
      + intros L. right. lia.
      + intros [L|L]; [exfalso; apply N; Lqa.lra | lia]. }
  destruct (admits s); cbn [fst is_ok]; rewrite <- A; split; congruence.
Qed.

Lemma sleeps_app (l1 l2 : list Event) : sleeps (l1 ++ l2) = sleeps l1 ++ sleeps l2.
Proof. apply flat_map_app. Qed.

(** X10. The politeness delay of a call that is let through: if less than
    one unit has passed since the recorded request time, the call sleeps
    once, for what is missing, a length that is positive and at most 1;
    otherwise it does not sleep. *)
Theorem politeness_delay (url : str) (e : Env) (s : State) :
  (last_request_time s <= now s)%Q ->
  admits s = true ->
  sleeps (events (snd (rate_limited_get_url_content url e s)))
  = sleeps (events s)
    ++ (if Qltb (now s - last_request_time s) 1
        then [(1 - (now s - last_request_time s))%Q] else [])
  /\ (Qltb (now s - last_request_time s) 1 = true ->
      (0 < 1 - (now s - last_request_time s) <= 1)%Q).
Proof.
  intros L A. split.
  - rewrite events_rate_limited, A, !sleeps_app. cbn [sleeps flat_map app].
    assert (P : sleeps (parse_events e url) = []).
    { unfold parse_events. destruct (http e url) as [m|m|r]; try reflexivity.
      destruct (Py.truthy _); [reflexivity|]. destruct (Py.contains _ _); reflexivity. }
    rewrite P, app_nil_r. f_equal.
    unfold sleep_events, enter. run.
    destruct (Qle_bool _ 0); run;
      destruct (Qltb (now s - last_request_time s) 1); reflexivity.
  - intros G. apply Qltb_true in G. split; Lqa.lra.
Qed.

Lemma politeness_delay_witness :
  sleeps (events (snd (rate_limited_get_url_content "http://example.com"
                         (serving (page_of 10) as_is) (boot 0))))
  = sleeps (events (boot 0))
    ++ (if Qltb (now (boot 0) - last_request_time (boot 0)) 1
        then [(1 - (now (boot 0) - last_request_time (boot 0)))%Q] else [])
  /\ (Qltb (now (boot 0) - last_request_time (boot 0)) 1 = true ->
      (0 < 1 - (now (boot 0) - last_request_time (boot 0)) <= 1)%Q).
Proof.
  exact (politeness_delay "http://example.com" (serving (page_of 10) as_is) (boot 0)
           (Qle_refl 0) eq_refl).
Defined.

(** X11. The command word is recognised in any letter case, and the case
    of the URL is kept: for every seven characters [p] that are the
    letters of ["scrape "] in upper or lower case and every [rest], the
    input [p ++ rest] is a scrape command for the URL [rest] trimmed of
    whitespace. *)
Theorem command_word_any_case {unicode : Py.Unicode} (p rest : str) :
  ascii_lowercase p = "scrape " ->
  is_scrape_command (p ++ rest)%str = true
  /\ scrape_url (p ++ rest)%str = Py.strip rest.
Proof.
  intros L. split.
  - apply command_prefix. exact L.
  - unfold scrape_url. f_equal.
    replace 7 with (Py.len p); [apply slice_from_append|].
    rewrite <- len_ascii_lowercase, L. reflexivity.
Qed.

Lemma command_word_any_case_witness :
  is_scrape_command (unicode := latin1)
    ("ScRaPe " ++ String NBSP " HTTP://Example.COM/Path " ++ String NBSP "")%str = true
  /\ scrape_url ("ScRaPe " ++ String NBSP " HTTP://Example.COM/Path " ++ String NBSP "")%str
     = "HTTP://Example.COM/Path".
Proof.
  exact (command_word_any_case (unicode := latin1) "ScRaPe "
           (String NBSP " HTTP://Example.COM/Path " ++ String NBSP "")%str eq_refl).
Defined.

(** X12. An error status ends the fetch: for every response whose status
    is in 400..599, a scrape the limiter admits answers with the text
    ["Error accessing URL: "] followed by the status message, passed
    through verbatim by the router, and the body is never parsed,
    whatever it contains. *)
Theorem error_status_reported {unicode : Py.Unicode} {nltk : Nltk}
        {float64 : Sklearn.Float64} (KB : list KnowledgeEntry)
        (user_input : str) (e : Env) (s : State) (r : Response) :
  is_scrape_command user_input = true ->
  Py.truthy (scrape_url user_input) = true ->
  admits s = true ->
  http e (scrape_url user_input) = Responded r ->
  Py.between 400 599 (status_code r) = true ->
  fst (generate_response KB user_input e s)
  = Ok (Py.append "Error accessing URL: " (http_error_msg r))
  /\ parses (events (snd (generate_response KB user_input e s))) = parses (events s).
Proof.
  intros C U A W St.
  rewrite (generate_response_scrape KB user_input e s C U). unfold scrape.
  pose proof (events_rate_limited (scrape_url user_input) e s) as Ev.
  rewrite rate_limited_eq, A in *. cbn [fst snd] in *.
  assert (F : fetch_text e (scrape_url user_input)
              = Py.append "Error accessing URL: " (http_error_msg r)).
  { unfold fetch_text. rewrite W, truthy_http_error_msg, St. reflexivity. }
  rewrite F. split; [reflexivity|].
  rewrite Ev.
  destruct (sleep_events_quiet (enter (log (EvInvoke (scrape_url user_input)) s)))
    as (_ & _ & P).
  rewrite !parses_app, P. unfold parse_events.
  rewrite W, truthy_http_error_msg, St. cbn. apply app_nil_r.
Qed.

Lemma error_status_reported_witness :
  fst (generate_response (unicode := latin1) (nltk := plain_nltk)
         (float64 := Sklearn.exact (unicode := latin1)) ADVANCED_KNOWLEDGE
         "scrape http://example.com/robots.txt" (serving missing_page as_is) (boot 0))
  = Ok (Py.append "Error accessing URL: " (http_error_msg missing_page))
  /\ parses (events (snd (generate_response (unicode := latin1) (nltk := plain_nltk)
                            (float64 := Sklearn.exact (unicode := latin1))
                            ADVANCED_KNOWLEDGE
                            "scrape http://example.com/robots.txt"
                            (serving missing_page as_is) (boot 0))))
     = parses (events (boot 0)).
Proof.
  apply (error_status_reported (unicode := latin1) (nltk := plain_nltk)
           (float64 := Sklearn.exact (unicode := latin1)) ADVANCED_KNOWLEDGE
           "scrape http://example.com/robots.txt" (serving missing_page as_is)
           (boot 0) missing_page); reflexivity.
Defined.


(* ================================================================= *)
(** * The whitespace reduction of the fetcher (lines 90-92) *)

Lemma snoc_append (cur : str) (c : char) (x : str) :
  (Py.snoc cur c ++ x)%str = (cur ++ String c x)%str.
Proof. unfold Py.snoc. rewrite append_assoc. reflexivity. Qed.

Lemma all_chars_append (p : char -> bool) (a b : str) :
  all_chars p (a ++ b)%str = all_chars p a && all_chars p b.
Proof. induction a as [|c a IH]; cbn; [reflexivity|]. rewrite IH. apply andb_assoc. Qed.

(** *** [strip] *)

Lemma all_chars_lstrip (p : char -> bool) (s : str) :
  all_chars p s = true -> all_chars p (Py.lstrip s) = true.
Proof.
  induction s as [|c s IH]; cbn; [trivial|]. intros A.
  apply andb_true_iff in A as [A1 A2].
  destruct (Py.isspace c); [auto|]. cbn. now rewrite A1, A2.
Qed.

Lemma all_chars_rstrip (p : char -> bool) (s : str) :
  all_chars p s = true -> all_chars p (Py.rstrip s) = true.
Proof.
  induction s as [|c s IH]; cbn; [trivial|]. intros A.
  apply andb_true_iff in A as [A1 A2]. specialize (IH A2).
  destruct (Py.rstrip s) as [|d r].
  - destruct (Py.isspace c); cbn; [reflexivity | now rewrite A1].
  - cbn [all_chars] in *. now rewrite A1, IH.
Qed.

Lemma all_chars_strip (p : char -> bool) (s : str) :
  all_chars p s = true -> all_chars p (Py.strip s) = true.
Proof. intros A. unfold Py.strip. now apply all_chars_rstrip, all_chars_lstrip. Qed.

Lemma rstrip_cons (c : char) (s : str) :
  Py.rstrip (String c s)
  = match Py.rstrip s with
    | EmptyString => if Py.isspace c then EmptyString else String c EmptyString
    | String d r => String c (String d r)
    end.
Proof. reflexivity. Qed.

Lemma rstrip_idempotent (s : str) : Py.rstrip (Py.rstrip s) = Py.rstrip s.
Proof.
  induction s as [|c s IH]; [reflexivity|].
  rewrite rstrip_cons. destruct (Py.rstrip s) as [|d r] eqn:R.
  - destruct (Py.isspace c) eqn:Sp; [reflexivity|].
    rewrite rstrip_cons. cbn [Py.rstrip]. rewrite Sp. reflexivity.
  - rewrite rstrip_cons, IH. reflexivity.
Qed.

(** What is left of [lstrip] does not start with whitespace. *)
Lemma lstrip_head (s : str) (c : char) (r : str) :
  Py.lstrip s = String c r -> Py.isspace c = false.
Proof.
  induction s as [|d s IH]; cbn; [discriminate|].
  destruct (Py.isspace d) eqn:Sp; [exact IH|]. intros [= <- <-]. exact Sp.
Qed.

(** [rstrip] keeps a first character that is no whitespace. *)
Lemma rstrip_head (c : char) (r : str) :
  Py.isspace c = false -> exists r', Py.rstrip (String c r) = String c r'.
Proof.
  intros Sp. cbn. destruct (Py.rstrip r) as [|d r'].
  - rewrite Sp. eauto.
  - eauto.
Qed.

Lemma strip_idempotent (s : str) : Py.strip (Py.strip s) = Py.strip s.
Proof.
  unfold Py.strip. destruct (Py.lstrip s) as [|c r] eqn:L; [reflexivity|].
  pose proof (lstrip_head _ _ _ L) as Sp.
  destruct (rstrip_head c r Sp) as [r' E]. rewrite E.
  cbn [Py.lstrip]. rewrite Sp. rewrite <- E. apply rstrip_idempotent.
Qed.

(** *** [splitlines] *)

Lemma lines_from_no_break (x cur rest : str) :
  no_break x = true ->
  Py.lines_from false cur (x ++ rest)%str = Py.lines_from false (cur ++ x)%str rest.
Proof.
  revert cur. induction x as [|c x IH]; intros cur N.
  - cbn. rewrite append_empty_r. reflexivity.
  - unfold no_break in N. cbn [all_chars] in N.
    apply andb_true_iff in N as [N1 N2]. apply negb_true_iff in N1.
    cbn [Py.append Py.lines_from andb]. rewrite N1.
    rewrite (IH _ N2), snoc_append. reflexivity.
Qed.

Lemma lines_from_all (b : bool) (cur s : str) :
  no_break cur = true -> Forall (fun l => no_break l = true) (Py.lines_from b cur s).
Proof.
  revert b cur. induction s as [|c s IH]; intros b cur N; cbn [Py.lines_from].
  - destruct cur; repeat constructor. exact N.
  - destruct (b && Py.is_lf c); [apply IH; exact N|].
    destruct (Py.is_linebreak c) eqn:B.
    + constructor; [exact N | apply IH; reflexivity].
    + apply IH. unfold no_break, Py.snoc in *. rewrite all_chars_append, N. cbn.
      now rewrite B.
Qed.

Lemma lines_from_newline (cur rest : str) :
  Py.lines_from false cur (newline ++ rest)%str
  = cur :: Py.lines_from false EmptyString rest.
Proof. reflexivity. Qed.

Lemma splitlines_join (l : list str) :
  Forall (fun c => Py.truthy c = true /\ no_break c = true) l ->
  Py.splitlines (Py.join newline l) = l.
Proof.
  unfold Py.splitlines, Py.join.
  induction 1 as [|x l [T N] F IH]; [reflexivity|].
  destruct l as [|y l].
  - change (Py.join newline [x]) with x.
    rewrite <- (append_empty_r x) at 1.
    rewrite lines_from_no_break by exact N.
    change (EmptyString ++ x)%str with x.
    destruct x; [discriminate | reflexivity].
  - change (Py.join newline (x :: y :: l))
      with (x ++ (newline ++ Py.join newline (y :: l)))%str.
    rewrite lines_from_no_break by exact N.
    change (EmptyString ++ x)%str with x.
    rewrite lines_from_newline, IH. reflexivity.
Qed.

(** *** [split] at double blanks *)

Lemma str_ind2 (P : str -> Prop) :
  P EmptyString ->
  (forall c, P (String c EmptyString)) ->
  (forall c c' s, P s -> P (String c' s) -> P (String c (String c' s))) ->
  forall s, P s.
Proof.
  intros P0 P1 P2 s.
  enough (A : P s /\ forall c, P (String c s)) by apply A.
  induction s as [|c' s [IH1 IH2]]; split; auto.
Qed.

Lemma split_from_cons2 (cur : str) (c c' : char) (s : str) :
  Py.split_from cur (String c (String c' s))
  = if is_blank c && is_blank c' then cur :: Py.split_from EmptyString s
    else Py.split_from (Py.snoc cur c) (String c' s).
Proof. reflexivity. Qed.

Lemma split_from_all (p : char -> bool) (s : str) :
  forall cur, all_chars p cur = true -> all_chars p s = true ->
              Forall (fun x => all_chars p x = true) (Py.split_from cur s).
Proof.
  induction s as [|c|c c' s IH1 IH2] using str_ind2; intros cur C A.
  - repeat constructor. exact C.
  - cbn. repeat constructor. unfold Py.snoc. now rewrite all_chars_append, C, A.
  - rewrite split_from_cons2. cbn [all_chars] in A.
    apply andb_true_iff in A as [A1 A2]. pose proof A2 as A2'.
    apply andb_true_iff in A2' as [A3 A4].
    destruct (is_blank c && is_blank c').
    + constructor; [exact C|]. apply IH1; [reflexivity | exact A4].
    + apply IH2; [|exact A2]. unfold Py.snoc. rewrite all_chars_append, C. cbn.
      now rewrite A1.
Qed.

Lemma no_double_blank_from_weaken (b : bool) (s : str) :
  no_double_blank_from b s = true -> no_double_blank_from false s = true.
Proof.
  destruct s as [|c s]; cbn; [trivial|]. intros A.
  apply andb_true_iff in A as [_ A]. exact A.
Qed.

Lemma no_double_blank_from_append (b : bool) (a x : str) :
  no_double_blank_from b (a ++ x)%str
  = no_double_blank_from b a && no_double_blank_from (ends_blank b a) x.
Proof.
  revert b. induction a as [|c a IH]; intros b; cbn; [reflexivity|].
  rewrite IH. apply andb_assoc.
Qed.

Lemma ends_blank_snoc (b : bool) (a : str) (c : char) :
  ends_blank b (Py.snoc a c) = is_blank c.
Proof. revert b. induction a as [|d a IH]; intros b; cbn; [reflexivity | apply IH]. Qed.

Lemma split_from_no_double_blank (s : str) :
  forall cur,
    no_double_blank cur = true ->
    ends_blank false cur && starts_blank s = false ->
    Forall (fun x => no_double_blank x = true) (Py.split_from cur s).
Proof.
  unfold no_double_blank.
  induction s as [|c|c c' s IH1 IH2] using str_ind2; intros cur C E.
  - repeat constructor. exact C.
  - cbn. repeat constructor. unfold Py.snoc.
    rewrite no_double_blank_from_append, C. cbn in *. now rewrite E.
  - rewrite split_from_cons2.
    destruct (is_blank c && is_blank c') eqn:B.
    + constructor; [exact C|]. apply IH1; reflexivity.
    + apply IH2.
      * unfold Py.snoc. rewrite no_double_blank_from_append, C. cbn in *. now rewrite E.
      * rewrite ends_blank_snoc. exact B.
Qed.

Lemma split_from_whole (s : str) :
  forall cur, no_double_blank s = true -> Py.split_from cur s = [(cur ++ s)%str].
Proof.
  unfold no_double_blank.
  induction s as [|c|c c' s IH1 IH2] using str_ind2; intros cur N.
  - cbn. now rewrite append_empty_r.
  - reflexivity.
  - rewrite split_from_cons2.
    change (no_double_blank_from false (String c (String c' s)))
      with (negb (is_blank c && is_blank c') && no_double_blank_from (is_blank c') s) in N.
    apply andb_true_iff in N as [N1 N2]. apply negb_true_iff in N1.
    rewrite N1. rewrite IH2.
    + now rewrite snoc_append.
    + exact N2.
Qed.

Lemma no_double_blank_lstrip (s : str) :
  no_double_blank s = true -> no_double_blank (Py.lstrip s) = true.
Proof.
  unfold no_double_blank. induction s as [|c s IH]; cbn [Py.lstrip]; [trivial|].
  intros N. destruct (Py.isspace c); [|exact N].
  apply IH. cbn in N. eapply no_double_blank_from_weaken. exact N.
Qed.

Lemma rstrip_prefix (s : str) : exists t, s = (Py.rstrip s ++ t)%str.
Proof.
  induction s as [|c s [t IH]]; [exists EmptyString; reflexivity|].
  cbn [Py.rstrip]. destruct (Py.rstrip s) as [|d r] eqn:R.
  - destruct (Py.isspace c).
    + exists (String c s). reflexivity.
    + exists s. reflexivity.
  - exists t. cbn. f_equal. exact IH.
Qed.

Lemma no_double_blank_rstrip (s : str) :
  no_double_blank s = true -> no_double_blank (Py.rstrip s) = true.
Proof.
  unfold no_double_blank. destruct (rstrip_prefix s) as [t E]. intros N.
  rewrite E, no_double_blank_from_append in N.
  apply andb_true_iff in N as [N _]. exact N.
Qed.

Lemma no_double_blank_strip (s : str) :
  no_double_blank s = true -> no_double_blank (Py.strip s) = true.
Proof.
  intros N. unfold Py.strip. now apply no_double_blank_rstrip, no_double_blank_lstrip.
Qed.

(** *** The fragments that are kept *)

Lemma collapse_eq (text : str) : collapse text = Py.join newline (kept_chunks text).
Proof. reflexivity. Qed.

Lemma kept_chunks_clean (text : str) : Forall clean_line (kept_chunks text).
Proof.
  unfold kept_chunks. apply Forall_forall. intros c I.
  apply filter_In in I as [I T].
  apply in_flat_map in I as (line & IL & IC).
  apply in_map_iff in IC as (piece & <- & IP).
  apply in_map_iff in IL as (raw & <- & IR).
  assert (Nraw : no_break raw = true).
  { pose proof (lines_from_all false EmptyString text eq_refl) as F.
    rewrite Forall_forall in F. apply F. exact IR. }
  assert (Npiece : no_break piece = true).
  { pose proof (split_from_all (fun c => negb (Py.is_linebreak c)) (Py.strip raw)
                  EmptyString eq_refl (all_chars_strip _ _ Nraw)) as F.
    rewrite Forall_forall in F. apply F. exact IP. }
  assert (Dpiece : no_double_blank piece = true).
  { pose proof (split_from_no_double_blank (Py.strip raw) EmptyString eq_refl eq_refl) as F.
    rewrite Forall_forall in F. apply F. exact IP. }
  repeat split.
  - exact T.
  - apply strip_idempotent.
  - apply all_chars_strip. exact Npiece.
  - apply no_double_blank_strip. exact Dpiece.
Qed.

(** *** The ends of a stripped text *)

Lemma rstrip_last (s : str) (c : char) (r : str) :
  Py.rstrip s = String c r -> Py.isspace (last_char c r) = false.
Proof.
  revert c r. induction s as [|d s IH]; intros c r; [discriminate|].
  rewrite rstrip_cons. destruct (Py.rstrip s) as [|x y] eqn:R.
  - destruct (Py.isspace d) eqn:Sp; [discriminate|]. intros [= <- <-]. exact Sp.
  - intros [= <- <-]. cbn [last_char]. apply IH. reflexivity.
Qed.

Lemma strip_ends (s : str) : no_space_at_ends (Py.strip s) = true.
Proof.
  unfold Py.strip, no_space_at_ends.
  destruct (Py.rstrip (Py.lstrip s)) as [|c r] eqn:R; [reflexivity|].
  rewrite (rstrip_last _ _ _ R), andb_true_r.
  destruct (rstrip_prefix (Py.lstrip s)) as [t E]. rewrite R in E. cbn in E.
  rewrite (lstrip_head _ _ _ E). reflexivity.
Qed.

(** Splitting the extracted text at its line boundaries gives back the
    fragments that were kept. *)
Lemma splitlines_collapse (text : str) :
  Py.splitlines (collapse text) = kept_chunks text.
Proof.
  rewrite collapse_eq. apply splitlines_join.
  eapply Forall_impl; [|exact (kept_chunks_clean text)]. cbn.
  intros c (T & _ & N & _). split; assumption.
Qed.

(** X13. The lines of the text the fetcher extracts are exactly the
    fragments it kept: none is empty, none has whitespace at either end
    (stripping it changes nothing; its first and its last character are
    no whitespace), and none has two blanks in a row. *)
Theorem collapse_lines (text : str) :
  Py.splitlines (collapse text) = kept_chunks text
  /\ Forall (fun line => Py.truthy line = true /\ Py.strip line = line
                         /\ no_space_at_ends line = true
                         /\ no_double_blank line = true)
            (Py.splitlines (collapse text)).
Proof.
  split; [apply splitlines_collapse|]. rewrite splitlines_collapse.
  eapply Forall_impl; [|exact (kept_chunks_clean text)]. cbn. intros c (T & S & _ & D).
  repeat split; try assumption. rewrite <- S. apply strip_ends.
Qed.

Lemma clean_lines_kept (l : list str) :
  Forall clean_line l ->
  filter Py.truthy
    (flat_map (fun line => map Py.strip (Py.split_2sp line)) (map Py.strip l)) = l.
Proof.
  induction 1 as [|c l (T & S & _ & D) _ IH]; [reflexivity|].
  cbn [map flat_map]. rewrite S. unfold Py.split_2sp at 1.
  rewrite (split_from_whole c EmptyString D).
  change (EmptyString ++ c)%str with c. cbn [map app].
  rewrite S. cbn [filter]. rewrite T. f_equal. exact IH.
Qed.

(** X14. The whitespace reduction is idempotent: applied to its own
    result it changes nothing. *)
Theorem collapse_idempotent (text : str) :
  collapse (collapse text) = collapse text.
Proof.
  rewrite (collapse_eq (collapse text)), (collapse_eq text). f_equal.
  unfold kept_chunks at 1. rewrite <- (collapse_eq text), splitlines_collapse.
  apply clean_lines_kept. apply kept_chunks_clean.
Qed.

(* ================================================================= *)
(** * The conversation log and the request handler *)

Section WebProperties.

Import Web.
Context {unicode : Py.Unicode} {nltk : Nltk} {float64 : Sklearn.Float64}.
Variable KB : list KnowledgeEntry.

Lemma rows_of_initialised (d : Database) : rows_of (initialised d) = rows_of d.
Proof.
  unfold initialised, rows_of. destruct (conversation d) eqn:E; [|reflexivity].
  rewrite E. reflexivity.
Qed.

Lemma conversation_initialised (d : Database) :
  conversation (initialised d) = Some (rows_of d).
Proof.
  unfold initialised, rows_of. destruct (conversation d) eqn:E; [|reflexivity].
  rewrite E. reflexivity.
Qed.

Lemma last_id_initialised (d : Database) : last_id (initialised d) = last_id d.
Proof. unfold initialised. destruct (conversation d); reflexivity. Qed.

Lemma order_by_id_sorted (l : list Row) :
  StronglySorted lt (map row_id l) -> order_by_id l = l.
Proof.
  induction l as [|x l IH]; cbn [map order_by_id fold_right]; [reflexivity|].
  intros S. inversion S as [|? ? S' F]; subst.
  fold (order_by_id l). rewrite (IH S').
  destruct l as [|y l]; [reflexivity|]. cbn [insert_by_id].
  inversion F as [|? ? Lt _]; subst. apply Nat.ltb_lt in Lt. rewrite Lt. reflexivity.
Qed.

(** The view on a request that is no POST. *)
Lemma chat_read (request : HttpRequest) (e : Env) (sv : Server) :
  g_db sv = None -> is_post (method request) = false ->
  chat KB request e sv
  = (page_or_exception e (map columns (order_by_id (rows_of (stored sv)))),
     mkServer (core sv) (initialised (stored sv)) (Some (initialised (stored sv)))
              (S (opened sv)) (closed sv)).
Proof.
  destruct sv as [c [conv lid] g o cl]. cbn [g_db]. intros -> P.
  unfold chat, init_db, wbind, get_db, create_table_if_not_exists,
    commit, select_history, on_connection, connect, set_g_db, wret, wraise, wask,
    initialised, rows_of, page_or_exception, columns, order_by_id.
  destruct conv as [rows|]; cbn;
    destruct (method request); try discriminate P;
    match goal with
    | |- context [render_template e ?n ?h] => destruct (render_template e n h)
    end; reflexivity.
Qed.

(** The view on a POST. *)
Lemma chat_write (request : HttpRequest) (e : Env) (sv : Server) :
  g_db sv = None -> method request = POST ->
  chat KB request e sv
  = match generate_response KB (form_get (form request) "message" "") e (core sv) with
    | (Ok r, c) =>
        let d := logged (stored sv) (strftime e "%Y-%m-%d %H:%M:%S")
                        (form_get (form request) "message" "") r in
        (Ok (Redirect "/"), mkServer c d (Some d) (S (opened sv)) (closed sv))
    | (Raise x, c) =>
        (Raise x, mkServer c (initialised (stored sv)) (Some (initialised (stored sv)))
                           (S (opened sv)) (closed sv))
    end.
Proof.
  destruct sv as [c0 [conv lid] g o cl]. cbn [g_db]. intros -> P.
  unfold chat, init_db, wbind, get_db, create_table_if_not_exists,
    commit, select_history, insert_conversation, on_connection, connect, set_g_db,
    wret, wask, lift, url_for, initialised, logged, rows_of.
  rewrite P.
  destruct conv as [rows|]; cbn;
    destruct (generate_response KB _ e c0) as [[r|x] c]; reflexivity.
Qed.

Lemma handle_read (request : HttpRequest) (e : Env) (sv : Server) :
  g_db sv = None -> is_post (method request) = false ->
  handle KB request e sv
  = (page_or_exception e (map columns (order_by_id (rows_of (stored sv)))),
     mkServer (core sv) (initialised (stored sv)) None (S (opened sv)) (S (closed sv))).
Proof. intros G P. unfold handle. rewrite (chat_read request e sv G P). reflexivity. Qed.

Lemma handle_write (request : HttpRequest) (e : Env) (sv : Server) :
  g_db sv = None -> method request = POST ->
  handle KB request e sv
  = match generate_response KB (form_get (form request) "message" "") e (core sv) with
    | (Ok r, c) =>
        (Ok (Redirect "/"),
         mkServer c (logged (stored sv) (strftime e "%Y-%m-%d %H:%M:%S")
                            (form_get (form request) "message" "") r)
                  None (S (opened sv)) (S (closed sv)))
    | (Raise x, c) =>
        (Raise x, mkServer c (initialised (stored sv)) None (S (opened sv)) (S (closed sv)))
    end.
Proof.
  intros G P. unfold handle. rewrite (chat_write request e sv G P).
  destruct (generate_response KB _ e (core sv)) as [[r|x] c]; reflexivity.
Qed.

Lemma consistent_initialised (d : Database) : consistent d -> consistent (initialised d).
Proof.
  unfold consistent. rewrite rows_of_initialised, last_id_initialised. trivial.
Qed.

Lemma StronglySorted_snoc (l : list nat) (n : nat) :
  StronglySorted lt l -> Forall (fun x => x < n) l -> StronglySorted lt (l ++ [n]).
Proof.
  induction 1 as [|x l S IH F]; intros B; cbn.
  - repeat constructor.
  - inversion B as [|? ? Bx Bl]; subst. constructor; [apply IH; exact Bl|].
    apply Forall_app. split; [exact F | repeat constructor; exact Bx].
Qed.

Lemma consistent_logged (d : Database) (ts m r : str) :
  consistent d -> consistent (logged d ts m r).
Proof.
  intros [S B]. unfold consistent, logged, rows_of at 1 3. cbn [conversation last_id].
  split.
  - rewrite map_app. cbn [map row_id]. apply StronglySorted_snoc; [exact S|].
    apply Forall_map. eapply Forall_impl; [|exact B]. cbn. intros; lia.
  - apply Forall_app. split.
    + eapply Forall_impl; [|exact B]. cbn. intros; lia.
    + repeat constructor.
Qed.

(** What one request does to the log, whatever the request. *)
Lemma handle_step (request : HttpRequest) (e : Env) (sv : Server) :
  g_db sv = None -> consistent (stored sv) ->
  g_db (snd (handle KB request e sv)) = None
  /\ consistent (stored (snd (handle KB request e sv)))
  /\ exists extra,
       rows_of (stored (snd (handle KB request e sv))) = rows_of (stored sv) ++ extra
       /\ List.length extra <= (if is_post (method request) then 1 else 0).
Proof.
  intros G C. destruct (is_post (method request)) eqn:P.
  - assert (Pm : method request = POST)
      by (revert P; destruct (method request); cbn; congruence).
    rewrite (handle_write request e sv G Pm).
    destruct (generate_response KB _ e (core sv)) as [[r|x] c]; cbn [snd g_db stored].
    + split; [reflexivity|]. split; [apply consistent_logged; exact C|].
      eexists. split; [reflexivity | cbn; lia].
    + split; [reflexivity|]. split; [apply consistent_initialised; exact C|].
      exists []. rewrite rows_of_initialised, app_nil_r. split; [reflexivity | cbn; lia].
  - rewrite (handle_read request e sv G P). cbn [snd g_db stored].
    split; [reflexivity|]. split; [apply consistent_initialised; exact C|].
    exists []. rewrite rows_of_initialised, app_nil_r. split; [reflexivity | cbn; lia].
Qed.

End WebProperties.

(** X15. A POST whose message the core answers is logged as exactly one
    row, appended after the rows already there, with the next id, the
    user ["guest"], the message and the response; it is committed, the
    client is redirected to the chat page and the connection is closed.
    A missing [message] field counts as the empty message. *)
Theorem post_logs_exchange {unicode : Py.Unicode} {nltk : Nltk}
        {float64 : Sklearn.Float64} (KB : list KnowledgeEntry)
        (request : Web.HttpRequest) (e : Env) (sv : Web.Server)
        (response : str) (c : State) :
  Web.g_db sv = None ->
  Web.method request = Web.POST ->
  generate_response KB (Web.form_get (Web.form request) "message" "") e (Web.core sv)
  = (Ok response, c) ->
  Web.handle KB request e sv
  = (Ok (Web.Redirect "/"),
     Web.mkServer c
       (Web.mkDatabase
          (Some (Web.rows_of (Web.stored sv)
                 ++ [Web.mkRow (S (Web.last_id (Web.stored sv)))
                               (strftime e "%Y-%m-%d %H:%M:%S") "guest"
                               (Web.form_get (Web.form request) "message" "")
                               response]))
          (S (Web.last_id (Web.stored sv))))
       None (S (Web.opened sv)) (S (Web.closed sv))).
Proof.
  intros G P R. rewrite (handle_write KB request e sv G P), R. reflexivity.
Qed.

Lemma post_logs_exchange_witness :
  Web.handle (unicode := latin1) (nltk := plain_nltk)
       (float64 := Sklearn.exact (unicode := latin1)) ADVANCED_KNOWLEDGE (Web.mkHttpRequest Web.POST [])
             (serving (page_of 10) as_is) two_exchanges
  = (Ok (Web.Redirect "/"),
     Web.mkServer (boot 0)
       (Web.mkDatabase
          (Some (Web.rows_of (Web.stored two_exchanges)
                 ++ [Web.mkRow 3 "%Y-%m-%d %H:%M:%S" "guest" ""
                               "I'm not sure how to respond to that."]))
          3)
       None 4 4).
Proof.
  apply (post_logs_exchange (unicode := latin1) (nltk := plain_nltk)
           (float64 := Sklearn.exact (unicode := latin1)) ADVANCED_KNOWLEDGE
           (Web.mkHttpRequest Web.POST []) (serving (page_of 10) as_is) two_exchanges
           "I'm not sure how to respond to that." (boot 0));
    try reflexivity.
  apply empty_message_fallback.
Defined.

(** X16. A POST on which the core raises (the rate limiter rejecting a
    scrape) logs nothing: the exception leaves the view, no row is added,
    the counter of ids is as before, and the connection is closed all the
    same. *)
Theorem failed_post_logs_nothing {unicode : Py.Unicode} {nltk : Nltk}
        {float64 : Sklearn.Float64} (KB : list KnowledgeEntry)
        (request : Web.HttpRequest) (e : Env) (sv : Web.Server)
        (x : exn) (c : State) :
  Web.g_db sv = None ->
  Web.method request = Web.POST ->
  generate_response KB (Web.form_get (Web.form request) "message" "") e (Web.core sv)
  = (Raise x, c) ->
  fst (Web.handle KB request e sv) = Raise x
  /\ Web.rows_of (Web.stored (snd (Web.handle KB request e sv)))
     = Web.rows_of (Web.stored sv)
  /\ Web.last_id (Web.stored (snd (Web.handle KB request e sv)))
     = Web.last_id (Web.stored sv)
  /\ Web.core (snd (Web.handle KB request e sv)) = c
  /\ Web.g_db (snd (Web.handle KB request e sv)) = None.
Proof.
  intros G P R. rewrite (handle_write KB request e sv G P), R. cbn.
  rewrite rows_of_initialised, last_id_initialised. repeat split; reflexivity.
Qed.

Lemma failed_post_logs_nothing_witness :
  fst (Web.handle (unicode := latin1) (nltk := plain_nltk)
       (float64 := Sklearn.exact (unicode := latin1)) ADVANCED_KNOWLEDGE
         (post_message "scrape http://example.com")
         (serving (page_of 10) as_is) server_over_quota)
  = Raise (RateLimitException "too many calls" (55 # 1))
  /\ Web.rows_of (Web.stored (snd (Web.handle (unicode := latin1) (nltk := plain_nltk)
       (float64 := Sklearn.exact (unicode := latin1)) ADVANCED_KNOWLEDGE
                                     (post_message "scrape http://example.com")
                                     (serving (page_of 10) as_is) server_over_quota)))
     = Web.rows_of (Web.stored server_over_quota)
  /\ Web.last_id (Web.stored (snd (Web.handle (unicode := latin1) (nltk := plain_nltk)
       (float64 := Sklearn.exact (unicode := latin1)) ADVANCED_KNOWLEDGE
                                     (post_message "scrape http://example.com")
                                     (serving (page_of 10) as_is) server_over_quota)))
     = Web.last_id (Web.stored server_over_quota)
  /\ Web.core (snd (Web.handle (unicode := latin1) (nltk := plain_nltk)
       (float64 := Sklearn.exact (unicode := latin1)) ADVANCED_KNOWLEDGE
                      (post_message "scrape http://example.com")
                      (serving (page_of 10) as_is) server_over_quota))
     = mkState (5 # 1) (5 # 1) 0 11 [EvInvoke "http://example.com"]
  /\ Web.g_db (snd (Web.handle (unicode := latin1) (nltk := plain_nltk)
       (float64 := Sklearn.exact (unicode := latin1)) ADVANCED_KNOWLEDGE
                      (post_message "scrape http://example.com")
                      (serving (page_of 10) as_is) server_over_quota)) = None.
Proof.
  apply (failed_post_logs_nothing (unicode := latin1) (nltk := plain_nltk)
           (float64 := Sklearn.exact (unicode := latin1)) ADVANCED_KNOWLEDGE
           (post_message "scrape http://example.com")
           (serving (page_of 10) as_is) server_over_quota
           (RateLimitException "too many calls" (55 # 1))
           (mkState (5 # 1) (5 # 1) 0 11 [EvInvoke "http://example.com"]));
    vm_compute; reflexivity.
Defined.

(** X17. A GET (or HEAD) hands the whole log, in the order of insertion,
    to the template [chatbot.html] and answers with what
    [render_template] makes of it, the page or the exception it raises
    ([TemplateNotFound] in this repository, which ships no template); it
    changes neither the rows nor the state of the core.  The ids in the
    log are taken to increase, as they do in every log the handler
    built. *)
Theorem get_shows_history_in_order {unicode : Py.Unicode} {nltk : Nltk}
        {float64 : Sklearn.Float64} (KB : list KnowledgeEntry)
        (request : Web.HttpRequest) (e : Env) (sv : Web.Server) :
  Web.g_db sv = None ->
  is_post (Web.method request) = false ->
  Web.consistent (Web.stored sv) ->
  fst (Web.handle KB request e sv)
  = match render_template e "chatbot.html"
            (map Web.columns (Web.rows_of (Web.stored sv))) with
    | Ok page => Ok (Web.Rendered page)
    | Raise x => Raise x
    end
  /\ Web.rows_of (Web.stored (snd (Web.handle KB request e sv)))
     = Web.rows_of (Web.stored sv)
  /\ Web.core (snd (Web.handle KB request e sv)) = Web.core sv.
Proof.
  intros G P [S _]. rewrite (handle_read KB request e sv G P). cbn.
  rewrite (order_by_id_sorted _ S), rows_of_initialised. repeat split; reflexivity.
Qed.

Lemma consistent_two_exchanges : Web.consistent (Web.stored two_exchanges).
Proof.
  split; cbn.
  - repeat constructor.
  - repeat constructor.
Defined.

Lemma get_shows_history_in_order_witness :
  (fst (Web.handle (unicode := latin1) (nltk := plain_nltk)
          (float64 := Sklearn.exact (unicode := latin1)) ADVANCED_KNOWLEDGE get_page
          (serving (page_of 10) as_is) two_exchanges)
   = Raise (TemplateNotFound "chatbot.html")
   /\ Web.rows_of (Web.stored (snd (Web.handle (unicode := latin1) (nltk := plain_nltk)
                                      (float64 := Sklearn.exact (unicode := latin1))
                                      ADVANCED_KNOWLEDGE get_page
                                      (serving (page_of 10) as_is) two_exchanges)))
      = Web.rows_of (Web.stored two_exchanges)
   /\ Web.core (snd (Web.handle (unicode := latin1) (nltk := plain_nltk)
                       (float64 := Sklearn.exact (unicode := latin1))
                       ADVANCED_KNOWLEDGE get_page
                       (serving (page_of 10) as_is) two_exchanges))
      = Web.core two_exchanges)
  /\ fst (Web.handle (unicode := latin1) (nltk := plain_nltk)
            (float64 := Sklearn.exact (unicode := latin1)) ADVANCED_KNOWLEDGE get_page
            (deployed (page_of 10) as_is) two_exchanges)
     = Ok (Web.Rendered
             (Py.append "hello / Hello there! How can I help you today?"
                (Py.append newline "bye / I'm not sure how to respond to that."))).
Proof.
  split.
  - exact (get_shows_history_in_order (unicode := latin1) (nltk := plain_nltk)
             (float64 := Sklearn.exact (unicode := latin1)) ADVANCED_KNOWLEDGE get_page
             (serving (page_of 10) as_is) two_exchanges eq_refl eq_refl
             consistent_two_exchanges).
  - exact (proj1 (get_shows_history_in_order (unicode := latin1) (nltk := plain_nltk)
                    (float64 := Sklearn.exact (unicode := latin1)) ADVANCED_KNOWLEDGE
                    get_page (deployed (page_of 10) as_is) two_exchanges eq_refl eq_refl
                    consistent_two_exchanges)).
Defined.

(** X18. Serving a request opens exactly one connection, although
    [get_db] is called twice, and closes it; and the handler never fails
    on the database: an exception that leaves it is one raised by
    [generate_response] on a POST, or one raised by [render_template] on
    a request that is no POST. *)
Theorem one_connection_per_request {unicode : Py.Unicode} {nltk : Nltk}
        {float64 : Sklearn.Float64} (KB : list KnowledgeEntry)
        (request : Web.HttpRequest) (e : Env) (sv : Web.Server) :
  Web.g_db sv = None ->
  Web.opened (snd (Web.handle KB request e sv)) = S (Web.opened sv)
  /\ Web.closed (snd (Web.handle KB request e sv)) = S (Web.closed sv)
  /\ Web.g_db (snd (Web.handle KB request e sv)) = None
  /\ forall x, fst (Web.handle KB request e sv) = Raise x ->
               (Web.method request = Web.POST
                /\ fst (generate_response KB (Web.form_get (Web.form request) "message" "")
                          e (Web.core sv)) = Raise x)
               \/ (is_post (Web.method request) = false
                   /\ render_template e "chatbot.html"
                        (map Web.columns (Web.order_by_id (Web.rows_of (Web.stored sv))))
                      = Raise x).
Proof.
  intros G. destruct (is_post (Web.method request)) eqn:P.
  - assert (Pm : Web.method request = Web.POST)
      by (revert P; destruct (Web.method request); cbn; congruence).
    rewrite (handle_write KB request e sv G Pm).
    destruct (generate_response KB _ e (Web.core sv)) as [[r|x] c];
      cbn [fst snd Web.opened Web.closed Web.g_db];
      (split; [reflexivity|]); (split; [reflexivity|]); (split; [reflexivity|]).
    + intros y Y. discriminate Y.
    + intros y Y. injection Y as <-. left. split; [exact Pm | reflexivity].
  - rewrite (handle_read KB request e sv G P).
    cbn [fst snd Web.opened Web.closed Web.g_db].
    (split; [reflexivity|]); (split; [reflexivity|]); (split; [reflexivity|]).
    intros y Y. right. split; [reflexivity|]. unfold page_or_exception in Y.
    destruct (render_template e _ _) as [page|x]; [discriminate Y|].
    injection Y as <-. reflexivity.
Qed.

Lemma one_connection_per_request_witness :
  Web.opened (snd (Web.handle (unicode := latin1) (nltk := plain_nltk)
                     (float64 := Sklearn.exact (unicode := latin1))
                     ADVANCED_KNOWLEDGE get_page
                     (serving (page_of 10) as_is) two_exchanges)) = 4
  /\ Web.closed (snd (Web.handle (unicode := latin1) (nltk := plain_nltk)
                        (float64 := Sklearn.exact (unicode := latin1))
                        ADVANCED_KNOWLEDGE get_page
                        (serving (page_of 10) as_is) two_exchanges)) = 4
  /\ Web.g_db (snd (Web.handle (unicode := latin1) (nltk := plain_nltk)
                      (float64 := Sklearn.exact (unicode := latin1))
                      ADVANCED_KNOWLEDGE get_page
                      (serving (page_of 10) as_is) two_exchanges)) = None
  /\ (is_post (Web.method get_page) = false
      /\ render_template (serving (page_of 10) as_is) "chatbot.html"
           (map Web.columns (Web.order_by_id (Web.rows_of (Web.stored two_exchanges))))
         = Raise (TemplateNotFound "chatbot.html")).
Proof.
  pose proof (one_connection_per_request (unicode := latin1) (nltk := plain_nltk)
                (float64 := Sklearn.exact (unicode := latin1))
                ADVANCED_KNOWLEDGE get_page
                (serving (page_of 10) as_is) two_exchanges eq_refl) as (A & B & C & D).
  split; [exact A|]. split; [exact B|]. split; [exact C|].
  destruct (D (TemplateNotFound "chatbot.html") eq_refl) as [[Pm _]|R];
    [discriminate Pm | exact R].
Defined.

Lemma handle_all_invariant {unicode : Py.Unicode} {nltk : Nltk}
        {float64 : Sklearn.Float64} (KB : list KnowledgeEntry)
      (requests : list (Web.HttpRequest * Env)) (sv : Web.Server) :
  Web.g_db sv = None -> Web.consistent (Web.stored sv) ->
  Web.g_db (Web.handle_all KB requests sv) = None
  /\ Web.consistent (Web.stored (Web.handle_all KB requests sv))
  /\ exists extra,
       Web.rows_of (Web.stored (Web.handle_all KB requests sv))
       = Web.rows_of (Web.stored sv) ++ extra
       /\ List.length extra <= posts requests.
Proof.
  revert sv. induction requests as [|[request e] requests IH]; intros sv G C.
  - cbn. split; [exact G|]. split; [exact C|]. exists []. rewrite app_nil_r.
    split; [reflexivity | cbn; lia].
  - cbn [Web.handle_all].
    destruct (handle_step KB request e sv G C) as (G1 & C1 & extra1 & E1 & L1).
    destruct (IH _ G1 C1) as (G2 & C2 & extra2 & E2 & L2).
    split; [exact G2|]. split; [exact C2|]. exists (extra1 ++ extra2). split.
    + rewrite E2, E1, app_assoc. reflexivity.
    + rewrite length_app. unfold posts in *. cbn [filter fst].
      destruct (is_post (Web.method request)); cbn [List.length]; lia.
Qed.

(** X19. The log is append-only.  After any sequence of requests, served
    from a state with no open connection and a log whose ids increase,
    the log is the old one followed by at most one new row per POST, its
    ids still increase, no connection is left open, and a GET shows the
    old history first, in its order, and then the new exchanges: that
    is the history [render_template] is given, and the response is what
    it makes of it, a page or the exception it raises. *)
Theorem log_is_append_only {unicode : Py.Unicode} {nltk : Nltk}
        {float64 : Sklearn.Float64} (KB : list KnowledgeEntry)
        (requests : list (Web.HttpRequest * Env)) (e : Env) (sv : Web.Server) :
  Web.g_db sv = None -> Web.consistent (Web.stored sv) ->
  Web.g_db (Web.handle_all KB requests sv) = None
  /\ Web.consistent (Web.stored (Web.handle_all KB requests sv))
  /\ exists extra,
       Web.rows_of (Web.stored (Web.handle_all KB requests sv))
       = Web.rows_of (Web.stored sv) ++ extra
       /\ List.length extra <= posts requests
       /\ fst (Web.handle KB get_page e (Web.handle_all KB requests sv))
          = match render_template e "chatbot.html"
                    (map Web.columns (Web.rows_of (Web.stored sv))
                     ++ map Web.columns extra) with
            | Ok page => Ok (Web.Rendered page)
            | Raise x => Raise x
            end.
Proof.
  intros G C.
  destruct (handle_all_invariant KB requests sv G C) as (G1 & [S1 B1] & extra & E & L).
  split; [exact G1|]. split; [split; assumption|]. exists extra.
  split; [exact E|]. split; [exact L|].
  rewrite (handle_read KB get_page e _ G1 eq_refl). cbn [fst].
  rewrite (order_by_id_sorted _ S1), E, map_app. reflexivity.
Qed.

Lemma consistent_fresh (t : Q) : Web.consistent (Web.stored (Web.fresh t)).
Proof. split; cbn; constructor. Defined.

Lemma log_is_append_only_witness :
  Web.g_db (Web.handle_all (unicode := latin1) (nltk := plain_nltk)
       (float64 := Sklearn.exact (unicode := latin1)) ADVANCED_KNOWLEDGE short_session
              (Web.fresh 0)) = None
  /\ Web.consistent (Web.stored (Web.handle_all (unicode := latin1) (nltk := plain_nltk)
       (float64 := Sklearn.exact (unicode := latin1)) ADVANCED_KNOWLEDGE
                                   short_session (Web.fresh 0)))
  /\ exists extra,
       Web.rows_of (Web.stored (Web.handle_all (unicode := latin1) (nltk := plain_nltk)
       (float64 := Sklearn.exact (unicode := latin1)) ADVANCED_KNOWLEDGE
                                  short_session (Web.fresh 0)))
       = Web.rows_of (Web.stored (Web.fresh 0)) ++ extra
       /\ List.length extra <= posts short_session
       /\ fst (Web.handle (unicode := latin1) (nltk := plain_nltk)
       (float64 := Sklearn.exact (unicode := latin1)) ADVANCED_KNOWLEDGE get_page
                 (deployed (page_of 10) as_is)
                 (Web.handle_all (unicode := latin1) (nltk := plain_nltk)
       (float64 := Sklearn.exact (unicode := latin1)) ADVANCED_KNOWLEDGE short_session
                    (Web.fresh 0)))
          = match render_template (deployed (page_of 10) as_is) "chatbot.html"
                    (map Web.columns (Web.rows_of (Web.stored (Web.fresh 0)))
                     ++ map Web.columns extra) with
            | Ok page => Ok (Web.Rendered page)
            | Raise x => Raise x
            end.
Proof.
  exact (log_is_append_only (unicode := latin1) (nltk := plain_nltk)
           (float64 := Sklearn.exact (unicode := latin1)) ADVANCED_KNOWLEDGE short_session
           (deployed (page_of 10) as_is) (Web.fresh 0) eq_refl (consistent_fresh 0)).
Defined.
